(** * VeritasChain: the score aggregation and evidence-fusion pipeline

    A shallow embedding of [blockchain_analyzer.py] and [veritas_agent.py]:
    the on-chain scorer, the distribution score, the off-chain placeholder,
    the evidence normaliser, the judgment-oracle adapter and the score
    aggregator, followed by the properties of the specification.

    Conventions.
    - Python [int] is [Z]; Python [float] is an IEEE 754 binary64 value,
      [spec_float] with [prec = 53] and [emax = 1024]; a number that is only
      compared (a holder percentage) is its exact rational value in [Q].
    - Python [str] is [string], one character per code point, for text
      whose code points lie below U+0100.
    - A [dict] is an association list in insertion order, since the order of
      the keys is part of a JSON document.
    - A call that may raise returns an [outcome]: the value, or the message
      of the [Exception] ([str(e)]).
    - The calls that leave the process (the chain-facts provider, the
      off-chain scan, the judgment oracle, the clock) are arguments of the
      functions that make them. *)

From Stdlib Require Import ZArith QArith Qround Bool List String Ascii Lia.
From Stdlib Require Import Permutation.
From Stdlib Require Import SpecFloat DecimalString.
Import ListNotations.

Set Warnings "-register-all".

Open Scope string_scope.
Open Scope Z_scope.

(** ** Exceptions *)

Inductive outcome (A : Type) : Type :=
| Returned (a : A)
| Raised (msg : string).
Arguments Returned {A} a.
Arguments Raised {A} msg.

Definition bind {A B : Type} (c : outcome A) (k : A -> outcome B) : outcome B :=
  match c with
  | Returned a => k a
  | Raised msg => Raised msg
  end.

Notation "x <- c ;; k" := (bind c (fun x => k))
  (at level 61, c at next level, right associativity).

Definition returns {A : Type} (c : outcome A) : bool :=
  match c with Returned _ => true | Raised _ => false end.

(** Run [f] on each element from left to right; the first exception stops
    the loop. *)
Definition traverse {A B : Type} (f : A -> outcome B) : list A -> outcome (list B) :=
  fix go (l : list A) : outcome (list B) :=
    match l with
    | [] => Returned []
    | x :: r => y <- f x ;; ys <- go r ;; Returned (y :: ys)
    end.

(** ** Python floats: IEEE 754 binary64 *)

Module PyFloat.

Definition prec : Z := 53.
Definition emax : Z := 1024.

Definition float := spec_float.

(** [float(n)] for an [int] operand of a mixed operation: the nearest
    double (ties to even); Python raises [OverflowError] where the rounding
    overflows. *)
Definition of_int (n : Z) : outcome float :=
  match binary_normalize prec emax n 0 false with
  | S754_infinity _ => Raised "int too large to convert to float"
  | f => Returned f
  end.

Definition mul : float -> float -> float := SFmul prec emax.
Definition add : float -> float -> float := SFadd prec emax.
Definition div : float -> float -> float := SFdiv prec emax.

(** A decimal literal [n/d] denotes the double nearest to the quotient. *)
Definition literal (n d : Z) : float :=
  div (binary_normalize prec emax n 0 false)
      (binary_normalize prec emax d 0 false).

(** [int(x)]: truncation toward zero; [ValueError] on NaN and
    [OverflowError] on an infinity. *)
Definition to_int (x : float) : outcome Z :=
  match x with
  | S754_zero _ => Returned 0
  | S754_finite s m e =>
      let a := match e with
               | Z0 => Zpos m
               | Zpos _ => Z.shiftl (Zpos m) e
               | Zneg p => Z.shiftr (Zpos m) (Zpos p)
               end in
      Returned (if s then - a else a)
  | S754_nan => Raised "cannot convert float NaN to integer"
  | S754_infinity _ => Raised "cannot convert float infinity to integer"
  end.

(** The exact rational value of a finite double (0 for the others). *)
Definition to_Q (x : float) : Q :=
  match x with
  | S754_finite s m e =>
      let a := match e with
               | Z0 => inject_Z (Zpos m)
               | Zpos _ => inject_Z (Z.shiftl (Zpos m) e)
               | Zneg p => Qmake (Zpos m) (Pos.shiftl 1 (Npos p))
               end in
      if s then Qopp a else a
  | _ => 0%Q
  end.

(** [n * w] for an [int] [n] and a [float] [w]. *)
Definition int_times (n : Z) (w : float) : outcome float :=
  x <- of_int n ;; Returned (mul x w).

End PyFloat.

(** ** Python values and JSON *)

Module Py.

(** The values the analysers hand to the normaliser.  [PObj] is an
    instance that has a [__dict__] (a dataclass instance), with its
    attributes in definition order; [POpaque] is any other value without
    [__dict__] that is not a JSON primitive (a [datetime], shown by its
    ISO text). *)
Inductive value : Type :=
| PNone
| PBool (b : bool)
| PInt (n : Z)
| PFloat (x : PyFloat.float)
| PStr (s : string)
| PList (items : list value)
| PDict (items : list (string * value))
| PObj (cls : string) (attrs : list (string * value))
| POpaque (repr : string).

Definition dict := list (string * value).

(** [d.get(key)] *)
Fixpoint dict_get (d : dict) (key : string) : option value :=
  match d with
  | [] => None
  | (k, v) :: rest => if String.eqb k key then Some v else dict_get rest key
  end.

(** [d.get(key, default)] *)
Definition dict_get_default (d : dict) (key : string) (default : value) : value :=
  match dict_get d key with
  | Some v => v
  | None => default
  end.

(** [d[key] = v]: an existing key keeps its position, a new key goes last. *)
Fixpoint dict_set (d : dict) (key : string) (v : value) : dict :=
  match d with
  | [] => [(key, v)]
  | (k, w) :: rest =>
      if String.eqb k key then (k, v) :: rest
      else (k, w) :: dict_set rest key v
  end.

(** The dict built by [result = {}] and one [result[k] = v] per pair. *)
Definition dict_of_items (items : list (string * value)) : dict :=
  fold_left (fun d kv => dict_set d (fst kv) (snd kv)) items [].

Definition keys (d : dict) : list string := map fst d.

(** [hasattr(v, '__dict__')] *)
Definition has_dict (v : value) : bool :=
  match v with
  | PObj _ _ => true
  | _ => false
  end.

(** [getattr(v, name, default)] *)
Definition getattr (v : value) (name : string) (default : value) : value :=
  match v with
  | PObj _ attrs => dict_get_default attrs name default
  | _ => default
  end.

(** Truth value of an optional string: [None] and [''] are false. *)
Definition truthy_str (s : option string) : bool :=
  match s with
  | None => false
  | Some EmptyString => false
  | Some _ => true
  end.

(** [str(n)] *)
Definition str_of_int (n : Z) : string := NilZero.string_of_int (Z.to_int n).

Definition str_list (l : list string) : value := PList (map PStr l).

(** *** JSON documents

    A JSON text is taken by its syntax tree.  [json.dumps] maps a value to
    the tree of the text it writes and raises [TypeError] on a value that
    has no JSON form; [json.loads] maps the tree of a text to the value it
    builds.  The step between tree and characters is the [json] module's. *)
Inductive json : Type :=
| JNull
| JBool (b : bool)
| JInt (n : Z)
| JFloat (x : PyFloat.float)
| JStr (s : string)
| JArr (items : list json)
| JObj (members : list (string * json)).

Fixpoint json_dumps (v : value) : outcome json :=
  match v with
  | PNone => Returned JNull
  | PBool b => Returned (JBool b)
  | PInt n => Returned (JInt n)
  | PFloat x => Returned (JFloat x)
  | PStr s => Returned (JStr s)
  | PList items =>
      js <- traverse json_dumps items ;;
      Returned (JArr js)
  | PDict items =>
      ms <- traverse (fun '(k, x) => j <- json_dumps x ;; Returned (k, j)) items ;;
      Returned (JObj ms)
  | PObj cls _ => Raised ("Object of type " ++ cls ++ " is not JSON serializable")
  | POpaque _ => Raised "Object is not JSON serializable"
  end.

(** [json.loads] on the tree of a text: an object becomes a dict, a
    repeated member name keeping its last value. *)
Fixpoint json_decode (j : json) : value :=
  match j with
  | JNull => PNone
  | JBool b => PBool b
  | JInt n => PInt n
  | JFloat x => PFloat x
  | JStr s => PStr s
  | JArr items => PList (map json_decode items)
  | JObj members =>
      PDict (dict_of_items (map (fun '(k, x) => (k, json_decode x)) members))
  end.

(** No string occurs twice. *)
Fixpoint distinct (l : list string) : bool :=
  match l with
  | [] => true
  | k :: r => negb (existsb (String.eqb k) r) && distinct r
  end.

(** Values made of JSON primitives, lists and dicts with distinct keys:
    no instance and no opaque value at any depth. *)
Fixpoint json_safe (v : value) : bool :=
  match v with
  | PNone | PBool _ | PInt _ | PFloat _ | PStr _ => true
  | PList items => forallb json_safe items
  | PDict items =>
      distinct (map fst items) && forallb (fun '(_, x) => json_safe x) items
  | PObj _ _ | POpaque _ => false
  end.

End Py.

(** ** blockchain_analyzer.py *)

Module blockchain_analyzer.

(** A [datetime], kept as its ISO 8601 text ([isoformat()] reads it). *)
Definition datetime := string.

(** [@dataclass ContractAnalysis] *)
Record ContractAnalysis : Type := {
  address : string;
  is_verified : bool;
  creation_date : option datetime;
  creator_address : string;
  transaction_count : Z;
  unique_interactors : Z;
  total_value_locked : PyFloat.float;
  proxy_pattern : bool;
  ownership_analysis : Py.dict;
  security_indicators : list string;
  risk_factors : list string
}.

(** The instance as the normaliser sees it: its [__dict__], fields in the
    order of the dataclass. *)
Definition instance (a : ContractAnalysis) : Py.value :=
  Py.PObj "ContractAnalysis"
    [ ("address", Py.PStr (address a));
      ("is_verified", Py.PBool (is_verified a));
      ("creation_date",
         match creation_date a with
         | Some d => Py.POpaque d
         | None => Py.PNone
         end);
      ("creator_address", Py.PStr (creator_address a));
      ("transaction_count", Py.PInt (transaction_count a));
      ("unique_interactors", Py.PInt (unique_interactors a));
      ("total_value_locked", Py.PFloat (total_value_locked a));
      ("proxy_pattern", Py.PBool (proxy_pattern a));
      ("ownership_analysis", Py.PDict (ownership_analysis a));
      ("security_indicators", Py.str_list (security_indicators a));
      ("risk_factors", Py.str_list (risk_factors a)) ].

(** What [analyze_contract] asks of its Web3 connection. *)
Record Web3 : Type := {
  is_address : string -> bool;
  to_checksum_address : string -> string;
  get_code : string -> outcome (list ascii)
}.

(** [analyze_contract(contract_address)] on the default chain.  [w3] is
    [self.w3_connections.get(chain)]; [created] is the reading
    [datetime.now() - timedelta(days=30)].  The five [_check_*], [_get_*]
    and [_analyze_*] helpers return the fixed records written here. *)
Definition analyze_contract (w3 : option Web3) (created : datetime)
    (contract_address : string) : outcome ContractAnalysis :=
  match w3 with
  | None => Raised "No connection available for ethereum"
  | Some w =>
      if negb (is_address w contract_address)
      then Raised ("Invalid address format: " ++ contract_address)
      else
        let address := to_checksum_address w contract_address in
        code <- get_code w address ;;
        if negb (0 <? Z.of_nat (List.length code))
        then Raised ("Address " ++ address ++ " is not a contract")
        else
          Returned
            {| address := address;
               is_verified := true;
               creation_date := Some created;
               creator_address := "0x742d35Cc6634C0532925a3b8D4030d542F5a5bD";
               transaction_count := 1500;
               unique_interactors := 450;
               total_value_locked := PyFloat.literal 2500000 1;
               proxy_pattern := false;
               ownership_analysis :=
                 [ ("has_owner", Py.PBool true);
                   ("owner_address", Py.PStr "0x742d35Cc6634C0532925a3b8D4030d542F5a5bD");
                   ("is_multisig", Py.PBool false);
                   ("timelock_delay", Py.PInt 0);
                   ("upgrade_pattern", Py.PStr "none");
                   ("admin_keys", Py.str_list ["owner"]) ];
               security_indicators :=
                 [ "Contract verified";
                   "No obvious vulnerabilities";
                   "Standard patterns used" ];
               risk_factors :=
                 [ "Owner has full control";
                   "No timelock on critical functions" ] |}
  end.

(** One entry of ["top_holders"]. *)
Record Holder : Type := {
  holder_address : string;
  balance : Q;
  percentage : Q
}.

(** The dict of [_analyze_token_holders]; [top_holders] is [None] when the
    key is missing. *)
Record HolderAnalysis : Type := {
  total_holders : Z;
  top_holders : option (list Holder)
}.

(** The holder analysis whose first holder is [top]. *)
Definition led_by (top : Holder) (rest : list Holder) (n : Z) : HolderAnalysis :=
  {| total_holders := n; top_holders := Some (top :: rest) |}.

(** [p > c] on numbers, by exact value: an [int] or a finite [float] is a
    rational, and Python compares the two kinds exactly.  (On a NaN every
    test below is false.) *)
Definition gt (p c : Q) : bool := negb (Qle_bool p c).

(** [_calculate_distribution_score(holder_analysis)] *)
Definition _calculate_distribution_score (holder_analysis : HolderAnalysis) : Z :=
  match top_holders holder_analysis with
  | None | Some [] => 50
  | Some (top :: _) =>
      let top_holder_percentage := percentage top in
      if gt top_holder_percentage 50 then 20
      else if gt top_holder_percentage 30 then 40
      else if gt top_holder_percentage 20 then 60
      else if gt top_holder_percentage 10 then 80
      else 95
  end.

(** [quick_contract_score(contract_address)]; [analysis] is the outcome of
    the [analyze_contract] call it makes. *)
Definition quick_contract_score (analysis : outcome ContractAnalysis) : Z :=
  match analysis with
  | Returned analysis =>
      let score := 50 in
      let score := if is_verified analysis then score + 20 else score in
      let score := if transaction_count analysis >? 100 then score + 10 else score in
      let score := if unique_interactors analysis >? 50 then score + 10 else score in
      let score :=
        if Nat.eqb (List.length (risk_factors analysis)) 0 then score + 10 else score in
      Z.min 100 (Z.max 1 score)
  | Raised _ => 50
  end.

(** The four bonuses of [quick_contract_score], each on its own. *)
Definition bonuses (analysis : ContractAnalysis) : list Z :=
  [ if is_verified analysis then 20 else 0;
    if transaction_count analysis >? 100 then 10 else 0;
    if unique_interactors analysis >? 50 then 10 else 0;
    match risk_factors analysis with [] => 10 | _ => 0 end ].

Definition sum (l : list Z) : Z := fold_right Z.add 0 l.

End blockchain_analyzer.

(** ** veritas_agent.py *)

Module veritas_agent.

Import blockchain_analyzer.

(** [@dataclass ProjectData]; [project_address] is its field [address]. *)
Record ProjectData : Type := {
  name : string;
  project_address : option string;
  website : option string;
  social_links : Py.dict;
  on_chain_data : Py.dict;
  off_chain_data : Py.dict
}.

(** The ["analysis"] entry of a sub-score dict: a note, or the analyser's
    [ContractAnalysis]. *)
Inductive analysis_entry : Type :=
| Note (text : string)
| Analysis (a : ContractAnalysis).

(** The dict returned by [_analyze_on_chain_data] and
    [_analyze_off_chain_data].  The keys ["analysis"] and
    ["total_value_locked"] ([tvl]) are present on some paths only. *)
Record SubScore : Type := {
  score : Z;
  factors : list string;
  risks : list string;
  analysis : option analysis_entry;
  tvl : option PyFloat.float
}.

(** The dict itself, keys in the order the source writes them. *)
Definition as_dict (r : SubScore) : Py.value :=
  Py.PDict
    ([ ("score", Py.PInt (score r));
       ("factors", Py.str_list (factors r));
       ("risks", Py.str_list (risks r)) ]
     ++ match analysis r with
        | Some (Note text) => [ ("analysis", Py.PStr text) ]
        | Some (Analysis a) => [ ("analysis", instance a) ]
        | None => []
        end
     ++ match tvl r with
        | Some x => [ ("total_value_locked", Py.PFloat x) ]
        | None => []
        end).

(** [@dataclass VeritasScore] *)
Record VeritasScore : Type := {
  overall_score : Z;
  confidence_level : Py.value;
  on_chain_score : Z;
  off_chain_score : Z;
  risk_factors : list string;
  positive_factors : list string;
  analysis_timestamp : datetime;
  evidence : Py.value
}.

(** [identifier.startswith('0x')] is [String.prefix "0x" identifier];
    [identifier[:8]] is [String.substring 0 8 identifier]. *)
Definition is_address (identifier : string) : bool :=
  Nat.eqb (String.length identifier) 42 && String.prefix "0x" identifier.

(** [_collect_project_data(identifier, project_type)].  [facts] is the
    outcome of its [analyze_contract] call and [scan] the outcome of
    [quick_project_scan]; a failure of either is printed and dropped. *)
Definition _collect_project_data (identifier project_type : string)
    (facts : outcome ContractAnalysis) (scan : outcome Py.dict) : ProjectData :=
  let is_address := is_address identifier in
  let name := if negb is_address then identifier
              else "Contract_" ++ String.substring 0 8 identifier in
  let address := if is_address then Some identifier else None in
  let on_chain_data :=
    if is_address then
      match facts with
      | Returned contract_analysis =>
          Py.dict_set [] "basic_analysis"
            (Py.PDict
               [ ("verified", Py.PBool (blockchain_analyzer.is_verified contract_analysis));
                 ("transaction_count", Py.PInt (transaction_count contract_analysis));
                 ("creation_date",
                    match creation_date contract_analysis with
                    | Some d => Py.PStr d
                    | None => Py.PNone
                    end) ])
      | Raised _ => []
      end
    else [] in
  let off_chain_data :=
    match scan with
    | Returned off_chain_data => off_chain_data
    | Raised _ => []
    end in
  {| name := name;
     project_address := address;
     website := None;
     social_links := [];
     on_chain_data := on_chain_data;
     off_chain_data := off_chain_data |}.

(** [_analyze_on_chain_data(project_data)].  [facts] is the outcome of the
    [analyze_contract] call made here, [facts_for_score] the outcome of
    the one made inside [quick_contract_score]. *)
Definition _analyze_on_chain_data (project_data : ProjectData)
    (facts facts_for_score : outcome ContractAnalysis) : SubScore :=
  if negb (Py.truthy_str (project_address project_data)) then
    {| score := 30;
       factors := [];
       risks := ["No contract address provided"];
       analysis := Some (Note "Cannot perform on-chain analysis without contract address");
       tvl := None |}
  else
    match facts with
    | Returned contract_analysis =>
        let score := quick_contract_score facts_for_score in
        let factors := [] in
        let factors :=
          if blockchain_analyzer.is_verified contract_analysis
          then (factors ++ ["Contract source code verified"])%list else factors in
        let factors :=
          if transaction_count contract_analysis >? 100
          then (factors ++ [("Active usage ("
                               ++ Py.str_of_int (transaction_count contract_analysis)
                               ++ " transactions)")%string])%list
          else factors in
        let factors :=
          if unique_interactors contract_analysis >? 50
          then (factors ++ [("Diverse user base ("
                               ++ Py.str_of_int (unique_interactors contract_analysis)
                               ++ " unique users)")%string])%list
          else factors in
        let factors := (factors ++ security_indicators contract_analysis)%list in
        let risks := blockchain_analyzer.risk_factors contract_analysis in
        let risks :=
          if transaction_count contract_analysis <? 10
          then (risks ++ ["Very low transaction activity"])%list else risks in
        let risks :=
          if negb (blockchain_analyzer.is_verified contract_analysis)
          then (risks ++ ["Contract source code not verified"])%list else risks in
        {| score := score;
           factors := factors;
           risks := risks;
           analysis := Some (Analysis contract_analysis);
           tvl := Some (total_value_locked contract_analysis) |}
    | Raised e =>
        {| score := 20;
           factors := [];
           risks := ["Analysis failed: " ++ e];
           analysis := Some (Note "Error during on-chain analysis");
           tvl := None |}
    end.

(** [_analyze_off_chain_data(project_data)]: the placeholder. *)
Definition _analyze_off_chain_data (project_data : ProjectData) : SubScore :=
  {| score := 75;
     factors := ["Positive media coverage"; "Active community"];
     risks := ["Limited team information"];
     analysis := None;
     tvl := None |}.

(** [_serialize_analysis_data(data)] *)
Fixpoint _serialize_analysis_data (data : Py.value) : Py.value :=
  match data with
  | Py.PDict items =>
      Py.PDict
        (Py.dict_of_items
           (map (fun '(key, value) =>
                   if String.eqb key "analysis" && Py.has_dict value then
                     (key,
                      Py.PDict
                        [ ("address", Py.getattr value "address" (Py.PStr ""));
                          ("is_verified", Py.getattr value "is_verified" (Py.PBool false));
                          ("transaction_count", Py.getattr value "transaction_count" (Py.PInt 0));
                          ("unique_interactors", Py.getattr value "unique_interactors" (Py.PInt 0));
                          ("risk_factors", Py.getattr value "risk_factors" (Py.PList []));
                          ("security_indicators",
                             Py.getattr value "security_indicators" (Py.PList [])) ])
                   else (key, _serialize_analysis_data value))
                items))
  | Py.PList items => Py.PList (map _serialize_analysis_data items)
  | Py.PObj _ attrs =>
      Py.PDict
        (Py.dict_of_items (map (fun '(k, v) => (k, _serialize_analysis_data v)) attrs))
  | _ => data
  end.

(** *** The judgment oracle and the aggregator *)

Section Oracle.

(** The [json] module's reader: the syntax tree of a JSON text, [None]
    where [json.loads] raises [JSONDecodeError]. *)
Variable parse_json : string -> option Py.json.

(** The chat-completion call on the serialised evidence, up to
    [response.choices[0].message.content]: the content (possibly
    [None]), or the exception of the call. *)
Variable judge : Py.json -> outcome (option string).

(** [json.loads(content)] *)
Definition json_loads (content : string) : outcome Py.value :=
  match parse_json content with
  | Some tree => Returned (Py.json_decode tree)
  | None => Raised "Expecting value"
  end.

(** The dict of the [except] branch of [_ai_score_analysis]. *)
Definition degraded_judgment : Py.value :=
  Py.PDict
    [ ("confidence", Py.PFloat (PyFloat.literal 5 10));
      ("key_insights", Py.str_list ["AI analysis incomplete due to error"]);
      ("risk_level", Py.PStr "medium");
      ("recommendation", Py.PStr "Manual review recommended") ].

(** The [try] block of [_ai_score_analysis(evidence)]. *)
Definition ai_request (evidence : Py.value) : outcome Py.value :=
  prompt <- Py.json_dumps evidence ;;
  content <- judge prompt ;;
  match content with
  | Some (String c s) => json_loads (String c s)
  | _ => Raised "Empty response from AI"
  end.

(** [_ai_score_analysis(evidence)] *)
Definition _ai_score_analysis (evidence : Py.value) : Py.value :=
  match ai_request evidence with
  | Returned judgment => judgment
  | Raised _ => degraded_judgment
  end.

Definition on_chain_weight : PyFloat.float := PyFloat.literal 6 10.
Definition off_chain_weight : PyFloat.float := PyFloat.literal 4 10.

(** [on_chain["score"] * on_chain_weight + off_chain["score"] * off_chain_weight] *)
Definition weighted_sum (on_chain_score off_chain_score : Z) : outcome PyFloat.float :=
  a <- PyFloat.int_times on_chain_score on_chain_weight ;;
  b <- PyFloat.int_times off_chain_score off_chain_weight ;;
  Returned (PyFloat.add a b).

(** [max(1, min(100, overall_score))] *)
Definition clamp (overall_score : Z) : Z := Z.max 1 (Z.min 100 overall_score).

(** [ai_analysis.get(key, default)]: only a dict has the method. *)
Definition method_get (ai_analysis : Py.value) (key : string) (default : Py.value)
    : outcome Py.value :=
  match ai_analysis with
  | Py.PDict d => Returned (Py.dict_get_default d key default)
  | _ => Raised "object has no attribute 'get'"
  end.

Definition optional_str (s : option string) : Py.value :=
  match s with
  | Some s => Py.PStr s
  | None => Py.PNone
  end.

(** The [evidence] dict of [_generate_veritas_score]. *)
Definition evidence_of (project_data : ProjectData) (on_chain off_chain : SubScore)
    : Py.value :=
  Py.PDict
    [ ("on_chain", _serialize_analysis_data (as_dict on_chain));
      ("off_chain", _serialize_analysis_data (as_dict off_chain));
      ("project_data",
         Py.PDict [ ("name", Py.PStr (name project_data));
                    ("address", optional_str (project_address project_data)) ]) ].

(** [_generate_veritas_score(project_data, on_chain, off_chain)];
    [now] is the reading of [datetime.now()]. *)
Definition _generate_veritas_score (project_data : ProjectData)
    (on_chain off_chain : SubScore) (now : datetime) : outcome VeritasScore :=
  let evidence := evidence_of project_data on_chain off_chain in
  let ai_analysis := _ai_score_analysis evidence in
  x <- weighted_sum (score on_chain) (score off_chain) ;;
  overall_score <- PyFloat.to_int x ;;
  let overall_score := clamp overall_score in
  confidence <- method_get ai_analysis "confidence" (Py.PFloat (PyFloat.literal 7 10)) ;;
  Returned
    {| overall_score := overall_score;
       confidence_level := confidence;
       on_chain_score := score on_chain;
       off_chain_score := score off_chain;
       risk_factors := (risks on_chain ++ risks off_chain)%list;
       positive_factors := (factors on_chain ++ factors off_chain)%list;
       analysis_timestamp := now;
       evidence := evidence |}.

Definition is_dict (v : Py.value) : bool :=
  match v with
  | Py.PDict _ => true
  | _ => false
  end.

(** The three ways the oracle call fails: the call raises, the content
    is [None] or empty, the content is not a JSON text. *)
Definition oracle_failed (reply : outcome (option string)) : bool :=
  match reply with
  | Raised _ => true
  | Returned None => true
  | Returned (Some EmptyString) => true
  | Returned (Some content) =>
      match parse_json content with
      | None => true
      | Some _ => false
      end
  end.

(** The sub-scores 1..100. *)
Definition sub_scores : list Z := map Z.of_nat (seq 1 100).

(** On one pair of sub-scores: the weighted sum is a finite double,
    [int] of it is the floor of its value, lies in 1..100, and is the
    exact quotient [(6*s1 + 4*s2) / 10] or one below it. *)
Definition combining_ok (s1 s2 : Z) : bool :=
  match weighted_sum s1 s2 with
  | Returned x =>
      match PyFloat.to_int x with
      | Returned r =>
          (r =? Qfloor (PyFloat.to_Q x)) && (1 <=? r) && (r <=? 100)
          && ((6 * s1 + 4 * s2) / 10 - 1 <=? r) && (r <=? (6 * s1 + 4 * s2) / 10)
      | Raised _ => false
      end
  | Raised _ => false
  end.

(** The calls of one audit that leave the process, in call order. *)
Record Boundary : Type := {
  facts_collect : outcome ContractAnalysis;
  scan : outcome Py.dict;
  facts_analyze : outcome ContractAnalysis;
  facts_score : outcome ContractAnalysis;
  clock_score : datetime;
  clock_history : datetime
}.

(** One entry of [self.analysis_history], keys ["project"], ["score"] and
    ["timestamp"]. *)
Record HistoryEntry : Type := {
  project : string;
  entry_score : VeritasScore;
  timestamp : datetime
}.

(** [audit_project(project_identifier, project_type)]: the score, and
    [self.analysis_history] after the call. *)
Definition audit_project (analysis_history : list HistoryEntry)
    (project_identifier project_type : string) (b : Boundary)
    : outcome (VeritasScore * list HistoryEntry) :=
  let project_data :=
    _collect_project_data project_identifier project_type
      (facts_collect b) (scan b) in
  let on_chain_score :=
    _analyze_on_chain_data project_data (facts_analyze b) (facts_score b) in
  let off_chain_score := _analyze_off_chain_data project_data in
  veritas_score <-
    _generate_veritas_score project_data on_chain_score off_chain_score
      (clock_score b) ;;
  Returned
    (veritas_score,
     (analysis_history
        ++ [ {| project := project_identifier;
                entry_score := veritas_score;
                timestamp := clock_history b |} ])%list).

(** The values [audit_project] passes from step to step. *)
Definition audit_project_data (project_identifier project_type : string)
    (b : Boundary) : ProjectData :=
  _collect_project_data project_identifier project_type (facts_collect b) (scan b).

Definition audit_on_chain (project_identifier project_type : string)
    (b : Boundary) : SubScore :=
  _analyze_on_chain_data (audit_project_data project_identifier project_type b)
    (facts_analyze b) (facts_score b).

Definition audit_off_chain (project_identifier project_type : string)
    (b : Boundary) : SubScore :=
  _analyze_off_chain_data (audit_project_data project_identifier project_type b).

Definition audit_evidence (project_identifier project_type : string)
    (b : Boundary) : Py.value :=
  evidence_of (audit_project_data project_identifier project_type b)
    (audit_on_chain project_identifier project_type b)
    (audit_off_chain project_identifier project_type b).

Definition audit_judgment (project_identifier project_type : string)
    (b : Boundary) : Py.value :=
  _ai_score_analysis (audit_evidence project_identifier project_type b).

End Oracle.

End veritas_agent.

(** ** The normaliser under the interpreter's recursion limit

    [_serialize_analysis_data] calls itself once for each level of nesting
    of its argument and has no guard on depth, so past the recursion limit
    the interpreter raises [RecursionError] inside it.  The function of
    [veritas_agent] above is the value the call computes when the stack
    suffices; [_serialize_within frames data] is the call itself, made when
    the interpreter still allows [frames] nested calls of the function (a
    comprehension runs in the frame of the call that holds it). *)

Module call_stack.






End call_stack.

(** ** The specification's own notions *)

Module spec.

(** Follows the spec's words, "round": Python's [round(x)], the nearest
    integer to the value of [x], a tie going to the even one. *)
Definition round (x : PyFloat.float) : outcome Z :=
  match x with
  | S754_nan => Raised "cannot convert float NaN to integer"
  | S754_infinity _ => Raised "cannot convert float infinity to integer"
  | _ =>
      let q := PyFloat.to_Q x in
      let lo := Qfloor q in
      let twice := Qfloor (q * 2) - 2 * lo in
      Returned
        (if twice =? 0 then lo
         else if Qeq_bool (q * 2) (inject_Z (2 * lo + 1))
              then (if Z.even lo then lo else lo + 1)
              else lo + 1)
  end.

(** Follows the spec's words: [overall = round(on_chain.score * 0.6 +
    off_chain.score * 0.4)], then clamp to [1,100]. *)
Definition overall (on_chain_score off_chain_score : Z) : outcome Z :=
  x <- veritas_agent.weighted_sum on_chain_score off_chain_score ;;
  r <- round x ;;
  Returned (veritas_agent.clamp r).

(** The signals of section 4.2 on the dict of [quick_project_scan]:
    follows the spec's words, read on the fields the scan fills. *)
Definition lookup2 (d : Py.dict) (k1 k2 : string) : option Py.value :=
  match Py.dict_get d k1 with
  | Some (Py.PDict inner) => Py.dict_get inner k2
  | _ => None
  end.

Definition verified_team_member_present (facts : Py.dict) : bool :=
  match lookup2 facts "team_verification" "verified_members" with
  | Some (Py.PInt n) => 0 <? n
  | _ => false
  end.

Definition positive_sentiment_dominant (facts : Py.dict) : bool :=
  match lookup2 facts "social_sentiment" "positive_mentions",
        lookup2 facts "social_sentiment" "negative_mentions" with
  | Some (Py.PInt p), Some (Py.PInt n) => n <? p
  | _, _ => false
  end.

Definition no_red_flags (facts : Py.dict) : bool :=
  match lookup2 facts "social_sentiment" "red_flags" with
  | Some (Py.PList []) => true
  | _ => false
  end.

End spec.

(** ** Sample data *)

Module samples.

Import blockchain_analyzer veritas_agent.

(** The address of the demo in [veritas_agent.py]. *)
Definition demo_address : string := "0x1234567890123456789012345678901234567890".

(** The facts of the end-to-end scenario: verified, 1500 transactions,
    450 interactors, no risk factor. *)
Definition clean_facts : ContractAnalysis :=
  {| address := demo_address;
     is_verified := true;
     creation_date := None;
     creator_address := "0x742d35Cc6634C0532925a3b8D4030d542F5a5bD";
     transaction_count := 1500;
     unique_interactors := 450;
     total_value_locked := PyFloat.literal 2500000 1;
     proxy_pattern := false;
     ownership_analysis := [];
     security_indicators := [];
     blockchain_analyzer.risk_factors := [] |}.

(** A connection on which every call succeeds. *)
Definition live_web3 : Web3 :=
  {| blockchain_analyzer.is_address := fun _ => true;
     to_checksum_address := fun a => a;
     get_code := fun _ => Returned ["`"%char] |}.

(** The facts the shipped provider returns for the demo address. *)
Definition shipped_facts : outcome ContractAnalysis :=
  analyze_contract (Some live_web3) "2024-01-01T00:00:00" demo_address.

Definition project_with_address : ProjectData :=
  {| name := "Contract_0x123456";
     project_address := Some demo_address;
     website := None;
     social_links := [];
     on_chain_data := [];
     off_chain_data := [] |}.

Definition project_by_name : ProjectData :=
  {| name := "Uniswap";
     project_address := None;
     website := None;
     social_links := [];
     on_chain_data := [];
     off_chain_data := [] |}.

(** An audit in which every provider call fails with [cause]. *)
Definition failing_boundary (cause : string) : Boundary :=
  {| facts_collect := Raised cause;
     scan := Raised cause;
     facts_analyze := Raised cause;
     facts_score := Raised cause;
     clock_score := "2024-01-01T00:00:00";
     clock_history := "2024-01-01T00:00:01" |}.

(** An audit in which the provider answers with the clean facts until the
    call made inside [quick_contract_score], which fails with [cause]. *)
Definition scoring_call_down (cause : string) : Boundary :=
  {| facts_collect := Returned clean_facts;
     scan := Raised "Cannot connect to host";
     facts_analyze := Returned clean_facts;
     facts_score := Raised cause;
     clock_score := "2024-01-01T00:00:00";
     clock_history := "2024-01-01T00:00:01" |}.

(** An audit in which the shipped provider answers. *)
Definition live_boundary : Boundary :=
  {| facts_collect := shipped_facts;
     scan := Raised "Cannot connect to host";
     facts_analyze := shipped_facts;
     facts_score := shipped_facts;
     clock_score := "2024-01-01T00:00:00";
     clock_history := "2024-01-01T00:00:01" |}.

(** A reader that accepts no text, and an oracle that is down. *)
Definition no_json : string -> option Py.json := fun _ => None.
Definition oracle_down : Py.json -> outcome (option string) :=
  fun _ => Raised "Connection error.".

(** A reader for which every text has the tree [tree], and an oracle that
    answers [content]. *)
Definition reads_as (tree : Py.json) : string -> option Py.json := fun _ => Some tree.
Definition oracle_says (content : string) : Py.json -> outcome (option string) :=
  fun _ => Returned (Some content).

(** A sub-score dict with the given score and lists. *)
Definition sub_score (s : Z) (fs rs : list string) : SubScore :=
  {| score := s; factors := fs; risks := rs; analysis := None; tvl := None |}.

End samples.

(** ** blockchain_analyzer.py: chains and connections *)

Module chains.

Import blockchain_analyzer.

(** [class ChainType(Enum)] and its [value]s. *)
Inductive ChainType : Type := ETHEREUM | POLYGON | BSC | ARBITRUM | OPTIMISM.

Definition chain_value (chain : ChainType) : string :=
  match chain with
  | ETHEREUM => "ethereum"
  | POLYGON => "polygon"
  | BSC => "bsc"
  | ARBITRUM => "arbitrum"
  | OPTIMISM => "optimism"
  end.

Definition chain_eqb (a b : ChainType) : bool :=
  match a, b with
  | ETHEREUM, ETHEREUM | POLYGON, POLYGON | BSC, BSC
  | ARBITRUM, ARBITRUM | OPTIMISM, OPTIMISM => true
  | _, _ => false
  end.

Record ChainConfig : Type := {
  rpc_url : string;
  explorer_api : string;
  chain_id : Z
}.

(** [self.chain_configs] *)
Definition chain_configs : list (ChainType * ChainConfig) :=
  [ (ETHEREUM, {| rpc_url := "https://eth.llamarpc.com";
                  explorer_api := "https://api.etherscan.io/api";
                  chain_id := 1 |});
    (POLYGON, {| rpc_url := "https://polygon.llamarpc.com";
                 explorer_api := "https://api.polygonscan.com/api";
                 chain_id := 137 |});
    (BSC, {| rpc_url := "https://bsc.llamarpc.com";
             explorer_api := "https://api.bscscan.com/api";
             chain_id := 56 |}) ].

(** [self.w3_connections]: a dict keyed by chain. *)
Definition connections := list (ChainType * Web3).

(** [self.w3_connections.get(chain)] *)
Fixpoint connection (conns : connections) (chain : ChainType) : option Web3 :=
  match conns with
  | [] => None
  | (c, w3) :: rest => if chain_eqb c chain then Some w3 else connection rest chain
  end.

(** [self.w3_connections[chain_type] = w3] *)
Fixpoint connect_chain (conns : connections) (chain : ChainType) (w3 : Web3) : connections :=
  match conns with
  | [] => [(chain, w3)]
  | (c, w) :: rest =>
      if chain_eqb c chain then (c, w3) :: rest
      else (c, w) :: connect_chain rest chain w3
  end.

(** [_initialize_connections()]; [connect url] is
    [Web3(Web3.HTTPProvider(url))], whose failure is printed and dropped. *)
Definition _initialize_connections (connect : string -> outcome Web3) : connections :=
  fold_left
    (fun conns '(chain_type, config) =>
       match connect (rpc_url config) with
       | Returned w3 => connect_chain conns chain_type w3
       | Raised _ => conns
       end)
    chain_configs [].

(** [analyze_contract(contract_address, chain)] of an analyzer with the
    connections [conns]. *)
Definition analyze_contract_on (conns : connections) (created : datetime)
    (contract_address : string) (chain : ChainType) : outcome ContractAnalysis :=
  match connection conns chain with
  | None => Raised ("No connection available for " ++ chain_value chain)
  | Some w3 => analyze_contract (Some w3) created contract_address
  end.

(** [quick_contract_score(contract_address, chain)]: a fresh analyzer, then
    the score of its analysis. *)
Definition quick_contract_score_on (connect : string -> outcome Web3)
    (created : datetime) (contract_address : string) (chain : ChainType) : Z :=
  quick_contract_score
    (analyze_contract_on (_initialize_connections connect) created contract_address chain).

End chains.

(** ** veritas_agent.py: the client and the report *)

Module report.

Import blockchain_analyzer veritas_agent.

(** [_initialize_openai()]; [api_key] is [os.environ.get("OPENAI_API_KEY")]
    and the client is known by its key. *)
Definition _initialize_openai (api_key : option string) : outcome string :=
  match api_key with
  | Some (String c s) => Returned (String c s)
  | _ => Raised "OPENAI_API_KEY environment variable is required"
  end.

(** The dict [export_report] serialises. *)
Definition report_dict (score : VeritasScore) : Py.value :=
  Py.PDict
    [ ("veritas_score", Py.PInt (overall_score score));
      ("confidence", confidence_level score);
      ("breakdown",
         Py.PDict [ ("on_chain", Py.PInt (on_chain_score score));
                    ("off_chain", Py.PInt (off_chain_score score)) ]);
      ("risk_factors", Py.str_list (veritas_agent.risk_factors score));
      ("positive_factors", Py.str_list (positive_factors score));
      ("timestamp", Py.PStr (analysis_timestamp score));
      ("evidence", evidence score) ].

(** What [export_report] returns: the JSON text, by its tree, or
    [str(score)], by the score it prints. *)
Inductive exported : Type :=
| JsonText (tree : Py.json)
| Repr (score : VeritasScore).

(** [export_report(score, format)] *)
Definition export_report (score : VeritasScore) (format : string) : outcome exported :=
  if String.eqb format "json" then
    tree <- Py.json_dumps (report_dict score) ;;
    Returned (JsonText tree)
  else Returned (Repr score).

End report.

(** ** Main.py

    The texts of this layer hold glyphs outside Latin-1; they stand here as
    their UTF-8 bytes, and no length or index of such a text is taken. *)

Module main.

Import blockchain_analyzer veritas_agent.

(** [a / b] on two [int]s: the double nearest to the quotient. *)
Definition true_div (a b : Z) : outcome PyFloat.float :=
  if b =? 0 then Raised "division by zero"
  else
    let negative := xorb (a <? 0) (b <? 0) in
    if a =? 0 then Returned (S754_zero negative)
    else
      let '(q, e, l) :=
        SFdiv_core_binary PyFloat.prec PyFloat.emax (Z.abs a) 0 (Z.abs b) 0 in
      match binary_round_aux PyFloat.prec PyFloat.emax negative q e l with
      | S754_infinity _ => Raised "integer division result too large for a float"
      | x => Returned x
      end.

(** [s * n]: no copy for [n <= 0]. *)
Definition repeat_str (s : string) (n : Z) : string :=
  String.concat "" (List.repeat s (Z.to_nat n)).

(** [int(bar_length * score / 100)] *)
Definition filled_length (score : Z) : outcome Z :=
  let bar_length := 20 in
  x <- true_div (bar_length * score) 100 ;;
  PyFloat.to_int x.

(** The [color] of [get_score_bar]. *)
Definition score_color (score : Z) : string :=
  if score >=? 80 then "🟢"
  else if score >=? 60 then "🟡"
  else if score >=? 40 then "🟠"
  else "🔴".

(** [get_score_bar(score)] *)
Definition get_score_bar (score : Z) : outcome string :=
  let bar_length := 20 in
  filled <- filled_length score ;;
  let bar := repeat_str "█" filled ++ repeat_str "░" (bar_length - filled) in
  let color := score_color score in
  Returned (color ++ " [" ++ bar ++ "] " ++ Py.str_of_int score ++ "%").

(** [n < x] for an [int] and a [float], by exact value. *)
Definition int_lt_float (n : Z) (x : PyFloat.float) : bool :=
  match x with
  | S754_nan => false
  | S754_infinity negative => negb negative
  | _ => negb (Qle_bool (PyFloat.to_Q x) (inject_Z n))
  end.

(** [confidence < x]: numbers compare, any other value raises
    [TypeError]. *)
Definition value_lt_float (confidence : Py.value) (x : PyFloat.float) : outcome bool :=
  match confidence with
  | Py.PFloat c => Returned (SFltb c x)
  | Py.PInt n => Returned (int_lt_float n x)
  | Py.PBool b => Returned (int_lt_float (if b then 1 else 0) x)
  | _ => Raised "'<' not supported between instances"
  end.

Definition low_confidence : string :=
  "❓ Low confidence - Manual review strongly recommended".
Definition high_trust : string :=
  "✅ High trust - Project appears legitimate with strong indicators".
Definition good_trust : string :=
  "🟢 Good trust - Generally safe but monitor for changes".
Definition moderate_trust : string :=
  "🟡 Moderate trust - Proceed with caution and additional research".
Definition low_trust : string :=
  "🟠 Low trust - High risk, extensive due diligence required".
Definition very_low_trust : string :=
  "🔴 Very low trust - Avoid or consider fraudulent".

(** [get_recommendation(score, confidence)] *)
Definition get_recommendation (score : Z) (confidence : Py.value) : outcome string :=
  low <- value_lt_float confidence (PyFloat.literal 5 10) ;;
  if low then Returned low_confidence
  else if score >=? 85 then Returned high_trust
  else if score >=? 70 then Returned good_trust
  else if score >=? 55 then Returned moderate_trust
  else if score >=? 40 then Returned low_trust
  else Returned very_low_trust.

(** [quick_audit(project_address)].  [api_key] is the environment's key,
    read by [VeritasAgent()] before the [try]; [now] is the clock reading of
    the [except] branch. *)
Definition quick_audit (api_key : option string)
    (parse_json : string -> option Py.json)
    (judge : Py.json -> outcome (option string))
    (project_address : string) (b : Boundary) (now : datetime) : outcome Py.dict :=
  agent <- report._initialize_openai api_key ;;
  let attempt :=
    run <- audit_project parse_json judge [] project_address "contract" b ;;
    let score := fst run in
    recommendation <- get_recommendation (overall_score score) (confidence_level score) ;;
    Returned
      [ ("success", Py.PBool true);
        ("overall_score", Py.PInt (overall_score score));
        ("confidence", confidence_level score);
        ("on_chain_score", Py.PInt (on_chain_score score));
        ("off_chain_score", Py.PInt (off_chain_score score));
        ("risk_count",
           Py.PInt (Z.of_nat (List.length (veritas_agent.risk_factors score))));
        ("positive_count", Py.PInt (Z.of_nat (List.length (positive_factors score))));
        ("timestamp", Py.PStr (analysis_timestamp score));
        ("recommendation", Py.PStr recommendation) ] in
  match attempt with
  | Returned result => Returned result
  | Raised e =>
      Returned
        [ ("success", Py.PBool false);
          ("error", Py.PStr e);
          ("timestamp", Py.PStr now) ]
  end.

End main.

(** ** web_scraper.py *)

Module web_scraper.

(** [c.lower()] on one character of Latin-1: the capital letters A-Z and
    the accented capitals U+00C0-U+00DE (the sign U+00D7 apart) move up by
    32; every other character stays. *)
Definition lower_char (c : ascii) : ascii :=
  let n := nat_of_ascii c in
  if (Nat.leb 65 n && Nat.leb n 90)
     || (Nat.leb 192 n && Nat.leb n 222 && negb (Nat.eqb n 215))
  then ascii_of_nat (n + 32)
  else c.

(** [s.lower()] on a string of Latin-1 characters, where it works character
    by character; text with a character above U+00FF is not represented. *)
Fixpoint lower (s : string) : string :=
  match s with
  | EmptyString => EmptyString
  | String c rest => String (lower_char c) (lower rest)
  end.

(** [s.replace(' ', new)] *)
Fixpoint replace_space (new : string) (s : string) : string :=
  match s with
  | EmptyString => EmptyString
  | String c rest =>
      if Ascii.eqb c " " then new ++ replace_space new rest
      else String c (replace_space new rest)
  end.

(** [get_website_text_content(url)]; [fetch url] is
    [trafilatura.extract(trafilatura.fetch_url(url))]. *)
Definition get_website_text_content (fetch : string -> outcome (option string))
    (url : string) : outcome string :=
  text <- fetch url ;;
  Returned match text with
           | Some text => text
           | None => ""
           end.

Definition news_sources : list string :=
  [ "https://cointelegraph.com";
    "https://coindesk.com";
    "https://decrypt.co";
    "https://theblock.co" ].

(** The [safe_term] of [_search_news_sources]. *)
Definition safe_term (term : string) : string :=
  match term with
  | EmptyString => "unknown"
  | _ => lower (replace_space "-" term)
  end.

(** The dict appended for one term and one source. *)
Definition article (term source : string) : Py.value :=
  Py.PDict
    [ ("source", Py.PStr source);
      ("search_term", Py.PStr term);
      ("title", Py.PStr ("Sample article about " ++ term));
      ("url", Py.PStr (source ++ "/sample-article-" ++ safe_term term));
      ("content", Py.PStr "Sample content for analysis");
      ("date", Py.PStr "2024-01-01");
      ("credibility_score", Py.PInt 85) ].

(** [_search_news_sources(search_terms)]: the terms in the outer loop, the
    sources in the inner one. *)
Definition _search_news_sources (search_terms : list string) : list Py.value :=
  flat_map (fun term => map (article term) news_sources) search_terms.

(** [_find_official_website(project_name)] *)
Definition _find_official_website (project_name : string) : option string :=
  let safe_name :=
    match project_name with
    | EmptyString => "unknown"
    | _ => replace_space "" (lower project_name)
    end in
  Some ("https://" ++ safe_name ++ ".com").

(** [_search_official_sources(project_name)]: a failure of the fetch is
    printed and dropped. *)
Definition _search_official_sources (fetch : string -> outcome (option string))
    (project_name : string) : list Py.value :=
  match _find_official_website project_name with
  | Some (String c s) =>
      let website_url := String c s in
      match get_website_text_content fetch website_url with
      | Returned content =>
          [ Py.PDict [ ("type", Py.PStr "official_website");
                       ("url", Py.PStr website_url);
                       ("content", Py.PStr content);
                       ("verified", Py.PBool true) ] ]
      | Raised _ => []
      end
  | _ => []
  end.

(** [_search_partnerships(project_name)] *)
Definition _search_partnerships (project_name : string) : list Py.value :=
  let partnership_keywords :=
    [ project_name ++ " partnership";
      project_name ++ " collaboration";
      project_name ++ " announces";
      project_name ++ " integrates" ] in
  map (fun keyword =>
         Py.PDict
           [ ("claim", Py.PStr ("Partnership announcement for " ++ keyword));
             ("source", Py.PStr "crypto_news_site");
             ("verification_status", Py.PStr "pending");
             ("credibility", Py.PInt 70);
             ("date", Py.PStr "2024-01-01") ])
      partnership_keywords.

(** [scrape_project_mentions(project_name, project_address)] *)
Definition scrape_project_mentions (fetch : string -> outcome (option string))
    (project_name : string) (project_address : option string) : Py.dict :=
  let search_terms := [project_name] in
  let search_terms :=
    match project_address with
    | Some (String c s) => (search_terms ++ [String c s])%list
    | _ => search_terms
    end in
  let results :=
    [ ("news_articles", Py.PList []);
      ("social_media", Py.PList []);
      ("forums", Py.PList []);
      ("official_sources", Py.PList []);
      ("sentiment_indicators", Py.PList []);
      ("partnership_claims", Py.PList []);
      ("team_information", Py.PList []) ] in
  let results :=
    Py.dict_set results "news_articles" (Py.PList (_search_news_sources search_terms)) in
  let results :=
    Py.dict_set results "official_sources"
      (Py.PList (_search_official_sources fetch project_name)) in
  let results :=
    Py.dict_set results "partnership_claims" (Py.PList (_search_partnerships project_name)) in
  results.

(** [analyze_social_sentiment(project_name)] *)
Definition analyze_social_sentiment (project_name : string) : Py.dict :=
  [ ("overall_sentiment", Py.PStr "neutral");
    ("sentiment_score", Py.PFloat (PyFloat.literal 1 10));
    ("mention_volume", Py.PInt 150);
    ("positive_mentions", Py.PInt 60);
    ("negative_mentions", Py.PInt 30);
    ("neutral_mentions", Py.PInt 60);
    ("key_topics", Py.str_list ["development"; "partnerships"; "tokenomics"]);
    ("influencer_mentions", Py.PList []);
    ("red_flags", Py.PList []) ].

(** [verify_team_information(project_name)] *)
Definition verify_team_information (project_name : string) : Py.dict :=
  [ ("team_members_found", Py.PInt 3);
    ("verified_members", Py.PInt 2);
    ("linkedin_profiles", Py.str_list ["sample1"; "sample2"]);
    ("github_profiles", Py.str_list ["dev1"; "dev2"]);
    ("previous_projects", Py.str_list ["Project A"; "Project B"]);
    ("credibility_indicators",
       Py.str_list ["Active GitHub profiles"; "Previous successful projects"]);
    ("warning_signs", Py.PList []) ].

(** [quick_project_scan(project_name, project_address)] *)
Definition quick_project_scan (fetch : string -> outcome (option string))
    (project_name : string) (project_address : option string) : Py.dict :=
  let results := scrape_project_mentions fetch project_name project_address in
  let sentiment := analyze_social_sentiment project_name in
  let team_info := verify_team_information project_name in
  [ ("project_mentions", Py.PDict results);
    ("social_sentiment", Py.PDict sentiment);
    ("team_verification", Py.PDict team_info);
    ("scan_timestamp", Py.PStr "2024-01-01T00:00:00Z") ].

End web_scraper.

(** * Properties *)

(** ** Dicts *)

Module PyFacts.

Import Py.
Local Open Scope list_scope.

Lemma existsb_eqb_In (k : string) (l : list string) :
  existsb (String.eqb k) l = true <-> In k l.
Proof.
  rewrite existsb_exists. split.
  - intros [x [Hin Heq]]. apply String.eqb_eq in Heq. now subst.
  - intros Hin. exists k. split; [assumption | apply String.eqb_refl].
Qed.

Lemma distinct_NoDup (l : list string) : distinct l = true <-> NoDup l.
Proof.
  induction l as [|k r IH]; simpl.
  - split; [constructor | reflexivity].
  - rewrite andb_true_iff, negb_true_iff, IH. split.
    + intros [Hk Hr]. constructor; [|assumption].
      intros Hin. apply existsb_eqb_In in Hin. congruence.
    + intros H. inversion H as [|? ? Hk Hr]; subst. split; [|assumption].
      destruct (existsb (String.eqb k) r) eqn:E; [|reflexivity].
      apply existsb_eqb_In in E. contradiction.
Qed.

(** Writing a key that the dict does not hold appends the pair. *)
Lemma dict_set_fresh (d : dict) (k : string) (v : value) :
  ~ In k (keys d) -> dict_set d k v = (d ++ [(k, v)])%list.
Proof.
  induction d as [|[k' w] rest IH]; simpl; intros Hnot.
  - reflexivity.
  - destruct (String.eqb k' k) eqn:E.
    + apply String.eqb_eq in E. subst. exfalso. apply Hnot. now left.
    + f_equal. apply IH. intros Hin. apply Hnot. now right.
Qed.

Lemma dict_of_items_from (acc items : list (string * value)) :
  NoDup (keys (acc ++ items)) ->
  fold_left (fun d kv => dict_set d (fst kv) (snd kv)) items acc = (acc ++ items)%list.
Proof.
  revert acc. induction items as [|[k v] rest IH]; intros acc Hnd; simpl.
  - now rewrite app_nil_r.
  - assert (Hfresh : ~ In k (keys acc)).
    { unfold keys in *. rewrite map_app in Hnd. simpl in Hnd.
      apply NoDup_remove_2 in Hnd. intros Hin. apply Hnd.
      apply in_or_app. now left. }
    rewrite (dict_set_fresh acc k v Hfresh).
    rewrite IH; rewrite <- app_assoc; simpl; [reflexivity | assumption].
Qed.

(** A dict built pair by pair from pairs with distinct keys is the list of
    the pairs, in order. *)
Lemma dict_of_items_distinct (items : list (string * value)) :
  distinct (keys items) = true -> dict_of_items items = items.
Proof.
  intros H. apply distinct_NoDup in H. unfold dict_of_items.
  now rewrite dict_of_items_from.
Qed.

(** Writing one key leaves what is read under another. *)
Lemma dict_get_set_other (d : dict) (k key : string) (v : value) :
  k <> key -> dict_get (dict_set d k v) key = dict_get d key.
Proof.
  intros Hne. induction d as [|[k' w] rest IH]; simpl.
  - destruct (String.eqb k key) eqn:E; [|reflexivity].
    apply String.eqb_eq in E. contradiction.
  - destruct (String.eqb k' k) eqn:E1; simpl.
    + apply String.eqb_eq in E1. subst k'.
      destruct (String.eqb k key) eqn:E2; [|reflexivity].
      apply String.eqb_eq in E2. contradiction.
    + destruct (String.eqb k' key); [reflexivity | exact IH].
Qed.

(** A dict built pair by pair holds nothing under a key that no pair has. *)
Lemma dict_get_of_items_absent (items : list (string * value)) (key : string) :
  ~ In key (keys items) -> dict_get (dict_of_items items) key = None.
Proof.
  unfold dict_of_items.
  assert (H : forall acc, dict_get acc key = None -> ~ In key (keys items) ->
                dict_get (fold_left (fun d kv => dict_set d (fst kv) (snd kv)) items acc)
                  key = None).
  { induction items as [|[k v] rest IH]; intros acc Hacc Hnot; simpl.
    - exact Hacc.
    - apply IH.
      + rewrite dict_get_set_other; [exact Hacc |].
        intros ->. apply Hnot. now left.
      + intros Hin. apply Hnot. now right. }
  apply H. reflexivity.
Qed.

(** Induction on values, through the lists they hold. *)
Lemma value_nested_ind (P : value -> Prop)
  (HNone : P PNone) (HBool : forall b, P (PBool b)) (HInt : forall n, P (PInt n))
  (HFloat : forall x, P (PFloat x)) (HStr : forall s, P (PStr s))
  (HList : forall items, Forall P items -> P (PList items))
  (HDict : forall items, Forall (fun kv => P (snd kv)) items -> P (PDict items))
  (HObj : forall cls attrs, Forall (fun kv => P (snd kv)) attrs -> P (PObj cls attrs))
  (HOpaque : forall r, P (POpaque r)) :
  forall v, P v.
Proof.
  fix IH 1. intros [ | b | n | x | s | items | items | cls attrs | r ].
  - exact HNone.
  - apply HBool.
  - apply HInt.
  - apply HFloat.
  - apply HStr.
  - apply HList. induction items as [|a rest IHrest]; constructor;
      [apply IH | exact IHrest].
  - apply HDict. induction items as [|[k a] rest IHrest]; constructor;
      [apply IH | exact IHrest].
  - apply HObj. induction attrs as [|[k a] rest IHrest]; constructor;
      [apply IH | exact IHrest].
  - apply HOpaque.
Qed.

Lemma json_safe_str_list (l : list string) : json_safe (str_list l) = true.
Proof.
  unfold str_list. simpl. induction l as [|s r IH]; simpl; [reflexivity | exact IH].
Qed.

(** [json.dumps] then [json.loads] gives back a JSON-safe value. *)
Lemma json_round_trip_safe :
  forall v, json_safe v = true ->
    exists j, json_dumps v = Returned j /\ json_decode j = v.
Proof.
  induction v as [ | b | n | x | s | items IH | items IH | cls attrs IH | r ]
    using value_nested_ind; intros Hsafe; simpl in Hsafe; try discriminate;
    try (eexists; split; reflexivity).
  - (* list *)
    assert (Hl : exists js, traverse json_dumps items = Returned js
                            /\ map json_decode js = items).
    { induction items as [|a rest IHrest]; simpl.
      - exists []. split; reflexivity.
      - simpl in Hsafe. apply andb_true_iff in Hsafe as [Ha Hrest].
        inversion IH as [|? ? IHa IHr]; subst.
        destruct (IHa Ha) as [j [Hj Hd]].
        destruct (IHrest IHr Hrest) as [js [Hjs Hds]].
        exists (j :: js). rewrite Hj. simpl. rewrite Hjs. simpl.
        split; [reflexivity | now rewrite Hd, Hds]. }
    destruct Hl as [js [Hjs Hds]]. exists (JArr js). simpl.
    rewrite Hjs. simpl. now rewrite Hds.
  - (* dict *)
    apply andb_true_iff in Hsafe as [Hkeys Hvals].
    assert (Hl : exists ms,
               traverse (fun '(k, x) => j <- json_dumps x ;; Returned (k, j)) items
               = Returned ms
               /\ map (fun '(k, x) => (k, json_decode x)) ms = items).
    { clear Hkeys. induction items as [|[k a] rest IHrest]; simpl.
      - exists []. split; reflexivity.
      - simpl in Hvals. apply andb_true_iff in Hvals as [Ha Hrest].
        inversion IH as [|? ? IHa IHr]; subst. simpl in IHa.
        destruct (IHa Ha) as [j [Hj Hd]].
        destruct (IHrest IHr Hrest) as [ms [Hms Hds]].
        exists ((k, j) :: ms). rewrite Hj. simpl. rewrite Hms. simpl.
        split; [reflexivity | now rewrite Hd, Hds]. }
    destruct Hl as [ms [Hms Hds]]. exists (JObj ms). simpl.
    rewrite Hms. simpl. rewrite Hds.
    now rewrite (dict_of_items_distinct items Hkeys).
Qed.

End PyFacts.

(** ** The distribution score *)

Module DistributionScore.

Import blockchain_analyzer.

Lemma gt_iff (p c : Q) : gt p c = true <-> (c < p)%Q.
Proof.
  unfold gt. rewrite negb_true_iff. split.
  - intros H. apply Qnot_le_lt. intros Hle.
    apply Qle_bool_iff in Hle. congruence.
  - intros H. destruct (Qle_bool p c) eqn:E; [|reflexivity].
    apply Qle_bool_iff in E. exfalso. exact (Qlt_not_le _ _ H E).
Qed.

Lemma gt_false_iff (p c : Q) : gt p c = false <-> (p <= c)%Q.
Proof.
  unfold gt. rewrite negb_false_iff. apply Qle_bool_iff.
Qed.

Ltac step_cases p :=
  unfold led_by, _calculate_distribution_score; simpl;
  destruct (gt p 50) eqn:E50; [apply gt_iff in E50 | apply gt_false_iff in E50];
  (destruct (gt p 30) eqn:E30; [apply gt_iff in E30 | apply gt_false_iff in E30]);
  (destruct (gt p 20) eqn:E20; [apply gt_iff in E20 | apply gt_false_iff in E20]);
  (destruct (gt p 10) eqn:E10; [apply gt_iff in E10 | apply gt_false_iff in E10]).

(** Two bounds on the percentage that no number meets. *)
Ltac absurd_order :=
  match goal with
  | H1 : (?a < ?p)%Q, H2 : (?p <= ?b)%Q |- _ =>
      exfalso;
      assert (Hab : (a < b)%Q) by exact (Qlt_le_trans a p b H1 H2);
      unfold Qlt in Hab; simpl in Hab; lia
  end.

(** The score depends on the first holder's percentage alone, by the five
    steps. *)
Lemma step_values (top : Holder) (rest : list Holder) (n : Z) :
  ((50 < percentage top)%Q ->
     _calculate_distribution_score (led_by top rest n) = 20)
  /\ ((30 < percentage top)%Q -> (percentage top <= 50)%Q ->
     _calculate_distribution_score (led_by top rest n) = 40)
  /\ ((20 < percentage top)%Q -> (percentage top <= 30)%Q ->
     _calculate_distribution_score (led_by top rest n) = 60)
  /\ ((10 < percentage top)%Q -> (percentage top <= 20)%Q ->
     _calculate_distribution_score (led_by top rest n) = 80)
  /\ ((percentage top <= 10)%Q ->
     _calculate_distribution_score (led_by top rest n) = 95).
Proof.
  repeat split; intros; step_cases (percentage top);
    first [reflexivity | absurd_order].
Qed.

End DistributionScore.

Module DistributionScoreSpec.

Import blockchain_analyzer DistributionScore.

Ltac split_thresholds :=
  repeat (match goal with
          | |- context [gt ?x ?c] =>
              let E := fresh "E" in
              destruct (gt x c) eqn:E;
              [apply gt_iff in E | apply gt_false_iff in E]
          end; simpl).

(** Bounds [a < p <= q <= b] with [b <= a]. *)
Ltac absurd_chain :=
  match goal with
  | H1 : (?a < ?p)%Q, H : (?p <= ?q)%Q, H2 : (?q <= ?b)%Q |- _ =>
      exfalso;
      assert (Hab : (a < b)%Q)
        by (apply (Qlt_le_trans a p b); [exact H1 | exact (Qle_trans p q b H H2)]);
      unfold Qlt in Hab; simpl in Hab; lia
  end.

(** A larger share of the first holder never raises the score. *)
Lemma score_antitone (top1 top2 : Holder) (rest1 rest2 : list Holder) (n1 n2 : Z) :
  (percentage top1 <= percentage top2)%Q ->
  _calculate_distribution_score (led_by top2 rest2 n2)
  <= _calculate_distribution_score (led_by top1 rest1 n1).
Proof.
  intros Hle. unfold led_by, _calculate_distribution_score. simpl.
  split_thresholds; first [lia | absurd_order | absurd_chain].
Qed.

(** C3, as the code has it: the distribution score is a function of the
    first holder's percentage [p] alone; it is 20 for [p > 50], 40 for
    [30 < p <= 50], 60 for [20 < p <= 30], 80 for [10 < p <= 20] and 95
    for [p <= 10], so [p = 50] gives 40 and [p = 10] gives 95; it never
    rises when [p] grows; without holder data it is 50. *)
Theorem distribution_score_steps :
  (forall n, _calculate_distribution_score
               {| total_holders := n; top_holders := None |} = 50)
  /\ (forall n, _calculate_distribution_score
                  {| total_holders := n; top_holders := Some [] |} = 50)
  /\ (forall top rest n,
        ((50 < percentage top)%Q ->
           _calculate_distribution_score (led_by top rest n) = 20)
        /\ ((30 < percentage top)%Q -> (percentage top <= 50)%Q ->
              _calculate_distribution_score (led_by top rest n) = 40)
        /\ ((20 < percentage top)%Q -> (percentage top <= 30)%Q ->
              _calculate_distribution_score (led_by top rest n) = 60)
        /\ ((10 < percentage top)%Q -> (percentage top <= 20)%Q ->
              _calculate_distribution_score (led_by top rest n) = 80)
        /\ ((percentage top <= 10)%Q ->
              _calculate_distribution_score (led_by top rest n) = 95)
        /\ ((percentage top == 50)%Q ->
              _calculate_distribution_score (led_by top rest n) = 40)
        /\ ((percentage top == 10)%Q ->
              _calculate_distribution_score (led_by top rest n) = 95))
  /\ (forall top1 top2 rest1 rest2 n1 n2,
        (percentage top1 <= percentage top2)%Q ->
        _calculate_distribution_score (led_by top2 rest2 n2)
        <= _calculate_distribution_score (led_by top1 rest1 n1)).
Proof.
  split; [reflexivity |]. split; [reflexivity |]. split.
  - intros top rest n.
    destruct (step_values top rest n) as (H20 & H40 & H60 & H80 & H95).
    repeat split; try assumption.
    + intros Heq. apply H40; rewrite Heq; [reflexivity | apply Qle_refl].
    + intros Heq. apply H95. rewrite Heq. apply Qle_refl.
  - intros. now apply score_antitone.
Qed.

Lemma distribution_score_steps_witness :
  _calculate_distribution_score
    (led_by {| holder_address := "0x742d35Cc6634C0532925a3b8D4030d542F5a5bD";
               balance := 45; percentage := 45 |} [] 2500) = 40
  /\ _calculate_distribution_score
       (led_by {| holder_address := "0x1234567890123456789012345678901234567890";
                  balance := 60; percentage := 60 |} [] 2500)
     <= _calculate_distribution_score
          (led_by {| holder_address := "0x742d35Cc6634C0532925a3b8D4030d542F5a5bD";
                     balance := 45; percentage := 45 |} [] 2500).
Proof.
  destruct distribution_score_steps as (_ & _ & Hsteps & Hmono).
  split.
  - destruct (Hsteps {| holder_address := "0x742d35Cc6634C0532925a3b8D4030d542F5a5bD";
                        balance := 45; percentage := 45 |} [] 2500)
      as (_ & H40 & _).
    apply H40; simpl; [reflexivity | discriminate].
  - apply Hmono. simpl. discriminate.
Defined.

(** C3 as stated fails at [p = 10]: the code returns 95 there, not 80. *)
Lemma distribution_score_at_10 :
  _calculate_distribution_score
    (led_by {| holder_address := "0x1234567890123456789012345678901234567890";
               balance := 10; percentage := 10 |} [] 2500) = 95
  /\ _calculate_distribution_score
       (led_by {| holder_address := "0x1234567890123456789012345678901234567890";
                  balance := 10; percentage := 10 |} [] 2500) <> 80.
Proof. split; [reflexivity | discriminate]. Qed.

(** The scenario values of section 8 that the code meets. *)
Example distribution_score_scenarios :
  map (fun p => _calculate_distribution_score
                  (led_by {| holder_address := ""; balance := p; percentage := p |} [] 1))
      [60; 45; 25; 15; 5; 50]%Q
  = [20; 40; 60; 80; 95; 40].
Proof. reflexivity. Qed.

End DistributionScoreSpec.

(** ** The on-chain scorer *)

Module OnChainScorer.

Import blockchain_analyzer veritas_agent.

Lemma sum_permutation (l l' : list Z) : Permutation l l' -> sum l = sum l'.
Proof.
  induction 1; simpl; lia.
Qed.

Lemma quick_contract_score_formula (a : ContractAnalysis) :
  quick_contract_score (Returned a) = Z.min 100 (Z.max 1 (50 + sum (bonuses a))).
Proof.
  unfold quick_contract_score, bonuses, sum. simpl.
  destruct (is_verified a), (transaction_count a >? 100),
    (unique_interactors a >? 50), (blockchain_analyzer.risk_factors a);
    reflexivity.
Qed.

Lemma sum_bonuses_range (a : ContractAnalysis) : 0 <= sum (bonuses a) <= 50.
Proof.
  unfold bonuses, sum. simpl.
  destruct (is_verified a), (transaction_count a >? 100),
    (unique_interactors a >? 50), (blockchain_analyzer.risk_factors a); lia.
Qed.

(** The score of [quick_contract_score], whatever the provider did. *)
Lemma quick_contract_score_values (r : outcome ContractAnalysis) :
  In (quick_contract_score r) [50; 60; 70; 80; 90; 100].
Proof.
  destruct r as [a | msg]; [|simpl; tauto].
  unfold quick_contract_score.
  destruct (is_verified a), (transaction_count a >? 100),
    (unique_interactors a >? 50), (blockchain_analyzer.risk_factors a);
    simpl; tauto.
Qed.

(** With an address and facts, the sub-score is that of
    [quick_contract_score]. *)
Lemma on_chain_score_of_facts (pd : ProjectData) (a : ContractAnalysis)
    (r : outcome ContractAnalysis) :
  Py.truthy_str (project_address pd) = true ->
  score (_analyze_on_chain_data pd (Returned a) r) = quick_contract_score r.
Proof.
  intros H. unfold _analyze_on_chain_data. rewrite H. reflexivity.
Qed.

(** The risk list with facts: the reported risks, then the two warnings. *)
Lemma on_chain_risks_of_facts (pd : ProjectData) (a : ContractAnalysis)
    (r : outcome ContractAnalysis) :
  Py.truthy_str (project_address pd) = true ->
  risks (_analyze_on_chain_data pd (Returned a) r)
  = (blockchain_analyzer.risk_factors a
     ++ (if transaction_count a <? 10 then ["Very low transaction activity"] else [])
     ++ (if is_verified a then [] else ["Contract source code not verified"]))%list.
Proof.
  intros H. unfold _analyze_on_chain_data. rewrite H. simpl.
  destruct (transaction_count a <? 10), (is_verified a); simpl;
    rewrite ?app_nil_r, <- ?app_assoc; reflexivity.
Qed.

(** C2: with facts [a] from the provider, the on-chain score is the base
    50 plus the four bonuses (+20 verified, +10 more than 100
    transactions, +10 more than 50 interactors, +10 no risk factor), taken
    in any order, clamped into [1,100]; the facts [is_verified],
    1500 transactions, 450 interactors and no risk factor give 100 and an
    empty risk list. *)
Theorem on_chain_score_base_plus_bonuses (a : ContractAnalysis) :
  (forall order, Permutation order (bonuses a) ->
     quick_contract_score (Returned a) = Z.min 100 (Z.max 1 (50 + sum order)))
  /\ bonuses a
     = [ if is_verified a then 20 else 0;
         if transaction_count a >? 100 then 10 else 0;
         if unique_interactors a >? 50 then 10 else 0;
         if Nat.eqb (List.length (blockchain_analyzer.risk_factors a)) 0 then 10 else 0 ]
  /\ 1 <= quick_contract_score (Returned a) <= 100
  /\ (forall pd, Py.truthy_str (project_address pd) = true ->
        score (_analyze_on_chain_data pd (Returned a) (Returned a))
        = Z.min 100 (Z.max 1 (50 + sum (bonuses a))))
  /\ (is_verified a = true -> transaction_count a = 1500 ->
      unique_interactors a = 450 -> blockchain_analyzer.risk_factors a = [] ->
      forall pd, Py.truthy_str (project_address pd) = true ->
        score (_analyze_on_chain_data pd (Returned a) (Returned a)) = 100
        /\ risks (_analyze_on_chain_data pd (Returned a) (Returned a)) = []).
Proof.
  split; [|split; [|split; [|split]]].
  - intros order Hperm. rewrite quick_contract_score_formula.
    now rewrite (sum_permutation order (bonuses a) Hperm).
  - unfold bonuses. destruct (blockchain_analyzer.risk_factors a); reflexivity.
  - rewrite quick_contract_score_formula. pose proof (sum_bonuses_range a). lia.
  - intros pd H. rewrite (on_chain_score_of_facts pd a _ H).
    apply quick_contract_score_formula.
  - intros Hv Ht Hu Hr pd H. split.
    + rewrite (on_chain_score_of_facts pd a _ H).
      unfold quick_contract_score. rewrite Hv, Ht, Hu, Hr. reflexivity.
    + rewrite (on_chain_risks_of_facts pd a _ H). rewrite Hv, Ht, Hr. reflexivity.
Qed.

Lemma on_chain_score_base_plus_bonuses_witness :
  quick_contract_score (Returned samples.clean_facts)
  = Z.min 100 (Z.max 1 (50 + sum [10; 10; 20; 10]))
  /\ score (_analyze_on_chain_data samples.project_with_address
              (Returned samples.clean_facts) (Returned samples.clean_facts)) = 100
  /\ risks (_analyze_on_chain_data samples.project_with_address
              (Returned samples.clean_facts) (Returned samples.clean_facts)) = [].
Proof.
  destruct (on_chain_score_base_plus_bonuses samples.clean_facts)
    as (Horder & _ & _ & _ & Hclean).
  split.
  - apply Horder. simpl.
    apply (perm_trans (l' := [10; 20; 10; 10])).
    + apply perm_skip. apply perm_swap.
    + apply perm_swap.
  - apply Hclean; reflexivity.
Defined.

(** What the shipped provider reports scores 90: its two risk factors
    withhold the last bonus. *)
Example shipped_facts_score :
  quick_contract_score samples.shipped_facts = 90
  /\ risks (_analyze_on_chain_data samples.project_with_address
              samples.shipped_facts samples.shipped_facts)
     = ["Owner has full control"; "No timelock on critical functions"].
Proof. split; reflexivity. Qed.

(** C5: without an address the on-chain analysis returns, as an ordinary
    result, the sub-score 30 with no positive factor and the single risk
    factor "No contract address provided"; so does every audit whose
    identifier is not classified as an address. *)
Theorem no_address_sub_score :
  (forall pd facts facts_for_score,
     Py.truthy_str (project_address pd) = false ->
     score (_analyze_on_chain_data pd facts facts_for_score) = 30
     /\ factors (_analyze_on_chain_data pd facts facts_for_score) = []
     /\ risks (_analyze_on_chain_data pd facts facts_for_score)
        = ["No contract address provided"])
  /\ (forall project_identifier project_type b,
        project_address (audit_project_data project_identifier project_type b) = None ->
        score (audit_on_chain project_identifier project_type b) = 30
        /\ factors (audit_on_chain project_identifier project_type b) = []
        /\ risks (audit_on_chain project_identifier project_type b)
           = ["No contract address provided"]).
Proof.
  assert (Hfun : forall pd facts facts_for_score,
             Py.truthy_str (project_address pd) = false ->
             score (_analyze_on_chain_data pd facts facts_for_score) = 30
             /\ factors (_analyze_on_chain_data pd facts facts_for_score) = []
             /\ risks (_analyze_on_chain_data pd facts facts_for_score)
                = ["No contract address provided"]).
  { intros pd f1 f2 H. unfold _analyze_on_chain_data. rewrite H. simpl.
    repeat split. }
  split; [exact Hfun |].
  intros id ptype b H. unfold audit_on_chain. apply Hfun. now rewrite H.
Qed.

Lemma no_address_sub_score_witness :
  score (_analyze_on_chain_data samples.project_by_name
           samples.shipped_facts samples.shipped_facts) = 30
  /\ risks (audit_on_chain "Uniswap" "contract" samples.live_boundary)
     = ["No contract address provided"].
Proof.
  destruct no_address_sub_score as (Hfun & Haudit). split.
  - apply (Hfun samples.project_by_name). reflexivity.
  - apply (Haudit "Uniswap" "contract" samples.live_boundary). reflexivity.
Defined.

Lemma prefix_0x (identifier : string) :
  String.prefix "0x" identifier = true
  <-> exists rest, identifier = String "0" (String "x" rest).
Proof.
  split.
  - destruct identifier as [|c1 [|c2 rest]]; cbn [String.prefix];
      try discriminate.
    + destruct (Ascii.ascii_dec "0" c1); discriminate.
    + destruct (Ascii.ascii_dec "0" c1) as [E1|]; [|discriminate].
      destruct (Ascii.ascii_dec "x" c2) as [E2|]; [|discriminate].
      intros _. exists rest. now subst.
  - intros [rest ->]. destruct rest; reflexivity.
Qed.

(** C10: an identifier is taken for a contract address exactly when it has
    42 characters and starts with "0x", whatever the other 40 characters
    are; any other identifier, an ENS name or a project name included,
    gets no address, and its on-chain analysis is the no-address result
    with score 30. *)
Theorem identifier_classification (project_identifier project_type : string)
    (facts : outcome ContractAnalysis) (scan : outcome Py.dict) :
  (is_address project_identifier = true
   <-> String.length project_identifier = 42%nat
       /\ exists rest, project_identifier = String "0" (String "x" rest))
  /\ (is_address project_identifier = true ->
      project_address (_collect_project_data project_identifier project_type facts scan)
      = Some project_identifier)
  /\ (is_address project_identifier = false ->
      project_address (_collect_project_data project_identifier project_type facts scan)
      = None
      /\ forall facts_analyze facts_for_score,
           _analyze_on_chain_data
             (_collect_project_data project_identifier project_type facts scan)
             facts_analyze facts_for_score
           = {| score := 30;
                factors := [];
                risks := ["No contract address provided"];
                analysis :=
                  Some (Note "Cannot perform on-chain analysis without contract address");
                tvl := None |}).
Proof.
  split; [|split].
  - unfold is_address. rewrite andb_true_iff, Nat.eqb_eq, prefix_0x. reflexivity.
  - intros H. unfold _collect_project_data. rewrite H. reflexivity.
  - intros H. unfold _collect_project_data. rewrite H. split; reflexivity.
Qed.

Lemma identifier_classification_witness :
  project_address
    (_collect_project_data samples.demo_address "contract"
       samples.shipped_facts (Raised "offline"))
  = Some samples.demo_address
  /\ score (_analyze_on_chain_data
              (_collect_project_data "vitalik.eth" "contract"
                 samples.shipped_facts (Raised "offline"))
              samples.shipped_facts samples.shipped_facts) = 30.
Proof.
  split.
  - destruct (identifier_classification samples.demo_address "contract"
                samples.shipped_facts (Raised "offline")) as (_ & Haddr & _).
    apply Haddr. reflexivity.
  - destruct (identifier_classification "vitalik.eth" "contract"
                samples.shipped_facts (Raised "offline")) as (_ & _ & Hname).
    destruct (Hname eq_refl) as (_ & Hscore). now rewrite Hscore.
Defined.

(** No check of the forty characters after "0x", and none of the chain. *)
Example classification_is_syntactic :
  is_address "0xZZZZZZZZZZZZZZZZZZZZZZZZZZZZZZZZZZZZZZZZ" = true
  /\ is_address "0x7a250d5630B4cF539739dF2C5dAcb4c659F2488" = false
  /\ is_address "uniswap.eth" = false.
Proof. repeat split. Qed.

End OnChainScorer.

(** ** The aggregator *)

Module Aggregator.

Import blockchain_analyzer veritas_agent.

Section Generate.

Variable parse_json : string -> option Py.json.
Variable judge : Py.json -> outcome (option string).

Lemma is_dict_inv (v : Py.value) : is_dict v = true -> exists d, v = Py.PDict d.
Proof.
  destruct v; simpl; try discriminate. intros _. now eexists.
Qed.

(** The record [_generate_veritas_score] builds once its three fallible
    steps have returned. *)
Lemma generate_returned (pd : ProjectData) (on_chain off_chain : SubScore)
    (now : datetime) (x : PyFloat.float) (r : Z) (c : Py.value) :
  weighted_sum (score on_chain) (score off_chain) = Returned x ->
  PyFloat.to_int x = Returned r ->
  method_get (_ai_score_analysis parse_json judge (evidence_of pd on_chain off_chain))
    "confidence" (Py.PFloat (PyFloat.literal 7 10)) = Returned c ->
  _generate_veritas_score parse_json judge pd on_chain off_chain now
  = Returned
      {| overall_score := clamp r;
         confidence_level := c;
         on_chain_score := score on_chain;
         off_chain_score := score off_chain;
         veritas_agent.risk_factors := (risks on_chain ++ risks off_chain)%list;
         positive_factors := (factors on_chain ++ factors off_chain)%list;
         analysis_timestamp := now;
         evidence := evidence_of pd on_chain off_chain |}.
Proof.
  intros Hx Hr Hc. unfold _generate_veritas_score.
  rewrite Hx. simpl. rewrite Hr. simpl. rewrite Hc. reflexivity.
Qed.

Lemma generate_inv (pd : ProjectData) (on_chain off_chain : SubScore)
    (now : datetime) (vs : VeritasScore) :
  _generate_veritas_score parse_json judge pd on_chain off_chain now = Returned vs ->
  exists x r c,
    weighted_sum (score on_chain) (score off_chain) = Returned x
    /\ PyFloat.to_int x = Returned r
    /\ method_get (_ai_score_analysis parse_json judge (evidence_of pd on_chain off_chain))
         "confidence" (Py.PFloat (PyFloat.literal 7 10)) = Returned c
    /\ vs = {| overall_score := clamp r;
               confidence_level := c;
               on_chain_score := score on_chain;
               off_chain_score := score off_chain;
               veritas_agent.risk_factors := (risks on_chain ++ risks off_chain)%list;
               positive_factors := (factors on_chain ++ factors off_chain)%list;
               analysis_timestamp := now;
               evidence := evidence_of pd on_chain off_chain |}.
Proof.
  unfold _generate_veritas_score.
  destruct (weighted_sum (score on_chain) (score off_chain)) as [x|] eqn:Hx;
    simpl; [|discriminate].
  destruct (PyFloat.to_int x) as [r|] eqn:Hr; simpl; [|discriminate].
  destruct (method_get _ _ _) as [c|] eqn:Hc; simpl; [|discriminate].
  intros H. injection H as <-. exists x, r, c. repeat split; assumption.
Qed.

Lemma method_get_dict (v : Py.value) (key : string) (default : Py.value) :
  is_dict v = true ->
  exists d, v = Py.PDict d
            /\ method_get v key default = Returned (Py.dict_get_default d key default).
Proof.
  intros H. destruct (is_dict_inv v H) as [d ->]. exists d. split; reflexivity.
Qed.

End Generate.

Lemma sub_scores_range (s : Z) : 1 <= s <= 100 -> In s sub_scores.
Proof.
  intros H. unfold sub_scores. apply in_map_iff. exists (Z.to_nat s). split.
  - lia.
  - apply in_seq. lia.
Qed.

Lemma combining_ok_all :
  forallb (fun s1 => forallb (combining_ok s1) sub_scores) sub_scores = true.
Proof. vm_compute. reflexivity. Qed.

Lemma combining_ok_range (s1 s2 : Z) :
  1 <= s1 <= 100 -> 1 <= s2 <= 100 -> combining_ok s1 s2 = true.
Proof.
  intros H1 H2. pose proof combining_ok_all as Hall.
  rewrite forallb_forall in Hall.
  specialize (Hall s1 (sub_scores_range s1 H1)).
  rewrite forallb_forall in Hall.
  exact (Hall s2 (sub_scores_range s2 H2)).
Qed.

(** On sub-scores in 1..100 the weighted sum is finite and its truncation
    is the floor of its value, already within 1..100. *)
Lemma combining_in_range (s1 s2 : Z) :
  1 <= s1 <= 100 -> 1 <= s2 <= 100 ->
  exists x r,
    weighted_sum s1 s2 = Returned x
    /\ PyFloat.to_int x = Returned r
    /\ r = Qfloor (PyFloat.to_Q x)
    /\ clamp r = r
    /\ 1 <= r <= 100
    /\ (6 * s1 + 4 * s2) / 10 - 1 <= r <= (6 * s1 + 4 * s2) / 10.
Proof.
  intros H1 H2. pose proof (combining_ok_range s1 s2 H1 H2) as Hok.
  unfold combining_ok in Hok.
  destruct (weighted_sum s1 s2) as [x|] eqn:Hx; [|discriminate].
  destruct (PyFloat.to_int x) as [r|] eqn:Hr; [|discriminate].
  repeat rewrite andb_true_iff in Hok.
  destruct Hok as ((((Hfloor & Hlo) & Hhi) & Hbelow) & Habove).
  apply Z.eqb_eq in Hfloor.
  apply Z.leb_le in Hlo, Hhi, Hbelow, Habove.
  exists x, r. repeat split; try reflexivity; try assumption.
  unfold clamp. lia.
Qed.

(** With sub-scores in 1..100 and a dict for judgment, the score record
    is built. *)
Lemma generate_returns_in_range (parse_json : string -> option Py.json)
    (judge : Py.json -> outcome (option string)) (pd : ProjectData)
    (on_chain off_chain : SubScore) (now : datetime) :
  1 <= score on_chain <= 100 -> 1 <= score off_chain <= 100 ->
  is_dict (_ai_score_analysis parse_json judge (evidence_of pd on_chain off_chain))
  = true ->
  exists vs,
    _generate_veritas_score parse_json judge pd on_chain off_chain now = Returned vs.
Proof.
  intros H1 H2 Hdict.
  destruct (combining_in_range _ _ H1 H2) as (x & r & Hx & Hr & _).
  destruct (method_get_dict _ "confidence" (Py.PFloat (PyFloat.literal 7 10)) Hdict)
    as (d & _ & Hget).
  eexists. exact (generate_returned parse_json judge pd on_chain off_chain now x r _
                    Hx Hr Hget).
Qed.

End Aggregator.

Module AggregatorSpec.

Import blockchain_analyzer veritas_agent Aggregator.

(** C1, as the code has it: for sub-scores [s1], [s2] in 1..100 the
    COMBINING step computes [s1 * 0.6 + s2 * 0.4] in double precision and
    truncates it with [int], which is the floor of its value and not the
    nearest integer; the result already lies in 1..100, so the clamp
    leaves it, and it is the exact quotient [(6*s1 + 4*s2) / 10] or one
    below it.  [_generate_veritas_score] reports this number whenever it
    returns, and it returns whenever the judgment is a dict.  For
    [s1 = 100], [s2 = 75] the number is 90. *)
Theorem combining_truncates :
  (forall s1 s2, 1 <= s1 <= 100 -> 1 <= s2 <= 100 ->
     exists x r,
       weighted_sum s1 s2 = Returned x
       /\ PyFloat.to_int x = Returned r
       /\ r = Qfloor (PyFloat.to_Q x)
       /\ clamp r = r
       /\ 1 <= r <= 100
       /\ (6 * s1 + 4 * s2) / 10 - 1 <= r <= (6 * s1 + 4 * s2) / 10
       /\ (forall parse_json judge pd on_chain off_chain now vs,
             score on_chain = s1 -> score off_chain = s2 ->
             _generate_veritas_score parse_json judge pd on_chain off_chain now
             = Returned vs ->
             overall_score vs = r)
       /\ (forall parse_json judge pd on_chain off_chain now,
             score on_chain = s1 -> score off_chain = s2 ->
             is_dict (_ai_score_analysis parse_json judge
                        (evidence_of pd on_chain off_chain)) = true ->
             exists vs,
               _generate_veritas_score parse_json judge pd on_chain off_chain now
               = Returned vs))
  /\ (exists x, weighted_sum 100 75 = Returned x
                /\ PyFloat.to_int x = Returned 90 /\ clamp 90 = 90).
Proof.
  split.
  - intros s1 s2 H1 H2.
    destruct (combining_in_range s1 s2 H1 H2)
      as (x & r & Hx & Hr & Hfloor & Hclamp & Hrange & Hexact).
    exists x, r. repeat split; try assumption; try lia.
    + intros parse_json judge pd on_chain off_chain now vs Hs1 Hs2 Hgen.
      apply generate_inv in Hgen.
      destruct Hgen as (x' & r' & c & Hx' & Hr' & _ & ->). simpl.
      rewrite Hs1, Hs2, Hx in Hx'. injection Hx' as <-.
      rewrite Hr in Hr'. injection Hr' as <-. exact Hclamp.
    + intros parse_json judge pd on_chain off_chain now Hs1 Hs2 Hdict.
      apply generate_returns_in_range; [now rewrite Hs1 | now rewrite Hs2 | exact Hdict].
  - eexists. split; [vm_compute; reflexivity |]. split; reflexivity.
Qed.

Lemma combining_truncates_witness :
  exists x r,
    weighted_sum 6 1 = Returned x
    /\ PyFloat.to_int x = Returned r
    /\ r = Qfloor (PyFloat.to_Q x)
    /\ 1 <= r <= 100
    /\ (6 * 6 + 4 * 1) / 10 - 1 <= r <= (6 * 6 + 4 * 1) / 10.
Proof.
  destruct combining_truncates as (Hall & _).
  destruct (Hall 6 1 ltac:(lia) ltac:(lia))
    as (x & r & Hx & Hr & Hfloor & _ & Hrange & Hexact & _).
  exists x, r. repeat split; try assumption; lia.
Defined.

(** C1 as stated fails: for the sub-scores 2 and 1 the sum is 1.6, which
    rounds to 2, and the code reports 1. *)
Lemma combining_is_not_rounding :
  exists vs,
    _generate_veritas_score samples.no_json samples.oracle_down
      samples.project_by_name
      (samples.sub_score 2 [] []) (samples.sub_score 1 [] [])
      "2024-01-01T00:00:00" = Returned vs
    /\ overall_score vs = 1
    /\ spec.overall 2 1 = Returned 2.
Proof.
  eexists. split; [vm_compute; reflexivity |]. split; vm_compute; reflexivity.
Qed.

(** Truncation can also fall below the exact quotient: [6 * 0.6 + 1 * 0.4]
    is 4 in exact arithmetic and a double just under 4. *)
Example combining_below_exact_quotient :
  (x <- weighted_sum 6 1 ;; PyFloat.to_int x) = Returned 3
  /\ (6 * 6 + 4 * 1) / 10 = 4.
Proof. split; vm_compute; reflexivity. Qed.

(** For the sub-scores the two scorers produce (off-chain 75, on-chain a
    multiple of 10), truncating and rounding agree. *)
Lemma combining_on_pipeline_scores (s : Z) :
  In s [20; 30; 50; 60; 70; 80; 90; 100] ->
  exists x,
    weighted_sum s 75 = Returned x
    /\ PyFloat.to_int x = Returned (6 * s / 10 + 30)
    /\ clamp (6 * s / 10 + 30) = 6 * s / 10 + 30
    /\ spec.round x = Returned (6 * s / 10 + 30).
Proof.
  simpl. intros H.
  repeat (destruct H as [<- | H];
          [eexists; split; [vm_compute; reflexivity |]; repeat split |]).
  contradiction.
Qed.

(** C8: in the score [_generate_veritas_score] returns, the risk factors
    are the on-chain risks followed by the off-chain risks and the
    positive factors the on-chain factors followed by the off-chain
    factors, nothing dropped, merged or reordered; it returns for
    sub-scores in 1..100 whenever the judgment is a dict. *)
Theorem factor_lists_concatenate (parse_json : string -> option Py.json)
    (judge : Py.json -> outcome (option string)) (pd : ProjectData)
    (on_chain off_chain : SubScore) (now : datetime) :
  (forall vs,
     _generate_veritas_score parse_json judge pd on_chain off_chain now = Returned vs ->
     veritas_agent.risk_factors vs = (risks on_chain ++ risks off_chain)%list
     /\ positive_factors vs = (factors on_chain ++ factors off_chain)%list
     /\ List.length (veritas_agent.risk_factors vs)
        = (List.length (risks on_chain) + List.length (risks off_chain))%nat
     /\ List.length (positive_factors vs)
        = (List.length (factors on_chain) + List.length (factors off_chain))%nat)
  /\ (1 <= score on_chain <= 100 -> 1 <= score off_chain <= 100 ->
      is_dict (_ai_score_analysis parse_json judge (evidence_of pd on_chain off_chain))
      = true ->
      exists vs,
        _generate_veritas_score parse_json judge pd on_chain off_chain now = Returned vs).
Proof.
  split.
  - intros vs Hgen. apply generate_inv in Hgen.
    destruct Hgen as (x & r & c & _ & _ & _ & ->). simpl.
    rewrite !length_app. repeat split.
  - intros H1 H2 Hdict. now apply generate_returns_in_range.
Qed.

Lemma factor_lists_concatenate_witness :
  exists vs,
    _generate_veritas_score samples.no_json samples.oracle_down
      samples.project_by_name
      (samples.sub_score 30 ["Audited"] ["Unverified team"; "Low liquidity"])
      (samples.sub_score 75 ["Audited"] ["Unverified team"])
      "2024-01-01T00:00:00" = Returned vs
    /\ veritas_agent.risk_factors vs
       = ["Unverified team"; "Low liquidity"; "Unverified team"]
    /\ positive_factors vs = ["Audited"; "Audited"].
Proof.
  destruct (factor_lists_concatenate samples.no_json samples.oracle_down
              samples.project_by_name
              (samples.sub_score 30 ["Audited"] ["Unverified team"; "Low liquidity"])
              (samples.sub_score 75 ["Audited"] ["Unverified team"])
              "2024-01-01T00:00:00") as (Hlists & Hret).
  destruct Hret as (vs & Hvs); [simpl; lia | simpl; lia | reflexivity |].
  exists vs. split; [exact Hvs |].
  destruct (Hlists vs Hvs) as (Hr & Hf & _). split; assumption.
Defined.

End AggregatorSpec.


(** ** The evidence normaliser *)

Module Normaliser.

Import blockchain_analyzer veritas_agent call_stack PyFacts.

Lemma serialize_str_list (l : list string) :
  _serialize_analysis_data (Py.str_list l) = Py.str_list l.
Proof.
  unfold Py.str_list. simpl. f_equal.
  induction l as [|s r IH]; simpl; [reflexivity | now rewrite IH].
Qed.


(** The record written for an ["analysis"] object: each of the six named
    fields, or its default. *)
Lemma serialize_analysis_object (cls : string) (attrs : Py.dict) :
  _serialize_analysis_data (Py.PDict [("analysis", Py.PObj cls attrs)])
  = Py.PDict
      [ ("analysis",
         Py.PDict
           [ ("address", Py.dict_get_default attrs "address" (Py.PStr ""));
             ("is_verified", Py.dict_get_default attrs "is_verified" (Py.PBool false));
             ("transaction_count", Py.dict_get_default attrs "transaction_count" (Py.PInt 0));
             ("unique_interactors", Py.dict_get_default attrs "unique_interactors" (Py.PInt 0));
             ("risk_factors", Py.dict_get_default attrs "risk_factors" (Py.PList []));
             ("security_indicators",
                Py.dict_get_default attrs "security_indicators" (Py.PList [])) ]) ].
Proof. reflexivity. Qed.

(** The normalised sub-score dict holds JSON values only, under distinct
    keys. *)
Lemma serialized_sub_score_safe (r : SubScore) :
  Py.json_safe (_serialize_analysis_data (as_dict r)) = true.
Proof.
  unfold as_dict.
  destruct (analysis r) as [[text | a] |], (tvl r) as [x |];
    cbn -[Py.str_list Py.json_safe];
    rewrite ?serialize_str_list; cbn -[Py.str_list];
    rewrite ?json_safe_str_list; reflexivity.
Qed.

Lemma evidence_json_safe (pd : ProjectData) (on_chain off_chain : SubScore) :
  Py.json_safe (evidence_of pd on_chain off_chain) = true.
Proof.
  unfold evidence_of.
  cbn -[_serialize_analysis_data as_dict].
  rewrite !serialized_sub_score_safe.
  destruct (project_address pd); reflexivity.
Qed.










(** Outside an audit the normaliser can leave values that have no JSON
    form: an ["analysis"] record keeps the object's fields as they are, and
    a value without [__dict__] passes through. *)
Example normaliser_keeps_opaque_values :
  returns (Py.json_dumps
             (_serialize_analysis_data
                (Py.PList [instance samples.clean_facts;
                           Py.POpaque "2024-01-01T00:00:00"]))) = false.
Proof. reflexivity. Qed.

End Normaliser.

(** ** The off-chain scorer *)

Module OffChainScorer.

Import blockchain_analyzer veritas_agent.

(** The scorer ignores its input. *)
Lemma off_chain_constant (pd pd' : ProjectData) :
  _analyze_off_chain_data pd = _analyze_off_chain_data pd'.
Proof. reflexivity. Qed.

(** C7: whatever the off-chain facts, the off-chain score lies in 1..100;
    facts that show a verified team member, a dominance of positive
    mentions or no red flag never score lower than facts that do not; and
    when the scan fails, or its output is missing, the result is the same
    fixed sub-score, 75, returned without an error. *)
Theorem off_chain_score_contract (pd pd' : ProjectData) :
  1 <= score (_analyze_off_chain_data pd) <= 100
  /\ (spec.verified_team_member_present (off_chain_data pd) = false ->
      spec.verified_team_member_present (off_chain_data pd') = true ->
      score (_analyze_off_chain_data pd) <= score (_analyze_off_chain_data pd'))
  /\ (spec.positive_sentiment_dominant (off_chain_data pd) = false ->
      spec.positive_sentiment_dominant (off_chain_data pd') = true ->
      score (_analyze_off_chain_data pd) <= score (_analyze_off_chain_data pd'))
  /\ (spec.no_red_flags (off_chain_data pd) = false ->
      spec.no_red_flags (off_chain_data pd') = true ->
      score (_analyze_off_chain_data pd) <= score (_analyze_off_chain_data pd'))
  /\ (forall project_identifier project_type facts cause,
        off_chain_data
          (_collect_project_data project_identifier project_type facts (Raised cause)) = []
        /\ _analyze_off_chain_data
             (_collect_project_data project_identifier project_type facts (Raised cause))
           = {| score := 75;
                factors := ["Positive media coverage"; "Active community"];
                risks := ["Limited team information"];
                analysis := None;
                tvl := None |})
  /\ score (_analyze_off_chain_data pd) = 75.
Proof.
  repeat split; simpl; intros; lia.
Qed.

Lemma off_chain_score_contract_witness :
  score (_analyze_off_chain_data samples.project_by_name)
  <= score (_analyze_off_chain_data
              {| name := "Uniswap";
                 project_address := None;
                 website := None;
                 social_links := [];
                 on_chain_data := [];
                 off_chain_data :=
                   [ ("social_sentiment",
                      Py.PDict [ ("positive_mentions", Py.PInt 60);
                                 ("negative_mentions", Py.PInt 30);
                                 ("red_flags", Py.PList []) ]);
                     ("team_verification",
                      Py.PDict [ ("team_members_found", Py.PInt 3);
                                 ("verified_members", Py.PInt 2) ]) ] |}).
Proof.
  destruct (off_chain_score_contract samples.project_by_name
              {| name := "Uniswap";
                 project_address := None;
                 website := None;
                 social_links := [];
                 on_chain_data := [];
                 off_chain_data :=
                   [ ("social_sentiment",
                      Py.PDict [ ("positive_mentions", Py.PInt 60);
                                 ("negative_mentions", Py.PInt 30);
                                 ("red_flags", Py.PList []) ]);
                     ("team_verification",
                      Py.PDict [ ("team_members_found", Py.PInt 3);
                                 ("verified_members", Py.PInt 2) ]) ] |})
    as (_ & Hteam & Hsentiment & Hflags & _).
  apply Hteam; reflexivity.
Defined.

End OffChainScorer.

(** ** The audit and its degraded paths *)

Module Audit.

Import blockchain_analyzer veritas_agent Aggregator.

(** The on-chain sub-score of an audit is one of eight numbers. *)
Lemma on_chain_score_values (pd : ProjectData) (facts facts_for_score : outcome ContractAnalysis) :
  In (score (_analyze_on_chain_data pd facts facts_for_score))
     [20; 30; 50; 60; 70; 80; 90; 100].
Proof.
  unfold _analyze_on_chain_data.
  destruct (Py.truthy_str (project_address pd)); simpl; [|tauto].
  destruct facts as [a | e]; simpl; [|tauto].
  pose proof (OnChainScorer.quick_contract_score_values facts_for_score) as H.
  simpl in H. tauto.
Qed.

(** An identifier taken for an address is a non-empty string. *)
Lemma address_of_audit_truthy (project_identifier project_type : string) (b : Boundary) :
  is_address project_identifier = true ->
  Py.truthy_str (project_address (audit_project_data project_identifier project_type b))
  = true.
Proof.
  intros Haddr. unfold audit_project_data, _collect_project_data. rewrite Haddr. simpl.
  unfold is_address in Haddr. apply andb_true_iff in Haddr as [Hlen _].
  destruct project_identifier; [discriminate Hlen | reflexivity].
Qed.

Section Run.

Variable parse_json : string -> option Py.json.
Variable judge : Py.json -> outcome (option string).

(** An audit returns as soon as the judgment is a dict, and then with this
    record. *)
Lemma audit_returns (history : list HistoryEntry)
    (project_identifier project_type : string) (b : Boundary) (d : Py.dict) :
  audit_judgment parse_json judge project_identifier project_type b = Py.PDict d ->
  exists vs,
    audit_project parse_json judge history project_identifier project_type b
    = Returned (vs, (history ++ [ {| project := project_identifier;
                                     entry_score := vs;
                                     timestamp := clock_history b |} ])%list)
    /\ vs = {| overall_score :=
                 6 * score (audit_on_chain project_identifier project_type b) / 10 + 30;
               confidence_level :=
                 Py.dict_get_default d "confidence" (Py.PFloat (PyFloat.literal 7 10));
               on_chain_score := score (audit_on_chain project_identifier project_type b);
               off_chain_score := 75;
               veritas_agent.risk_factors :=
                 (risks (audit_on_chain project_identifier project_type b)
                  ++ ["Limited team information"])%list;
               positive_factors :=
                 (factors (audit_on_chain project_identifier project_type b)
                  ++ ["Positive media coverage"; "Active community"])%list;
               analysis_timestamp := clock_score b;
               evidence := audit_evidence project_identifier project_type b |}.
Proof.
  intros Hj.
  destruct (AggregatorSpec.combining_on_pipeline_scores
              (score (audit_on_chain project_identifier project_type b))
              (on_chain_score_values _ _ _)) as (x & Hx & Hr & Hclamp & _).
  eexists. split; [|reflexivity].
  unfold audit_project.
  fold (audit_project_data project_identifier project_type b).
  fold (audit_on_chain project_identifier project_type b).
  fold (audit_off_chain project_identifier project_type b).
  rewrite (generate_returned parse_json judge
             (audit_project_data project_identifier project_type b)
             (audit_on_chain project_identifier project_type b)
             (audit_off_chain project_identifier project_type b)
             (clock_score b) x _
             (Py.dict_get_default d "confidence" (Py.PFloat (PyFloat.literal 7 10)))
             Hx Hr).
  - cbn [bind]. rewrite Hclamp. reflexivity.
  - fold (audit_evidence project_identifier project_type b).
    fold (audit_judgment parse_json judge project_identifier project_type b).
    rewrite Hj. reflexivity.
Qed.

(** The adapter substitutes the degraded judgment when the evidence cannot
    be written, the call raises, the content is empty or is not JSON. *)
Lemma judgment_degraded (evidence : Py.value) :
  (forall prompt, Py.json_dumps evidence = Returned prompt ->
                  oracle_failed parse_json (judge prompt) = true) ->
  _ai_score_analysis parse_json judge evidence = degraded_judgment.
Proof.
  intros Hfail. unfold _ai_score_analysis, ai_request.
  destruct (Py.json_dumps evidence) as [prompt | msg]; simpl; [|reflexivity].
  specialize (Hfail prompt eq_refl). unfold oracle_failed in Hfail.
  destruct (judge prompt) as [[[|c s] |] | msg]; simpl; try reflexivity.
  unfold json_loads. destruct (parse_json (String c s)); [discriminate | reflexivity].
Qed.

End Run.

End Audit.

Module DegradedPaths.

Import blockchain_analyzer veritas_agent Aggregator Audit.

Lemma pipeline_overall_range (s : Z) :
  In s [20; 30; 50; 60; 70; 80; 90; 100] -> 1 <= 6 * s / 10 + 30 <= 100.
Proof.
  simpl. intros H.
  repeat (destruct H as [<- | H]; [vm_compute; split; discriminate |]).
  contradiction.
Qed.

(** A reply that is a JSON text is not a failure: the adapter hands the
    value on as it is. *)
Lemma parsed_reply_passes (parse_json : string -> option Py.json)
    (judge : Py.json -> outcome (option string)) (evidence : Py.value)
    (prompt : Py.json) (c : ascii) (s : string) (tree : Py.json) :
  Py.json_dumps evidence = Returned prompt ->
  judge prompt = Returned (Some (String c s)) ->
  parse_json (String c s) = Some tree ->
  _ai_score_analysis parse_json judge evidence = Py.json_decode tree.
Proof.
  intros Hd Hj Hp. unfold _ai_score_analysis, ai_request.
  rewrite Hd. simpl. rewrite Hj. simpl. unfold json_loads. now rewrite Hp.
Qed.

(** C4: when the oracle call raises, returns empty content or returns
    content that is not a JSON text, [_ai_score_analysis] raises nothing and
    returns the fixed degraded judgment, whose confidence is the double 0.5
    and whose risk level is "medium"; the audit then returns a complete
    [VeritasScore] with [confidence_level] 0.5 and records it in the
    history.  A reply that is a JSON object is no failure, whatever its
    members: the adapter hands it on as the judgment, and the audit returns
    with the object's own ["confidence"], or with 0.7 when the object has
    none. *)
Theorem oracle_failure_degrades (parse_json : string -> option Py.json)
    (judge : Py.json -> outcome (option string)) :
  (forall evidence,
     (forall prompt, Py.json_dumps evidence = Returned prompt ->
                     oracle_failed parse_json (judge prompt) = true) ->
     _ai_score_analysis parse_json judge evidence = degraded_judgment)
  /\ method_get degraded_judgment "confidence" (Py.PFloat (PyFloat.literal 7 10))
     = Returned (Py.PFloat (PyFloat.literal 5 10))
  /\ (PyFloat.to_Q (PyFloat.literal 5 10) == 1 # 2)%Q
  /\ method_get degraded_judgment "risk_level" Py.PNone = Returned (Py.PStr "medium")
  /\ (forall history project_identifier project_type b,
        (forall prompt,
           Py.json_dumps (audit_evidence project_identifier project_type b)
           = Returned prompt ->
           oracle_failed parse_json (judge prompt) = true) ->
        exists vs,
          audit_project parse_json judge history project_identifier project_type b
          = Returned (vs, (history ++ [ {| project := project_identifier;
                                           entry_score := vs;
                                           timestamp := clock_history b |} ])%list)
          /\ confidence_level vs = Py.PFloat (PyFloat.literal 5 10)
          /\ 1 <= overall_score vs <= 100
          /\ on_chain_score vs = score (audit_on_chain project_identifier project_type b)
          /\ off_chain_score vs = 75
          /\ veritas_agent.risk_factors vs
             = (risks (audit_on_chain project_identifier project_type b)
                ++ ["Limited team information"])%list
          /\ positive_factors vs
             = (factors (audit_on_chain project_identifier project_type b)
                ++ ["Positive media coverage"; "Active community"])%list
          /\ analysis_timestamp vs = clock_score b
          /\ evidence vs = audit_evidence project_identifier project_type b)
  /\ (forall history project_identifier project_type b prompt c s members,
        Py.json_dumps (audit_evidence project_identifier project_type b)
        = Returned prompt ->
        judge prompt = Returned (Some (String c s)) ->
        parse_json (String c s) = Some (Py.JObj members) ->
        exists vs,
          audit_project parse_json judge history project_identifier project_type b
          = Returned (vs, (history ++ [ {| project := project_identifier;
                                           entry_score := vs;
                                           timestamp := clock_history b |} ])%list)
          /\ audit_judgment parse_json judge project_identifier project_type b
             = Py.json_decode (Py.JObj members)
          /\ confidence_level vs
             = Py.dict_get_default
                 (Py.dict_of_items (map (fun '(k, x) => (k, Py.json_decode x)) members))
                 "confidence" (Py.PFloat (PyFloat.literal 7 10))
          /\ (~ In "confidence" (map fst members) ->
              confidence_level vs = Py.PFloat (PyFloat.literal 7 10))
          /\ 1 <= overall_score vs <= 100).
Proof.
  split; [|split; [|split; [|split; [|split]]]].
  - intros evidence Hfail. now apply judgment_degraded.
  - reflexivity.
  - vm_compute. reflexivity.
  - reflexivity.
  - intros history id ptype b Hfail.
    pose proof (judgment_degraded parse_json judge _ Hfail) as Hj.
    fold (audit_judgment parse_json judge id ptype b) in Hj.
    destruct (audit_returns parse_json judge history id ptype b _ Hj) as (vs & Hrun & Hvs).
    exists vs. split; [exact Hrun |]. subst vs. simpl.
    repeat split; try reflexivity;
      apply pipeline_overall_range, on_chain_score_values.
  - intros history id ptype b prompt c s members Hd Hreply Hparse.
    pose proof (parsed_reply_passes parse_json judge _ prompt c s _ Hd Hreply Hparse)
      as Hj.
    fold (audit_judgment parse_json judge id ptype b) in Hj.
    cbn [Py.json_decode] in Hj.
    destruct (audit_returns parse_json judge history id ptype b _ Hj) as (vs & Hrun & Hvs).
    exists vs. split; [exact Hrun |]. split; [exact Hj |].
    subst vs. cbn [confidence_level overall_score].
    split; [reflexivity |]. split.
    + intros Habsent. unfold Py.dict_get_default.
      rewrite PyFacts.dict_get_of_items_absent; [reflexivity |].
      unfold Py.keys. rewrite map_map.
      erewrite map_ext; [exact Habsent |]. intros [k x]. reflexivity.
    + apply pipeline_overall_range, on_chain_score_values.
Qed.

Lemma oracle_failure_degrades_witness :
  (exists vs h,
     audit_project samples.no_json samples.oracle_down [] samples.demo_address
       "contract" samples.live_boundary = Returned (vs, h)
     /\ confidence_level vs = Py.PFloat (PyFloat.literal 5 10)
     /\ _ai_score_analysis samples.no_json samples.oracle_down
          (audit_evidence samples.demo_address "contract" samples.live_boundary)
        = degraded_judgment)
  /\ (exists vs h,
        audit_project (samples.reads_as (Py.JObj []))
          (samples.oracle_says "{}") [] "Uniswap" "contract"
          (samples.failing_boundary "offline") = Returned (vs, h)
        /\ confidence_level vs = Py.PFloat (PyFloat.literal 7 10)).
Proof.
  split.
  - destruct (oracle_failure_degrades samples.no_json samples.oracle_down)
      as (Hadapter & _ & _ & _ & Haudit & _).
    destruct (Haudit [] samples.demo_address "contract" samples.live_boundary)
      as (vs & Hrun & Hconf & _).
    + intros prompt _. reflexivity.
    + exists vs. eexists. split; [exact Hrun |]. split; [exact Hconf |].
      apply Hadapter. intros prompt _. reflexivity.
  - destruct (oracle_failure_degrades
                (samples.reads_as (Py.JObj []))
                (samples.oracle_says "{}"))
      as (_ & _ & _ & _ & _ & Hobject).
    destruct (Py.json_dumps
                (audit_evidence "Uniswap" "contract" (samples.failing_boundary "offline")))
      as [prompt | msg] eqn:Hd; [| vm_compute in Hd; discriminate Hd].
    destruct (Hobject [] "Uniswap" "contract" (samples.failing_boundary "offline")
                prompt "{"%char "}" [] Hd eq_refl eq_refl)
      as (vs & Hrun & _ & _ & Hdefault & _).
    exists vs. eexists. split; [exact Hrun |].
    apply Hdefault. simpl. tauto.
Defined.

(** The three failures, each on its own. *)
Example oracle_failures :
  oracle_failed samples.no_json (Raised "Request timed out.") = true
  /\ oracle_failed samples.no_json (Returned None) = true
  /\ oracle_failed samples.no_json (Returned (Some "")) = true
  /\ oracle_failed samples.no_json (Returned (Some "{confidence: ")) = true.
Proof. repeat split. Qed.

(** C4 does not hold of a reply that is well-formed JSON and no judgment:
    the oracle answers with the empty object; nothing is raised, so nothing
    is caught, the adapter hands the empty dict on instead of the degraded
    judgment, and the audit reports the aggregator's own default 0.7 as
    [confidence_level], not 0.5. *)
Lemma empty_object_reply_is_not_degraded :
  exists vs h,
    audit_project (samples.reads_as (Py.JObj [])) (samples.oracle_says "{}")
      [] "Uniswap" "contract"
      (samples.failing_boundary "offline") = Returned (vs, h)
    /\ confidence_level vs = Py.PFloat (PyFloat.literal 7 10)
    /\ confidence_level vs <> Py.PFloat (PyFloat.literal 5 10)
    /\ audit_judgment (samples.reads_as (Py.JObj [])) (samples.oracle_says "{}")
         "Uniswap" "contract" (samples.failing_boundary "offline")
       = Py.PDict []
    /\ audit_judgment (samples.reads_as (Py.JObj [])) (samples.oracle_says "{}")
         "Uniswap" "contract" (samples.failing_boundary "offline")
       <> degraded_judgment.
Proof.
  eexists. eexists. split; [vm_compute; reflexivity |].
  split; [reflexivity |].
  split; [vm_compute; discriminate |].
  split; [vm_compute; reflexivity |].
  vm_compute. discriminate.
Qed.

(** A reply whose value is not an object makes the aggregator raise. *)
Example reply_not_an_object :
  audit_project (samples.reads_as (Py.JArr [])) (samples.oracle_says "[]")
    [] "Uniswap" "contract" (samples.failing_boundary "offline")
  = Raised "object has no attribute 'get'".
Proof. vm_compute. reflexivity. Qed.

(** A failure of the second provider call alone, the one inside
    [quick_contract_score], is absorbed there: the analysis keeps its
    factor lists and takes the score 50. *)
Lemma scoring_call_failure_alone (pd : ProjectData) (a : ContractAnalysis)
    (cause : string) :
  Py.truthy_str (project_address pd) = true ->
  score (_analyze_on_chain_data pd (Returned a) (Raised cause)) = 50
  /\ risks (_analyze_on_chain_data pd (Returned a) (Raised cause))
     = risks (_analyze_on_chain_data pd (Returned a) (Returned a)).
Proof.
  intros H. unfold _analyze_on_chain_data. rewrite H. split; reflexivity.
Qed.

(** C6: when the provider call that the on-chain analysis makes itself
    raises with message [cause], the analysis returns the sub-score 20 with
    no positive factor and the single risk factor "Analysis failed: cause";
    the audit goes on and, the judgment being a dict, returns a score built
    on that sub-score.  When that call answers and only the second one,
    made inside [quick_contract_score], raises, the failure is absorbed
    there: the sub-score is 50, the factor lists are those of the facts the
    first call returned, and the audit returns with the overall score 60. *)
Theorem provider_failure_degrades :
  (forall pd cause facts_for_score,
     Py.truthy_str (project_address pd) = true ->
     _analyze_on_chain_data pd (Raised cause) facts_for_score
     = {| score := 20;
          factors := [];
          risks := ["Analysis failed: " ++ cause];
          analysis := Some (Note "Error during on-chain analysis");
          tvl := None |})
  /\ (forall parse_json judge history project_identifier project_type b cause d,
        is_address project_identifier = true ->
        facts_analyze b = Raised cause ->
        audit_judgment parse_json judge project_identifier project_type b = Py.PDict d ->
        exists vs,
          audit_project parse_json judge history project_identifier project_type b
          = Returned (vs, (history ++ [ {| project := project_identifier;
                                           entry_score := vs;
                                           timestamp := clock_history b |} ])%list)
          /\ on_chain_score vs = 20
          /\ overall_score vs = 42
          /\ veritas_agent.risk_factors vs
             = ["Analysis failed: " ++ cause; "Limited team information"]
          /\ positive_factors vs = ["Positive media coverage"; "Active community"])
  /\ (forall pd a cause,
        Py.truthy_str (project_address pd) = true ->
        score (_analyze_on_chain_data pd (Returned a) (Raised cause)) = 50
        /\ factors (_analyze_on_chain_data pd (Returned a) (Raised cause))
           = factors (_analyze_on_chain_data pd (Returned a) (Returned a))
        /\ risks (_analyze_on_chain_data pd (Returned a) (Raised cause))
           = risks (_analyze_on_chain_data pd (Returned a) (Returned a))
        /\ analysis (_analyze_on_chain_data pd (Returned a) (Raised cause))
           = Some (Analysis a))
  /\ (forall parse_json judge history project_identifier project_type b a cause d,
        is_address project_identifier = true ->
        facts_analyze b = Returned a ->
        facts_score b = Raised cause ->
        audit_judgment parse_json judge project_identifier project_type b = Py.PDict d ->
        exists vs,
          audit_project parse_json judge history project_identifier project_type b
          = Returned (vs, (history ++ [ {| project := project_identifier;
                                           entry_score := vs;
                                           timestamp := clock_history b |} ])%list)
          /\ on_chain_score vs = 50
          /\ overall_score vs = 60
          /\ veritas_agent.risk_factors vs
             = (risks (_analyze_on_chain_data
                         (audit_project_data project_identifier project_type b)
                         (Returned a) (Returned a))
                ++ ["Limited team information"])%list).
Proof.
  assert (Hfun : forall pd cause facts_for_score,
             Py.truthy_str (project_address pd) = true ->
             _analyze_on_chain_data pd (Raised cause) facts_for_score
             = {| score := 20;
                  factors := [];
                  risks := ["Analysis failed: " ++ cause];
                  analysis := Some (Note "Error during on-chain analysis");
                  tvl := None |}).
  { intros pd cause f2 H. unfold _analyze_on_chain_data. now rewrite H. }
  split; [exact Hfun |]. split; [|split].
  - intros parse_json judge history id ptype b cause d Haddr Hfacts Hj.
    destruct (audit_returns parse_json judge history id ptype b d Hj)
      as (vs & Hrun & Hvs).
    exists vs. split; [exact Hrun |].
    assert (Hon : audit_on_chain id ptype b
                  = {| score := 20;
                       factors := [];
                       risks := ["Analysis failed: " ++ cause];
                       analysis := Some (Note "Error during on-chain analysis");
                       tvl := None |}).
    { unfold audit_on_chain. rewrite Hfacts. apply Hfun.
      now apply address_of_audit_truthy. }
    subst vs. simpl. rewrite Hon. simpl. repeat split.
  - intros pd a cause H.
    destruct (scoring_call_failure_alone pd a cause H) as [Hs Hr].
    split; [exact Hs |]. split; [|split; [exact Hr |]];
      unfold _analyze_on_chain_data; rewrite H; reflexivity.
  - intros parse_json judge history id ptype b a cause d Haddr Hfacts Hscore Hj.
    destruct (audit_returns parse_json judge history id ptype b d Hj)
      as (vs & Hrun & Hvs).
    exists vs. split; [exact Hrun |].
    pose proof (address_of_audit_truthy id ptype b Haddr) as Htruthy.
    destruct (scoring_call_failure_alone (audit_project_data id ptype b) a cause Htruthy)
      as [Hs Hr].
    assert (Hon : audit_on_chain id ptype b
                  = _analyze_on_chain_data (audit_project_data id ptype b)
                      (Returned a) (Raised cause)).
    { unfold audit_on_chain. now rewrite Hfacts, Hscore. }
    subst vs. cbn [on_chain_score overall_score veritas_agent.risk_factors].
    rewrite Hon, Hs, Hr. repeat split.
Qed.

Lemma provider_failure_degrades_witness :
  score (_analyze_on_chain_data samples.project_with_address
           (Raised "No connection available for ethereum")
           (Raised "No connection available for ethereum")) = 20
  /\ score (_analyze_on_chain_data samples.project_with_address
              (Returned samples.clean_facts) (Raised "Connection reset by peer")) = 50
  /\ exists vs h,
       audit_project samples.no_json samples.oracle_down [] samples.demo_address
         "contract" (samples.failing_boundary "No connection available for ethereum")
       = Returned (vs, h)
       /\ veritas_agent.risk_factors vs
          = ["Analysis failed: No connection available for ethereum";
             "Limited team information"].
Proof.
  destruct provider_failure_degrades as (Hfun & Haudit & Hsecond & _).
  split; [|split].
  - rewrite (Hfun samples.project_with_address); reflexivity.
  - apply (Hsecond samples.project_with_address samples.clean_facts
             "Connection reset by peer"). reflexivity.
  - destruct (Haudit samples.no_json samples.oracle_down [] samples.demo_address
                "contract" (samples.failing_boundary "No connection available for ethereum")
                "No connection available for ethereum"
                [ ("confidence", Py.PFloat (PyFloat.literal 5 10));
                  ("key_insights", Py.str_list ["AI analysis incomplete due to error"]);
                  ("risk_level", Py.PStr "medium");
                  ("recommendation", Py.PStr "Manual review recommended") ])
      as (vs & Hrun & _ & _ & Hrisks & _); try reflexivity.
    exists vs. eexists. split; [exact Hrun | exact Hrisks].
Defined.

(** C6 does not hold of every audit in which the provider raises: the
    provider answers the call of the on-chain analysis and raises on the
    call inside [quick_contract_score].  The sub-score is 50, not 20, the
    positive factors are kept, and no "Analysis failed" risk is
    recorded. *)
Lemma second_provider_call_failure_scores_50 :
  _analyze_on_chain_data samples.project_with_address
    (Returned samples.clean_facts) (Raised "Connection reset by peer")
  = {| score := 50;
       factors := [ "Contract source code verified";
                    "Active usage (1500 transactions)";
                    "Diverse user base (450 unique users)" ];
       risks := [];
       analysis := Some (Analysis samples.clean_facts);
       tvl := Some (total_value_locked samples.clean_facts) |}
  /\ exists vs h,
       audit_project samples.no_json samples.oracle_down [] samples.demo_address
         "contract" (samples.scoring_call_down "Connection reset by peer")
       = Returned (vs, h)
       /\ on_chain_score vs = 50
       /\ on_chain_score vs <> 20
       /\ veritas_agent.risk_factors vs = ["Limited team information"]
       /\ veritas_agent.risk_factors vs
          <> ["Analysis failed: Connection reset by peer"; "Limited team information"].
Proof.
  split; [vm_compute; reflexivity |].
  eexists. eexists. split; [vm_compute; reflexivity |].
  cbn [on_chain_score veritas_agent.risk_factors].
  repeat split; discriminate.
Qed.

End DegradedPaths.

(** ** The shipped chain-facts provider *)

Module ShippedProvider.

Import blockchain_analyzer veritas_agent.

(** Whatever the connection, the facts [analyze_contract] returns are the
    fixed ones: verified, 1500 transactions, 450 interactors, two risk
    factors; their score is 90. *)
Lemma shipped_facts_fixed (w3 : option Web3) (created : datetime)
    (contract_address : string) (a : ContractAnalysis) :
  analyze_contract w3 created contract_address = Returned a ->
  is_verified a = true
  /\ transaction_count a = 1500
  /\ unique_interactors a = 450
  /\ blockchain_analyzer.risk_factors a
     = ["Owner has full control"; "No timelock on critical functions"]
  /\ quick_contract_score (Returned a) = 90.
Proof.
  unfold analyze_contract.
  destruct w3 as [w |]; [|discriminate].
  destruct (negb (blockchain_analyzer.is_address w contract_address)); [discriminate |].
  destruct (get_code w (to_checksum_address w contract_address)) as [code | msg];
    simpl; [|discriminate].
  destruct (negb (0 <? Z.of_nat (List.length code))); [discriminate |].
  intros H. injection H as <-. repeat split.
Qed.

(** It raises without a connection, on a malformed address and on an
    address without code. *)
Example shipped_provider_failures :
  analyze_contract None "2024-01-01T00:00:00" samples.demo_address
  = Raised "No connection available for ethereum"
  /\ analyze_contract
       (Some {| blockchain_analyzer.is_address := fun _ => false;
                to_checksum_address := fun a => a;
                get_code := fun _ => Returned [] |})
       "2024-01-01T00:00:00" "0xZZ"
     = Raised "Invalid address format: 0xZZ"
  /\ analyze_contract
       (Some {| blockchain_analyzer.is_address := fun _ => true;
                to_checksum_address := fun a => a;
                get_code := fun _ => Returned [] |})
       "2024-01-01T00:00:00" "0xAb"
     = Raised "Address 0xAb is not a contract".
Proof. repeat split. Qed.

End ShippedProvider.


(** * Further properties of the code *)

(** ** JSON values read back *)

Module JsonFacts.

Import Py PyFacts.
Local Open Scope list_scope.

(** Induction on JSON trees, through the lists they hold. *)
Lemma json_nested_ind (P : json -> Prop)
  (HNull : P JNull) (HBool : forall b, P (JBool b)) (HInt : forall n, P (JInt n))
  (HFloat : forall x, P (JFloat x)) (HStr : forall s, P (JStr s))
  (HArr : forall items, Forall P items -> P (JArr items))
  (HObj : forall members, Forall (fun kv => P (snd kv)) members -> P (JObj members)) :
  forall j, P j.
Proof.
  fix IH 1. intros [ | b | n | x | s | items | members ].
  - exact HNull.
  - apply HBool.
  - apply HInt.
  - apply HFloat.
  - apply HStr.
  - apply HArr. induction items as [|a rest IHrest]; constructor;
      [apply IH | exact IHrest].
  - apply HObj. induction members as [|[k a] rest IHrest]; constructor;
      [apply IH | exact IHrest].
Qed.

Lemma keys_dict_set (d : dict) (k : string) (v : value) :
  keys (dict_set d k v) = if existsb (String.eqb k) (keys d) then keys d else keys d ++ [k].
Proof.
  induction d as [|[k' w] rest IH]; simpl; [reflexivity |].
  rewrite (String.eqb_sym k k').
  destruct (String.eqb k' k) eqn:E; simpl; [reflexivity |].
  rewrite IH. destruct (existsb (String.eqb k) (keys rest)); reflexivity.
Qed.

Lemma dict_set_NoDup (d : dict) (k : string) (v : value) :
  NoDup (keys d) -> NoDup (keys (dict_set d k v)).
Proof.
  intros H. rewrite keys_dict_set.
  destruct (existsb (String.eqb k) (keys d)) eqn:E; [exact H |].
  apply NoDup_app_remove_l with (l := []). simpl.
  assert (Hnot : ~ In k (keys d)).
  { intros Hin. apply existsb_eqb_In in Hin. congruence. }
  clear E. induction (keys d) as [|a l IHl]; simpl.
  - constructor; [intros [] | constructor].
  - inversion H as [|? ? Ha Hl]; subst. constructor.
    + rewrite in_app_iff. simpl. intros [Hin | [Heq | []]]; [contradiction |].
      apply Hnot. now left.
    + apply IHl; [assumption |]. intros Hin. apply Hnot. now right.
Qed.

Lemma dict_set_values (P : value -> Prop) (d : dict) (k : string) (v : value) :
  Forall (fun kv => P (snd kv)) d -> P v ->
  Forall (fun kv => P (snd kv)) (dict_set d k v).
Proof.
  intros Hd Hv. induction d as [|[k' w] rest IH]; simpl.
  - constructor; [exact Hv | constructor].
  - inversion Hd as [|? ? Hw Hrest]; subst.
    destruct (String.eqb k' k); constructor; auto.
Qed.

Lemma dict_of_items_invariant (P : value -> Prop) (items acc : list (string * value)) :
  NoDup (keys acc) -> Forall (fun kv => P (snd kv)) acc ->
  Forall (fun kv => P (snd kv)) items ->
  NoDup (keys (fold_left (fun d kv => dict_set d (fst kv) (snd kv)) items acc))
  /\ Forall (fun kv => P (snd kv))
       (fold_left (fun d kv => dict_set d (fst kv) (snd kv)) items acc).
Proof.
  revert acc. induction items as [|[k v] rest IH]; intros acc Hnd Hacc Hitems; simpl.
  - split; assumption.
  - inversion Hitems as [|? ? Hv Hrest]; subst. apply IH.
    + now apply dict_set_NoDup.
    + now apply dict_set_values.
    + exact Hrest.
Qed.

Lemma json_safe_dict (d : dict) :
  json_safe (PDict d) = true
  <-> NoDup (keys d) /\ Forall (fun kv => json_safe (snd kv) = true) d.
Proof.
  simpl. rewrite andb_true_iff. fold (keys d). rewrite distinct_NoDup.
  rewrite forallb_forall, Forall_forall. split; intros [Hk Hv]; split; try assumption.
  - intros [k v] Hin. exact (Hv (k, v) Hin).
  - intros [k v] Hin. exact (Hv (k, v) Hin).
Qed.

(** What [json.loads] builds can be written again: it holds JSON values
    only, every dict under distinct keys. *)
Lemma json_decode_safe : forall j, json_safe (json_decode j) = true.
Proof.
  induction j as [ | b | n | x | s | items IH | members IH ] using json_nested_ind;
    try reflexivity.
  - simpl. induction items as [|a rest IHrest]; simpl; [reflexivity |].
    inversion IH as [|? ? Ha Hrest]; subst. rewrite Ha. simpl. now apply IHrest.
  - simpl json_decode. apply json_safe_dict. unfold dict_of_items.
    apply (dict_of_items_invariant (fun v => json_safe v = true));
      [constructor | constructor |].
    induction members as [|[k a] rest IHrest]; simpl; constructor.
    + inversion IH; subst. assumption.
    + apply IHrest. now inversion IH.
Qed.

Lemma dict_get_safe (d : dict) (k : string) (v : value) :
  json_safe (PDict d) = true -> dict_get d k = Some v -> json_safe v = true.
Proof.
  rewrite json_safe_dict. intros [_ Hv]. induction d as [|[k' w] rest IH]; simpl;
    [discriminate |].
  inversion Hv as [|? ? Hw Hrest]; subst.
  destruct (String.eqb k' k).
  - intros H. injection H as <-. exact Hw.
  - now apply IH.
Qed.

End JsonFacts.

(** ** The audit as a whole *)

Module AuditOutcome.

Import blockchain_analyzer veritas_agent Aggregator Audit JsonFacts.

Section Run.

Variable parse_json : string -> option Py.json.
Variable judge : Py.json -> outcome (option string).

Lemma degraded_judgment_safe : Py.json_safe degraded_judgment = true.
Proof. reflexivity. Qed.

(** The judgment is always a value JSON can hold. *)
Lemma judgment_safe (evidence : Py.value) :
  Py.json_safe (_ai_score_analysis parse_json judge evidence) = true.
Proof.
  unfold _ai_score_analysis, ai_request.
  destruct (Py.json_dumps evidence) as [prompt |]; simpl; [|reflexivity].
  destruct (judge prompt) as [[[|c s] |] |]; simpl; try reflexivity.
  unfold json_loads. destruct (parse_json (String c s)); [|reflexivity].
  apply json_decode_safe.
Qed.

(** A judgment that is not the degraded one is the oracle's reply, read as
    JSON. *)
Lemma judgment_origin (evidence : Py.value) :
  _ai_score_analysis parse_json judge evidence = degraded_judgment
  \/ exists prompt c s tree,
       Py.json_dumps evidence = Returned prompt
       /\ judge prompt = Returned (Some (String c s))
       /\ parse_json (String c s) = Some tree
       /\ _ai_score_analysis parse_json judge evidence = Py.json_decode tree.
Proof.
  unfold _ai_score_analysis, ai_request.
  destruct (Py.json_dumps evidence) as [prompt |] eqn:Hd; simpl; [|now left].
  destruct (judge prompt) as [[[|c s] |] |] eqn:Hj; simpl; try now left.
  unfold json_loads. destruct (parse_json (String c s)) as [tree |] eqn:Hp; [|now left].
  right. exists prompt, c, s, tree. repeat split; assumption.
Qed.

Lemma generate_raised (pd : ProjectData) (on_chain off_chain : SubScore)
    (now : datetime) (x : PyFloat.float) (r : Z) :
  weighted_sum (score on_chain) (score off_chain) = Returned x ->
  PyFloat.to_int x = Returned r ->
  is_dict (_ai_score_analysis parse_json judge (evidence_of pd on_chain off_chain)) = false ->
  _generate_veritas_score parse_json judge pd on_chain off_chain now
  = Raised "object has no attribute 'get'".
Proof.
  intros Hx Hr Hnd. unfold _generate_veritas_score.
  rewrite Hx. cbn [bind]. rewrite Hr. cbn [bind].
  destruct (_ai_score_analysis parse_json judge (evidence_of pd on_chain off_chain));
    try reflexivity.
  discriminate Hnd.
Qed.

(** With a judgment that is not a dict the audit raises. *)
Lemma audit_raises (history : list HistoryEntry)
    (project_identifier project_type : string) (b : Boundary) :
  is_dict (audit_judgment parse_json judge project_identifier project_type b) = false ->
  audit_project parse_json judge history project_identifier project_type b
  = Raised "object has no attribute 'get'".
Proof.
  intros Hnd.
  destruct (AggregatorSpec.combining_on_pipeline_scores
              (score (audit_on_chain project_identifier project_type b))
              (on_chain_score_values _ _ _)) as (x & Hx & Hr & _).
  unfold audit_project.
  fold (audit_project_data project_identifier project_type b).
  fold (audit_on_chain project_identifier project_type b).
  fold (audit_off_chain project_identifier project_type b).
  rewrite (generate_raised
             (audit_project_data project_identifier project_type b)
             (audit_on_chain project_identifier project_type b)
             (audit_off_chain project_identifier project_type b)
             (clock_score b) x _ Hx Hr Hnd).
  reflexivity.
Qed.

(** The score and the history of an audit that returns. *)
Lemma audit_inv (history : list HistoryEntry)
    (project_identifier project_type : string) (b : Boundary)
    (vs : VeritasScore) (h : list HistoryEntry) :
  audit_project parse_json judge history project_identifier project_type b
  = Returned (vs, h) ->
  exists d,
    audit_judgment parse_json judge project_identifier project_type b = Py.PDict d
    /\ h = (history ++ [ {| project := project_identifier;
                            entry_score := vs;
                            timestamp := clock_history b |} ])%list
    /\ vs = {| overall_score :=
                 6 * score (audit_on_chain project_identifier project_type b) / 10 + 30;
               confidence_level :=
                 Py.dict_get_default d "confidence" (Py.PFloat (PyFloat.literal 7 10));
               on_chain_score := score (audit_on_chain project_identifier project_type b);
               off_chain_score := 75;
               veritas_agent.risk_factors :=
                 (risks (audit_on_chain project_identifier project_type b)
                  ++ ["Limited team information"])%list;
               positive_factors :=
                 (factors (audit_on_chain project_identifier project_type b)
                  ++ ["Positive media coverage"; "Active community"])%list;
               analysis_timestamp := clock_score b;
               evidence := audit_evidence project_identifier project_type b |}.
Proof.
  intros Hrun.
  destruct (is_dict (audit_judgment parse_json judge project_identifier project_type b))
    eqn:Hd.
  - apply is_dict_inv in Hd. destruct Hd as [d Hd]. exists d.
    destruct (audit_returns parse_json judge history project_identifier project_type b d Hd)
      as (vs' & Hrun' & Hvs').
    rewrite Hrun in Hrun'. injection Hrun' as -> ->.
    repeat split; assumption.
  - rewrite (audit_raises history _ _ _ Hd) in Hrun. discriminate Hrun.
Qed.

End Run.

(** X1: an audit returns exactly when the judgment it obtained is a dict.
    Otherwise it raises on [ai_analysis.get], and the judgment is then the
    oracle's own reply: a JSON text whose value is not an object. *)
Theorem audit_returns_iff_judgment_is_dict (parse_json : string -> option Py.json)
    (judge : Py.json -> outcome (option string)) (history : list HistoryEntry)
    (project_identifier project_type : string) (b : Boundary) :
  ((exists vs h,
      audit_project parse_json judge history project_identifier project_type b
      = Returned (vs, h))
   <-> is_dict (audit_judgment parse_json judge project_identifier project_type b) = true)
  /\ (is_dict (audit_judgment parse_json judge project_identifier project_type b) = false ->
      audit_project parse_json judge history project_identifier project_type b
      = Raised "object has no attribute 'get'"
      /\ exists prompt c s tree,
           Py.json_dumps (audit_evidence project_identifier project_type b)
           = Returned prompt
           /\ judge prompt = Returned (Some (String c s))
           /\ parse_json (String c s) = Some tree
           /\ (forall members, tree <> Py.JObj members)).
Proof.
  split.
  - split.
    + intros (vs & h & Hrun). apply audit_inv in Hrun.
      destruct Hrun as (d & Hd & _). now rewrite Hd.
    + intros Hd. apply is_dict_inv in Hd. destruct Hd as [d Hd].
      destruct (audit_returns parse_json judge history project_identifier project_type b d Hd)
        as (vs & Hrun & _).
      now exists vs, (history ++ [ {| project := project_identifier;
                                       entry_score := vs;
                                       timestamp := clock_history b |} ])%list.
  - intros Hnd. split; [now apply audit_raises |].
    unfold audit_judgment in Hnd.
    destruct (judgment_origin parse_json judge
                (audit_evidence project_identifier project_type b))
      as [Hdeg | (prompt & c & s & tree & Hp & Hj & Ht & Heq)].
    + rewrite Hdeg in Hnd. discriminate Hnd.
    + exists prompt, c, s, tree. repeat split; try assumption.
      intros members ->. rewrite Heq in Hnd. discriminate Hnd.
Qed.

Lemma audit_returns_iff_judgment_is_dict_witness :
  audit_project (samples.reads_as (Py.JStr "ok")) (samples.oracle_says "ok")
    [] "Uniswap" "contract" (samples.failing_boundary "offline")
  = Raised "object has no attribute 'get'".
Proof.
  destruct (audit_returns_iff_judgment_is_dict
              (samples.reads_as (Py.JStr "ok")) (samples.oracle_says "ok")
              [] "Uniswap" "contract" (samples.failing_boundary "offline"))
    as (_ & Hraise).
  destruct Hraise as (Hrun & _); [reflexivity | exact Hrun].
Defined.

(** X2: the overall score of an audit that returns is
    [6 * on_chain_score / 10 + 30] with the off-chain score 75; it is one
    of 42, 48, 60, 66, 72, 78, 84 and 90, so no audit scores below 42 or
    above 90. *)
Theorem audit_overall_values (parse_json : string -> option Py.json)
    (judge : Py.json -> outcome (option string)) (history : list HistoryEntry)
    (project_identifier project_type : string) (b : Boundary)
    (vs : VeritasScore) (h : list HistoryEntry) :
  audit_project parse_json judge history project_identifier project_type b
  = Returned (vs, h) ->
  overall_score vs = 6 * on_chain_score vs / 10 + 30
  /\ off_chain_score vs = 75
  /\ In (on_chain_score vs) [20; 30; 50; 60; 70; 80; 90; 100]
  /\ In (overall_score vs) [42; 48; 60; 66; 72; 78; 84; 90]
  /\ 42 <= overall_score vs <= 90.
Proof.
  intros Hrun. apply audit_inv in Hrun. destruct Hrun as (d & _ & _ & ->).
  cbn [overall_score on_chain_score off_chain_score].
  pose proof (on_chain_score_values
                (audit_project_data project_identifier project_type b)
                (facts_analyze b) (facts_score b)) as Hin.
  fold (audit_on_chain project_identifier project_type b) in Hin.
  split; [reflexivity |]. split; [reflexivity |]. split; [exact Hin |].
  generalize dependent (score (audit_on_chain project_identifier project_type b)).
  intros s Hin. simpl in Hin.
  repeat (destruct Hin as [<- | Hin];
          [split; [vm_compute; tauto | split; vm_compute; discriminate] |]).
  contradiction.
Qed.

Lemma audit_overall_values_witness :
  exists vs h,
    audit_project samples.no_json samples.oracle_down [] samples.demo_address
      "contract" samples.live_boundary = Returned (vs, h)
    /\ overall_score vs = 6 * on_chain_score vs / 10 + 30
    /\ 42 <= overall_score vs <= 90.
Proof.
  destruct (audit_project samples.no_json samples.oracle_down [] samples.demo_address
              "contract" samples.live_boundary) as [[vs h] | msg] eqn:E.
  - destruct (audit_overall_values _ _ _ _ _ _ _ _ E) as (Hform & _ & _ & _ & Hrange).
    exists vs, h. repeat split; try assumption; apply Hrange.
  - vm_compute in E. discriminate E.
Defined.

(** X3: the history is append-only: an audit that returns adds one entry,
    for its identifier and holding the score it returned, after the
    entries already there; two audits in a row leave their two entries in
    call order. *)
Theorem history_append_only (parse_json : string -> option Py.json)
    (judge : Py.json -> outcome (option string)) (history : list HistoryEntry)
    (id1 type1 id2 type2 : string) (b1 b2 : Boundary)
    (vs1 vs2 : VeritasScore) (h1 h2 : list HistoryEntry) :
  audit_project parse_json judge history id1 type1 b1 = Returned (vs1, h1) ->
  audit_project parse_json judge h1 id2 type2 b2 = Returned (vs2, h2) ->
  h1 = (history ++ [ {| project := id1; entry_score := vs1;
                        timestamp := clock_history b1 |} ])%list
  /\ h2 = (history ++ [ {| project := id1; entry_score := vs1;
                           timestamp := clock_history b1 |};
                        {| project := id2; entry_score := vs2;
                           timestamp := clock_history b2 |} ])%list
  /\ firstn (List.length history) h2 = history
  /\ List.length h2 = (List.length history + 2)%nat.
Proof.
  intros Hrun1 Hrun2.
  apply audit_inv in Hrun1. destruct Hrun1 as (d1 & _ & Hh1 & _).
  apply audit_inv in Hrun2. destruct Hrun2 as (d2 & _ & Hh2 & _).
  split; [exact Hh1 |].
  assert (Hh : h2 = (history ++ [ {| project := id1; entry_score := vs1;
                                     timestamp := clock_history b1 |};
                                  {| project := id2; entry_score := vs2;
                                     timestamp := clock_history b2 |} ])%list).
  { rewrite Hh2, Hh1, <- app_assoc. reflexivity. }
  split; [exact Hh |]. rewrite Hh. split.
  - rewrite firstn_app, Nat.sub_diag, firstn_all. simpl. apply app_nil_r.
  - rewrite length_app. reflexivity.
Qed.

Lemma history_append_only_witness :
  exists vs1 vs2 h2,
    audit_project samples.no_json samples.oracle_down
      (match audit_project samples.no_json samples.oracle_down [] "Uniswap" "contract"
               (samples.failing_boundary "offline") with
       | Returned (_, h1) => h1
       | Raised _ => []
       end)
      samples.demo_address "contract" samples.live_boundary = Returned (vs2, h2)
    /\ map project h2 = ["Uniswap"; samples.demo_address]
    /\ map entry_score h2 = [vs1; vs2].
Proof.
  destruct (audit_project samples.no_json samples.oracle_down [] "Uniswap" "contract"
              (samples.failing_boundary "offline")) as [[vs1 h1] | msg] eqn:E1;
    [|vm_compute in E1; discriminate E1].
  destruct (audit_project samples.no_json samples.oracle_down h1
              samples.demo_address "contract" samples.live_boundary)
    as [[vs2 h2] | msg] eqn:E2.
  - destruct (history_append_only _ _ _ _ _ _ _ _ _ _ _ _ _ E1 E2) as (_ & Hh2 & _).
    exists vs1, vs2, h2. split; [reflexivity |]. rewrite Hh2. split; reflexivity.
  - exfalso.
    destruct (audit_returns samples.no_json samples.oracle_down h1
                samples.demo_address "contract" samples.live_boundary
                [ ("confidence", Py.PFloat (PyFloat.literal 5 10));
                  ("key_insights", Py.str_list ["AI analysis incomplete due to error"]);
                  ("risk_level", Py.PStr "medium");
                  ("recommendation", Py.PStr "Manual review recommended") ]
                eq_refl) as (vs & Hrun & _).
    rewrite E2 in Hrun. discriminate Hrun.
Defined.

End AuditOutcome.

(** ** The exported report *)

Module ReportFacts.

Import blockchain_analyzer veritas_agent report JsonFacts AuditOutcome.

Lemma dict_get_default_safe (d : Py.dict) (k : string) (default : Py.value) :
  Py.json_safe (Py.PDict d) = true -> Py.json_safe default = true ->
  Py.json_safe (Py.dict_get_default d k default) = true.
Proof.
  intros Hd Hdef. unfold Py.dict_get_default.
  destruct (Py.dict_get d k) as [v |] eqn:E; [|exact Hdef].
  exact (dict_get_safe d k v Hd E).
Qed.

(** The report dict of a score holds JSON values once its confidence and
    its evidence do. *)
Lemma report_dict_safe (score : VeritasScore) :
  Py.json_safe (confidence_level score) = true ->
  Py.json_safe (evidence score) = true ->
  Py.json_safe (report_dict score) = true.
Proof.
  intros Hc He. unfold report_dict.
  cbn -[Py.str_list]. rewrite Hc, He, !PyFacts.json_safe_str_list. reflexivity.
Qed.

(** X4: [export_report] in the "json" format never fails on the score of an
    audit: whatever the oracle replied, the confidence and the evidence are
    JSON values, the text is written, and read back it is the dict of the
    seven report fields. *)
Theorem export_of_audit_round_trips (parse_json : string -> option Py.json)
    (judge : Py.json -> outcome (option string)) (history : list HistoryEntry)
    (project_identifier project_type : string) (b : Boundary)
    (vs : VeritasScore) (h : list HistoryEntry) :
  audit_project parse_json judge history project_identifier project_type b
  = Returned (vs, h) ->
  exists tree,
    export_report vs "json" = Returned (JsonText tree)
    /\ Py.json_decode tree = report_dict vs
    /\ Py.keys (match report_dict vs with Py.PDict d => d | _ => [] end)
       = ["veritas_score"; "confidence"; "breakdown"; "risk_factors";
          "positive_factors"; "timestamp"; "evidence"].
Proof.
  intros Hrun. apply audit_inv in Hrun. destruct Hrun as (d & Hj & _ & Hvs).
  assert (Hsafe : Py.json_safe (report_dict vs) = true).
  { apply report_dict_safe; rewrite Hvs; cbn [confidence_level evidence].
    - apply dict_get_default_safe; [|reflexivity].
      rewrite <- Hj. apply judgment_safe.
    - apply Normaliser.evidence_json_safe. }
  destruct (PyFacts.json_round_trip_safe _ Hsafe) as (tree & Hd & Hl).
  exists tree. unfold export_report. simpl String.eqb. cbn iota.
  rewrite Hd. repeat split; assumption.
Qed.

Lemma export_of_audit_round_trips_witness :
  exists vs tree,
    export_report vs "json" = Returned (JsonText tree)
    /\ Py.json_decode tree = report_dict vs
    /\ overall_score vs = 84.
Proof.
  destruct (audit_project samples.no_json samples.oracle_down [] samples.demo_address
              "contract" samples.live_boundary) as [[vs h] | msg] eqn:E.
  - destruct (export_of_audit_round_trips _ _ _ _ _ _ _ _ E) as (tree & Hx & Hl & _).
    exists vs, tree. repeat split; try assumption.
    vm_compute in E. injection E as <- _. reflexivity.
  - vm_compute in E. discriminate E.
Defined.

Lemma returns_bind {A B : Type} (c : outcome A) (k : A -> outcome B) :
  (forall a, returns (k a) = true) -> returns (bind c k) = returns c.
Proof.
  intros Hk. destruct c as [a |]; simpl; [apply Hk | reflexivity].
Qed.

Lemma returns_traverse {A B : Type} (f : A -> outcome B) (l : list A) :
  returns (traverse f l) = forallb (fun x => returns (f x)) l.
Proof.
  induction l as [|x r IH]; simpl; [reflexivity |].
  destruct (f x) as [y |]; simpl; [|reflexivity].
  rewrite <- IH. destruct (traverse f r); reflexivity.
Qed.

(** A dict is written exactly when each of its values is. *)
Lemma returns_dumps_dict (items : Py.dict) :
  returns (Py.json_dumps (Py.PDict items))
  = forallb (fun kv => returns (Py.json_dumps (snd kv))) items.
Proof.
  simpl Py.json_dumps. rewrite returns_bind by reflexivity.
  rewrite returns_traverse.
  induction items as [|[k x] rest IH]; simpl; [reflexivity |].
  rewrite IH. f_equal. now rewrite returns_bind.
Qed.

Lemma returns_dumps_str_list (l : list string) :
  returns (Py.json_dumps (Py.str_list l)) = true.
Proof.
  destruct (PyFacts.json_round_trip_safe _ (PyFacts.json_safe_str_list l)) as (j & Hj & _).
  now rewrite Hj.
Qed.

(** X5: the JSON export of a score returns exactly when [json.dumps] can
    write both its confidence and its evidence, the only two fields the
    score does not type; any format other than the exact word "json"
    returns [str(score)] and cannot fail. *)
Theorem export_report_returns_iff (score : VeritasScore) (format : string) :
  returns (export_report score "json")
  = returns (Py.json_dumps (confidence_level score))
    && returns (Py.json_dumps (evidence score))
  /\ (format <> "json" -> export_report score format = Returned (Repr score)).
Proof.
  split.
  - unfold export_report. simpl String.eqb. cbn iota.
    rewrite returns_bind by reflexivity.
    unfold report_dict. rewrite returns_dumps_dict.
    cbn -[Py.json_dumps Py.str_list]. rewrite !returns_dumps_str_list.
    simpl. now rewrite !andb_true_r.
  - intros Hne. unfold export_report. apply String.eqb_neq in Hne. now rewrite Hne.
Qed.

Lemma export_report_returns_iff_witness :
  returns
    (export_report
       {| overall_score := 84; confidence_level := Py.PFloat (PyFloat.literal 5 10);
          on_chain_score := 90; off_chain_score := 75;
          veritas_agent.risk_factors := []; positive_factors := [];
          analysis_timestamp := "2024-01-01T00:00:00";
          evidence := instance samples.clean_facts |} "json") = false
  /\ export_report
       {| overall_score := 84; confidence_level := Py.PFloat (PyFloat.literal 5 10);
          on_chain_score := 90; off_chain_score := 75;
          veritas_agent.risk_factors := []; positive_factors := [];
          analysis_timestamp := "2024-01-01T00:00:00";
          evidence := instance samples.clean_facts |} "JSON"
     = Returned
         (Repr {| overall_score := 84;
                  confidence_level := Py.PFloat (PyFloat.literal 5 10);
                  on_chain_score := 90; off_chain_score := 75;
                  veritas_agent.risk_factors := []; positive_factors := [];
                  analysis_timestamp := "2024-01-01T00:00:00";
                  evidence := instance samples.clean_facts |}).
Proof.
  split.
  - destruct (export_report_returns_iff
                {| overall_score := 84;
                   confidence_level := Py.PFloat (PyFloat.literal 5 10);
                   on_chain_score := 90; off_chain_score := 75;
                   veritas_agent.risk_factors := []; positive_factors := [];
                   analysis_timestamp := "2024-01-01T00:00:00";
                   evidence := instance samples.clean_facts |} "json") as (Hret & _).
    rewrite Hret. reflexivity.
  - apply export_report_returns_iff. discriminate.
Defined.

End ReportFacts.


(** ** More on the on-chain scorer and the provider *)

Module OnChainPaths.

Import blockchain_analyzer veritas_agent.

(** X6: the on-chain sub-score tells the path taken: it is 30 exactly when
    the project has no address, 20 exactly when it has one and the provider
    call raised, and one of 50, 60, ..., 100 exactly when the provider
    answered; in every case it lies in 1..100. *)
Theorem on_chain_score_tells_path (pd : ProjectData)
    (facts facts_for_score : outcome ContractAnalysis) :
  1 <= score (_analyze_on_chain_data pd facts facts_for_score) <= 100
  /\ (score (_analyze_on_chain_data pd facts facts_for_score) = 30
      <-> Py.truthy_str (project_address pd) = false)
  /\ (score (_analyze_on_chain_data pd facts facts_for_score) = 20
      <-> Py.truthy_str (project_address pd) = true /\ exists e, facts = Raised e)
  /\ (In (score (_analyze_on_chain_data pd facts facts_for_score))
         [50; 60; 70; 80; 90; 100]
      <-> Py.truthy_str (project_address pd) = true /\ exists a, facts = Returned a).
Proof.
  pose proof (OnChainScorer.quick_contract_score_values facts_for_score) as Hq.
  unfold _analyze_on_chain_data.
  destruct (Py.truthy_str (project_address pd)); cbn [negb].
  - destruct facts as [a | e]; cbn [score].
    + set (q := quick_contract_score facts_for_score) in *. simpl in Hq.
      split; [lia |]. split; [split; [lia | discriminate] |].
      split; [split; [lia | intros [_ [e He]]; discriminate He] |].
      split; [intros _; split; [reflexivity | now exists a] | intros _; exact Hq].
    + split; [lia |]. split; [split; [lia | discriminate] |].
      split; [split; [intros _; split; [reflexivity | now exists e] | reflexivity] |].
      split; [simpl; lia | intros [_ [a Ha]]; discriminate Ha].
  - cbn [score]. split; [lia |]. split; [split; reflexivity |].
    split; [split; [lia | intros [H _]; discriminate H] |].
    split; [simpl; lia | intros [H _]; discriminate H].
Qed.

Lemma on_chain_score_tells_path_witness :
  score (_analyze_on_chain_data samples.project_by_name
           samples.shipped_facts samples.shipped_facts) = 30
  /\ score (_analyze_on_chain_data samples.project_with_address
              (Raised "No connection available for ethereum")
              samples.shipped_facts) = 20.
Proof.
  split.
  - destruct (on_chain_score_tells_path samples.project_by_name
                samples.shipped_facts samples.shipped_facts) as (_ & H30 & _).
    apply H30. reflexivity.
  - destruct (on_chain_score_tells_path samples.project_with_address
                (Raised "No connection available for ethereum")
                samples.shipped_facts) as (_ & _ & H20 & _).
    apply H20. split; [reflexivity | now eexists].
Defined.


(** The positive factors with facts: the three notes, then the reported
    indicators. *)
Lemma on_chain_factors_of_facts (pd : ProjectData) (a : ContractAnalysis)
    (r : outcome ContractAnalysis) :
  Py.truthy_str (project_address pd) = true ->
  factors (_analyze_on_chain_data pd (Returned a) r)
  = ((if is_verified a then ["Contract source code verified"] else [])
     ++ (if transaction_count a >? 100
         then [("Active usage (" ++ Py.str_of_int (transaction_count a) ++ " transactions)")%string]
         else [])
     ++ (if unique_interactors a >? 50
         then [("Diverse user base (" ++ Py.str_of_int (unique_interactors a)
               ++ " unique users)")%string]
         else [])
     ++ security_indicators a)%list.
Proof.
  intros H. unfold _analyze_on_chain_data. rewrite H. cbn [negb factors].
  destruct (is_verified a), (transaction_count a >? 100), (unique_interactors a >? 50);
    reflexivity.
Qed.

(** X7: with facts from the provider the analysis only adds to what was
    reported: the positive factors are at most three notes followed by
    every reported security indicator, the risks are every reported risk
    followed by at most two warnings; the "verified" note is present exactly
    for a verified contract and the "not verified" warning exactly for an
    unverified one; the low-activity warning appears exactly below 10
    transactions, and then without the activity note. *)
Theorem on_chain_lists_extend_reports (pd : ProjectData) (a : ContractAnalysis)
    (r : outcome ContractAnalysis) :
  Py.truthy_str (project_address pd) = true ->
  exists notes warnings,
    factors (_analyze_on_chain_data pd (Returned a) r)
    = (notes ++ security_indicators a)%list
    /\ risks (_analyze_on_chain_data pd (Returned a) r)
       = (blockchain_analyzer.risk_factors a ++ warnings)%list
    /\ (List.length notes <= 3)%nat
    /\ (List.length warnings <= 2)%nat
    /\ (In "Contract source code verified" notes <-> is_verified a = true)
    /\ (In "Contract source code not verified" warnings <-> is_verified a = false)
    /\ (In "Very low transaction activity" warnings <-> transaction_count a < 10)
    /\ (transaction_count a < 10 -> (List.length notes <= 2)%nat).
Proof.
  intros H.
  exists ((if is_verified a then ["Contract source code verified"] else [])
     ++ (if transaction_count a >? 100
         then [("Active usage (" ++ Py.str_of_int (transaction_count a) ++ " transactions)")%string]
         else [])
     ++ (if unique_interactors a >? 50
         then [("Diverse user base (" ++ Py.str_of_int (unique_interactors a)
               ++ " unique users)")%string]
         else []))%list.
  exists ((if transaction_count a <? 10 then ["Very low transaction activity"] else [])
     ++ (if is_verified a then [] else ["Contract source code not verified"]))%list.
  rewrite (on_chain_factors_of_facts pd a r H).
  rewrite (OnChainScorer.on_chain_risks_of_facts pd a r H).
  rewrite <- !app_assoc.
  split; [reflexivity |]. split; [reflexivity |].
  destruct (is_verified a);
    destruct (transaction_count a >? 100) eqn:Ht;
    destruct (unique_interactors a >? 50);
    destruct (transaction_count a <? 10) eqn:Hl;
    try (apply Z.gtb_lt in Ht); try (apply Z.ltb_lt in Hl); try (apply Z.ltb_ge in Hl);
    simpl;
    repeat split; intros; try lia; try reflexivity; try discriminate; try tauto;
    repeat match goal with
           | H : _ \/ _ |- _ => destruct H
           | H : False |- _ => destruct H
           | H : _ = _ |- _ => discriminate H
           end; auto.
Qed.

Lemma on_chain_lists_extend_reports_witness :
  exists notes warnings,
    factors (_analyze_on_chain_data samples.project_with_address
               samples.shipped_facts samples.shipped_facts)
    = (notes ++ ["Contract verified"; "No obvious vulnerabilities";
                 "Standard patterns used"])%list
    /\ risks (_analyze_on_chain_data samples.project_with_address
                samples.shipped_facts samples.shipped_facts)
       = (["Owner has full control"; "No timelock on critical functions"]
          ++ warnings)%list.
Proof.
  destruct samples.shipped_facts as [a | e] eqn:E;
    [|vm_compute in E; discriminate E].
  destruct (on_chain_lists_extend_reports samples.project_with_address a (Returned a)
              eq_refl) as (notes & warnings & Hf & Hr & _).
  exists notes, warnings.
  vm_compute in E. injection E as <-. split; assumption.
Defined.


(** X8: [quick_contract_score] is monotone: facts that are verified when
    the others are, have at least as many transactions and interactors and
    report no risk when the others report none never score lower; and a
    failed analysis scores 50, never more than an analysis that returned. *)
Theorem quick_contract_score_monotone (a a' : ContractAnalysis) (e : string) :
  (is_verified a = true -> is_verified a' = true) ->
  transaction_count a <= transaction_count a' ->
  unique_interactors a <= unique_interactors a' ->
  (blockchain_analyzer.risk_factors a = [] -> blockchain_analyzer.risk_factors a' = []) ->
  quick_contract_score (Returned a) <= quick_contract_score (Returned a')
  /\ quick_contract_score (Raised e) <= quick_contract_score (Returned a).
Proof.
  intros Hv Ht Hu Hr.
  rewrite !OnChainScorer.quick_contract_score_formula.
  pose proof (OnChainScorer.sum_bonuses_range a) as Hrange.
  assert (Hsum : blockchain_analyzer.sum (bonuses a) <= blockchain_analyzer.sum (bonuses a')).
  { unfold bonuses, blockchain_analyzer.sum. cbn [fold_right].
    assert (H1 : (if is_verified a then 20 else 0) <= (if is_verified a' then 20 else 0)).
    { destruct (is_verified a); [rewrite (Hv eq_refl); lia |].
      destruct (is_verified a'); lia. }
    assert (H2 : (if transaction_count a >? 100 then 10 else 0)
                 <= (if transaction_count a' >? 100 then 10 else 0)).
    { destruct (transaction_count a >? 100) eqn:E; destruct (transaction_count a' >? 100) eqn:E';
        lia. }
    assert (H3 : (if unique_interactors a >? 50 then 10 else 0)
                 <= (if unique_interactors a' >? 50 then 10 else 0)).
    { destruct (unique_interactors a >? 50) eqn:E; destruct (unique_interactors a' >? 50) eqn:E';
        lia. }
    assert (H4 : match blockchain_analyzer.risk_factors a with [] => 10 | _ => 0 end
                 <= match blockchain_analyzer.risk_factors a' with [] => 10 | _ => 0 end).
    { destruct (blockchain_analyzer.risk_factors a); [rewrite (Hr eq_refl); lia |].
      destruct (blockchain_analyzer.risk_factors a'); lia. }
    lia. }
  cbn [quick_contract_score]. lia.
Qed.

Lemma quick_contract_score_monotone_witness :
  quick_contract_score
    (Returned {| address := samples.demo_address;
                 is_verified := false;
                 creation_date := None;
                 creator_address := "";
                 transaction_count := 5;
                 unique_interactors := 2;
                 total_value_locked := PyFloat.literal 0 1;
                 proxy_pattern := false;
                 ownership_analysis := [];
                 security_indicators := [];
                 blockchain_analyzer.risk_factors := ["Owner has full control"] |})
  <= quick_contract_score (Returned samples.clean_facts).
Proof.
  apply (quick_contract_score_monotone _ samples.clean_facts "unused");
    simpl; try lia; try reflexivity; discriminate.
Defined.


Lemma substring_8 (s : string) :
  (8 <= String.length s)%nat -> String.length (String.substring 0 8 s) = 8%nat.
Proof.
  intros H.
  do 8 (destruct s as [|? s]; [simpl in H; lia |]).
  destruct s; reflexivity.
Qed.

(** X9: [_collect_project_data] names an address "Contract_" followed by
    its first eight characters (17 characters, starting "Contract_0x") and
    names anything else by the identifier itself; it keeps a
    ["basic_analysis"] entry exactly when the identifier is an address and
    the provider answered, and nothing on-chain otherwise; the off-chain
    data is the scan's dict, or empty when the scan raised. *)
Theorem collected_project_data (project_identifier project_type : string)
    (facts : outcome ContractAnalysis) (scan : outcome Py.dict) :
  (is_address project_identifier = true ->
   name (_collect_project_data project_identifier project_type facts scan)
   = "Contract_" ++ String.substring 0 8 project_identifier
   /\ String.length (name (_collect_project_data project_identifier project_type facts scan))
      = 17%nat
   /\ String.prefix "Contract_0x"
        (name (_collect_project_data project_identifier project_type facts scan)) = true)
  /\ (is_address project_identifier = false ->
      name (_collect_project_data project_identifier project_type facts scan)
      = project_identifier
      /\ on_chain_data (_collect_project_data project_identifier project_type facts scan)
         = [])
  /\ (Py.keys (on_chain_data
                 (_collect_project_data project_identifier project_type facts scan))
      = ["basic_analysis"]
      <-> is_address project_identifier = true /\ exists a, facts = Returned a)
  /\ (forall e, facts = Raised e ->
      on_chain_data (_collect_project_data project_identifier project_type facts scan) = [])
  /\ off_chain_data (_collect_project_data project_identifier project_type facts scan)
     = match scan with Returned d => d | Raised _ => [] end.
Proof.
  unfold _collect_project_data.
  destruct (is_address project_identifier) eqn:Haddr; cbn [negb name on_chain_data off_chain_data].
  - split.
    + intros _. split; [reflexivity |].
      apply andb_true_iff in Haddr as [Hlen Hpre].
      apply Nat.eqb_eq in Hlen. apply OnChainScorer.prefix_0x in Hpre.
      destruct Hpre as [rest ->]. simpl in Hlen.
      assert (Hrest : (6 <= String.length rest)%nat) by lia.
      do 6 (destruct rest as [|? rest]; [simpl in Hrest; lia |]).
      split; [destruct rest; reflexivity |].
      destruct rest; reflexivity.
    + split; [discriminate |]. split.
      * destruct facts as [a | e]; simpl.
        -- split; [intros _; split; [reflexivity | now exists a] | reflexivity].
        -- split; [discriminate | intros [_ [a Ha]]; discriminate Ha].
      * split; [intros e ->; reflexivity | reflexivity].
  - split; [discriminate |]. split; [intros _; split; reflexivity |].
    split; [split; [discriminate | intros [H _]; discriminate H] |].
    split; [reflexivity | reflexivity].
Qed.

Lemma collected_project_data_witness :
  name (_collect_project_data samples.demo_address "contract"
          samples.shipped_facts (Raised "offline")) = "Contract_0x123456"
  /\ name (_collect_project_data "uniswap.eth" "contract"
             samples.shipped_facts (Raised "offline")) = "uniswap.eth".
Proof.
  split.
  - destruct (collected_project_data samples.demo_address "contract"
                samples.shipped_facts (Raised "offline")) as (Haddr & _).
    destruct (Haddr eq_refl) as (Hname & _). rewrite Hname. reflexivity.
  - destruct (collected_project_data "uniswap.eth" "contract"
                samples.shipped_facts (Raised "offline")) as (_ & Hname & _).
    destruct (Hname eq_refl) as (Hn & _). exact Hn.
Defined.


(** X10: [analyze_contract] returns exactly when there is a connection,
    the connection accepts the address and the code found at its checksum
    form is not empty; the analysis then carries that checksum address and
    the creation date read; each failure has its own message, and a failure
    of [get_code] passes through unchanged. *)
Theorem analyze_contract_returns_iff (w3 : option Web3) (created : datetime)
    (contract_address : string) :
  ((exists a, analyze_contract w3 created contract_address = Returned a)
   <-> exists w c code,
         w3 = Some w
         /\ blockchain_analyzer.is_address w contract_address = true
         /\ get_code w (to_checksum_address w contract_address) = Returned (c :: code))
  /\ (forall a w, analyze_contract w3 created contract_address = Returned a ->
      w3 = Some w ->
      address a = to_checksum_address w contract_address
      /\ creation_date a = Some created)
  /\ (w3 = None ->
      analyze_contract w3 created contract_address
      = Raised "No connection available for ethereum")
  /\ (forall w, w3 = Some w ->
      blockchain_analyzer.is_address w contract_address = false ->
      analyze_contract w3 created contract_address
      = Raised ("Invalid address format: " ++ contract_address))
  /\ (forall w, w3 = Some w ->
      blockchain_analyzer.is_address w contract_address = true ->
      get_code w (to_checksum_address w contract_address) = Returned [] ->
      analyze_contract w3 created contract_address
      = Raised ("Address " ++ to_checksum_address w contract_address
                ++ " is not a contract"))
  /\ (forall w e, w3 = Some w ->
      blockchain_analyzer.is_address w contract_address = true ->
      get_code w (to_checksum_address w contract_address) = Raised e ->
      analyze_contract w3 created contract_address = Raised e).
Proof.
  unfold analyze_contract. split; [|split; [|split; [|split; [|split]]]].
  - split.
    + intros [a Ha]. destruct w3 as [w |]; [|discriminate].
      destruct (blockchain_analyzer.is_address w contract_address) eqn:Hi;
        cbn [negb] in Ha; [|discriminate].
      destruct (get_code w (to_checksum_address w contract_address)) as [[|c code] | e]
        eqn:Hc; cbn [bind] in Ha; try discriminate.
      exists w, c, code. repeat split; assumption.
    + intros (w & c & code & -> & Hi & Hc).
      rewrite Hi, Hc. eexists. reflexivity.
  - intros a w Ha ->.
    destruct (blockchain_analyzer.is_address w contract_address); cbn [negb] in Ha;
      [|discriminate].
    destruct (get_code w (to_checksum_address w contract_address)) as [[|c code] | e];
      cbn [bind] in Ha; try discriminate.
    simpl in Ha. injection Ha as <-. split; reflexivity.
  - intros ->. reflexivity.
  - intros w -> Hi. now rewrite Hi.
  - intros w -> Hi Hc. now rewrite Hi, Hc.
  - intros w e -> Hi Hc. now rewrite Hi, Hc.
Qed.

Lemma analyze_contract_returns_iff_witness :
  (exists a, analyze_contract (Some samples.live_web3) "2024-01-01T00:00:00"
               samples.demo_address = Returned a)
  /\ analyze_contract None "2024-01-01T00:00:00" samples.demo_address
     = Raised "No connection available for ethereum".
Proof.
  split.
  - apply (analyze_contract_returns_iff (Some samples.live_web3) "2024-01-01T00:00:00"
             samples.demo_address).
    exists samples.live_web3, "`"%char, []. repeat split.
  - apply (analyze_contract_returns_iff None "2024-01-01T00:00:00" samples.demo_address).
    reflexivity.
Defined.


End OnChainPaths.

(** ** Chains, connections and holders *)

Module ChainFacts.

Import blockchain_analyzer veritas_agent chains.

Lemma connections_of (connect : string -> outcome Web3) :
  _initialize_connections connect
  = ((match connect "https://eth.llamarpc.com" with
      | Returned w3 => [(ETHEREUM, w3)] | Raised _ => [] end)
     ++ (match connect "https://polygon.llamarpc.com" with
         | Returned w3 => [(POLYGON, w3)] | Raised _ => [] end)
     ++ (match connect "https://bsc.llamarpc.com" with
         | Returned w3 => [(BSC, w3)] | Raised _ => [] end))%list.
Proof.
  unfold _initialize_connections, chain_configs. cbn [fold_left rpc_url].
  destruct (connect "https://eth.llamarpc.com"),
    (connect "https://polygon.llamarpc.com"), (connect "https://bsc.llamarpc.com");
    reflexivity.
Qed.

(** X11: Arbitrum and Optimism are members of [ChainType] without an entry
    in [chain_configs]: whatever the network does, an analysis on either
    raises "No connection available for ..." and [quick_contract_score]
    answers 50. *)
Theorem unconfigured_chains_always_fail (connect : string -> outcome Web3)
    (created : datetime) (contract_address : string) :
  analyze_contract_on (_initialize_connections connect) created contract_address ARBITRUM
  = Raised "No connection available for arbitrum"
  /\ analyze_contract_on (_initialize_connections connect) created contract_address OPTIMISM
     = Raised "No connection available for optimism"
  /\ quick_contract_score_on connect created contract_address ARBITRUM = 50
  /\ quick_contract_score_on connect created contract_address OPTIMISM = 50.
Proof.
  assert (Ha : connection (_initialize_connections connect) ARBITRUM = None).
  { rewrite connections_of.
    destruct (connect "https://eth.llamarpc.com"),
      (connect "https://polygon.llamarpc.com"), (connect "https://bsc.llamarpc.com");
      reflexivity. }
  assert (Ho : connection (_initialize_connections connect) OPTIMISM = None).
  { rewrite connections_of.
    destruct (connect "https://eth.llamarpc.com"),
      (connect "https://polygon.llamarpc.com"), (connect "https://bsc.llamarpc.com");
      reflexivity. }
  unfold quick_contract_score_on, analyze_contract_on. rewrite Ha, Ho.
  repeat split.
Qed.

(** X12: each of the three configured chains has a connection exactly when
    its own endpoint could be opened: a failure on one chain neither removes
    nor replaces the connection of another; on Ethereum the analysis is the
    one of that connection. *)
Theorem configured_chain_connections (connect : string -> outcome Web3) :
  connection (_initialize_connections connect) ETHEREUM
  = match connect "https://eth.llamarpc.com" with
    | Returned w3 => Some w3 | Raised _ => None end
  /\ connection (_initialize_connections connect) POLYGON
     = match connect "https://polygon.llamarpc.com" with
       | Returned w3 => Some w3 | Raised _ => None end
  /\ connection (_initialize_connections connect) BSC
     = match connect "https://bsc.llamarpc.com" with
       | Returned w3 => Some w3 | Raised _ => None end
  /\ (forall created contract_address,
        analyze_contract_on (_initialize_connections connect) created contract_address
          ETHEREUM
        = analyze_contract
            (match connect "https://eth.llamarpc.com" with
             | Returned w3 => Some w3 | Raised _ => None end)
            created contract_address).
Proof.
  rewrite connections_of.
  destruct (connect "https://eth.llamarpc.com") as [w1 |],
    (connect "https://polygon.llamarpc.com") as [w2 |],
    (connect "https://bsc.llamarpc.com") as [w3 |];
    repeat split.
Qed.

(** X13: the distribution score is one of 20, 40, 50, 60, 80 and 95, and
    only the first listed holder counts: the other holders and the holder
    total never change it, so a list that puts a holder of at most 10
    percent before one of more than 50 percent scores 95, and 20 the other
    way round. *)
Theorem distribution_score_first_holder_only (h : HolderAnalysis) :
  In (_calculate_distribution_score h) [20; 40; 50; 60; 80; 95]
  /\ (forall top rest rest' n n',
        _calculate_distribution_score (led_by top rest n)
        = _calculate_distribution_score (led_by top rest' n'))
  /\ (forall top big rest n,
        (percentage top <= 10)%Q -> (50 < percentage big)%Q ->
        _calculate_distribution_score (led_by top (big :: rest) n) = 95
        /\ _calculate_distribution_score (led_by big (top :: rest) n) = 20).
Proof.
  split; [|split].
  - unfold _calculate_distribution_score.
    destruct (top_holders h) as [[|top rest] |]; simpl; try tauto.
    destruct (gt (percentage top) 50), (gt (percentage top) 30),
      (gt (percentage top) 20), (gt (percentage top) 10); simpl; tauto.
  - reflexivity.
  - intros top big rest n Htop Hbig. split.
    + now apply (DistributionScore.step_values top (big :: rest) n).
    + now apply (DistributionScore.step_values big (top :: rest) n).
Qed.

Lemma distribution_score_first_holder_only_witness :
  _calculate_distribution_score
    (led_by {| holder_address := "0x1234567890123456789012345678901234567890";
               balance := 5; percentage := 5 |}
            [ {| holder_address := "0x742d35Cc6634C0532925a3b8D4030d542F5a5bD";
                 balance := 90; percentage := 90 |} ] 2) = 95.
Proof.
  destruct (distribution_score_first_holder_only
              {| total_holders := 2; top_holders := None |}) as (_ & _ & Horder).
  apply (Horder {| holder_address := "0x1234567890123456789012345678901234567890";
                   balance := 5; percentage := 5 |}
                {| holder_address := "0x742d35Cc6634C0532925a3b8D4030d542F5a5bD";
                   balance := 90; percentage := 90 |} [] 2).
  - discriminate.
  - reflexivity.
Defined.


End ChainFacts.

(** ** Audits on the shipped provider *)

Module ShippedAudit.

Import blockchain_analyzer veritas_agent.

Lemma shipped_facts_lists (w3 : option Web3) (created : datetime)
    (contract_address : string) (a : ContractAnalysis) :
  analyze_contract w3 created contract_address = Returned a ->
  is_verified a = true
  /\ transaction_count a = 1500
  /\ unique_interactors a = 450
  /\ blockchain_analyzer.risk_factors a
     = ["Owner has full control"; "No timelock on critical functions"]
  /\ security_indicators a
     = ["Contract verified"; "No obvious vulnerabilities"; "Standard patterns used"].
Proof.
  unfold analyze_contract.
  destruct w3 as [w |]; [|discriminate].
  destruct (negb (blockchain_analyzer.is_address w contract_address)); [discriminate |].
  destruct (get_code w (to_checksum_address w contract_address)) as [code | msg];
    simpl; [|discriminate].
  destruct (negb (0 <? Z.of_nat (List.length code))); [discriminate |].
  intros H. injection H as <-. repeat split.
Qed.

(** X14: the shipped provider answers with the same facts for every
    address, so every audit of an address for which it answers has on-chain
    score 90 and overall score 84, with the same three risk factors and the
    same eight positive factors. *)
Theorem shipped_provider_audit (parse_json : string -> option Py.json)
    (judge : Py.json -> outcome (option string)) (history : list HistoryEntry)
    (project_identifier project_type : string) (b : Boundary)
    (w3 w3' : option Web3) (created created' : datetime)
    (a a' : ContractAnalysis) (vs : VeritasScore) (h : list HistoryEntry) :
  is_address project_identifier = true ->
  facts_analyze b = analyze_contract w3 created project_identifier ->
  facts_score b = analyze_contract w3' created' project_identifier ->
  facts_analyze b = Returned a ->
  facts_score b = Returned a' ->
  audit_project parse_json judge history project_identifier project_type b
  = Returned (vs, h) ->
  on_chain_score vs = 90
  /\ overall_score vs = 84
  /\ veritas_agent.risk_factors vs
     = ["Owner has full control"; "No timelock on critical functions";
        "Limited team information"]
  /\ positive_factors vs
     = ["Contract source code verified"; "Active usage (1500 transactions)";
        "Diverse user base (450 unique users)"; "Contract verified";
        "No obvious vulnerabilities"; "Standard patterns used";
        "Positive media coverage"; "Active community"].
Proof.
  intros Haddr Hsrc Hsrc' Ha Ha' Hrun.
  rewrite Ha in Hsrc. symmetry in Hsrc. apply shipped_facts_lists in Hsrc.
  destruct Hsrc as (Hv & Ht & Hu & Hr & Hs).
  rewrite Ha' in Hsrc'. symmetry in Hsrc'.
  apply ShippedProvider.shipped_facts_fixed in Hsrc'.
  destruct Hsrc' as (_ & _ & _ & _ & Hscore).
  apply AuditOutcome.audit_inv in Hrun. destruct Hrun as (d & _ & _ & ->).
  cbn [on_chain_score overall_score veritas_agent.risk_factors positive_factors].
  pose proof (Audit.address_of_audit_truthy project_identifier project_type b Haddr)
    as Htruthy.
  assert (Hon : score (audit_on_chain project_identifier project_type b) = 90).
  { unfold audit_on_chain. rewrite Ha.
    rewrite (OnChainScorer.on_chain_score_of_facts _ a _ Htruthy).
    now rewrite Ha'. }
  assert (Hrisks : risks (audit_on_chain project_identifier project_type b)
                   = ["Owner has full control"; "No timelock on critical functions"]).
  { unfold audit_on_chain. rewrite Ha.
    rewrite (OnChainScorer.on_chain_risks_of_facts _ a _ Htruthy).
    rewrite Hv, Ht, Hr. reflexivity. }
  assert (Hfactors : factors (audit_on_chain project_identifier project_type b)
                     = ["Contract source code verified";
                        "Active usage (1500 transactions)";
                        "Diverse user base (450 unique users)"; "Contract verified";
                        "No obvious vulnerabilities"; "Standard patterns used"]).
  { unfold audit_on_chain. rewrite Ha.
    unfold _analyze_on_chain_data. rewrite Htruthy. cbn [negb factors].
    rewrite Hv, Ht, Hu, Hs. reflexivity. }
  rewrite Hon, Hrisks, Hfactors. repeat split.
Qed.

Lemma shipped_provider_audit_witness :
  exists vs h,
    audit_project samples.no_json samples.oracle_down [] samples.demo_address
      "contract" samples.live_boundary = Returned (vs, h)
    /\ on_chain_score vs = 90
    /\ overall_score vs = 84.
Proof.
  destruct (audit_project samples.no_json samples.oracle_down [] samples.demo_address
              "contract" samples.live_boundary) as [[vs h] | msg] eqn:E;
    [|vm_compute in E; discriminate E].
  destruct (shipped_provider_audit samples.no_json samples.oracle_down []
              samples.demo_address "contract" samples.live_boundary
              (Some samples.live_web3) (Some samples.live_web3)
              "2024-01-01T00:00:00" "2024-01-01T00:00:00" _ _ vs h
              eq_refl eq_refl eq_refl eq_refl eq_refl E) as (Hon & Hoverall & _).
  exists vs, h. repeat split; assumption.
Defined.


End ShippedAudit.

(** ** Main.py: the score bar, the recommendation and the quick audit *)

Module Presentation.

Import blockchain_analyzer veritas_agent main.

Lemma filled_length_checked :
  forallb (fun n => match filled_length (Z.of_nat n) with
                    | Returned f => f =? Z.of_nat n / 5
                    | Raised _ => false
                    end) (seq 0 101) = true.
Proof. vm_compute. reflexivity. Qed.

Lemma filled_length_in_range (score : Z) :
  0 <= score <= 100 -> filled_length score = Returned (score / 5).
Proof.
  intros H. pose proof filled_length_checked as Hall.
  rewrite forallb_forall in Hall.
  specialize (Hall (Z.to_nat score)).
  rewrite Z2Nat.id in Hall by lia.
  assert (Hin : In (Z.to_nat score) (seq 0 101)) by (apply in_seq; lia).
  specialize (Hall Hin).
  destruct (filled_length score) as [f |]; [|discriminate].
  apply Z.eqb_eq in Hall. now subst.
Qed.

(** X15: for a score in 0..100, [get_score_bar] fills [score // 5] cells
    (the division by 100 in floating point loses nothing) and the filled
    and empty cells together are always 20. *)
Theorem score_bar_has_twenty_cells (score : Z) :
  0 <= score <= 100 ->
  filled_length score = Returned (score / 5)
  /\ get_score_bar score
     = Returned (score_color score ++ " ["
                 ++ (repeat_str "█" (score / 5) ++ repeat_str "░" (20 - score / 5))
                 ++ "] " ++ Py.str_of_int score ++ "%")
  /\ (Z.to_nat (score / 5) + Z.to_nat (20 - score / 5) = 20)%nat.
Proof.
  intros H. pose proof (filled_length_in_range score H) as Hf.
  split; [exact Hf |]. split.
  - unfold get_score_bar. rewrite Hf. reflexivity.
  - assert (0 <= score / 5 <= 20).
    { split; [apply Z.div_pos; lia | apply Z.div_le_upper_bound; lia]. }
    lia.
Qed.

Lemma score_bar_has_twenty_cells_witness :
  filled_length 84 = Returned 16
  /\ (Z.to_nat (84 / 5) + Z.to_nat (20 - 84 / 5) = 20)%nat.
Proof.
  destruct (score_bar_has_twenty_cells 84) as (Hf & _ & Hcells); [lia |].
  split; [exact Hf | exact Hcells].
Defined.


Example score_bar_out_of_range :
  filled_length 105 = Returned 21
  /\ filled_length (-5) = Returned (-1)
  /\ repeat_str "░" (20 - 21) = ""
  /\ repeat_str "█" (-1) = "".
Proof. repeat split; vm_compute; reflexivity. Qed.

(** X17: [get_recommendation] puts a confidence below 0.5 before any
    score; otherwise the score alone decides, with the tiers starting at
    85, 70, 55 and 40.  A confidence that is no number ([None], a string, a
    list, a dict) raises; NaN is not below 0.5; an [int] is below 0.5
    exactly when it is at most 0. *)
Theorem recommendation_tiers (score : Z) (confidence : Py.value) :
  (value_lt_float confidence (PyFloat.literal 5 10) = Returned true ->
   get_recommendation score confidence = Returned low_confidence)
  /\ (value_lt_float confidence (PyFloat.literal 5 10) = Returned false ->
      (85 <= score -> get_recommendation score confidence = Returned high_trust)
      /\ (70 <= score < 85 -> get_recommendation score confidence = Returned good_trust)
      /\ (55 <= score < 70 ->
          get_recommendation score confidence = Returned moderate_trust)
      /\ (40 <= score < 55 -> get_recommendation score confidence = Returned low_trust)
      /\ (score < 40 -> get_recommendation score confidence = Returned very_low_trust))
  /\ (forall e, value_lt_float confidence (PyFloat.literal 5 10) = Raised e ->
      get_recommendation score confidence = Raised e)
  /\ (match confidence with
      | Py.PNone | Py.PStr _ | Py.PList _ | Py.PDict _ | Py.PObj _ _ | Py.POpaque _ =>
          returns (get_recommendation score confidence) = false
      | Py.PFloat S754_nan =>
          value_lt_float confidence (PyFloat.literal 5 10) = Returned false
      | Py.PInt n =>
          value_lt_float confidence (PyFloat.literal 5 10) = Returned (n <=? 0)
      | Py.PBool b =>
          value_lt_float confidence (PyFloat.literal 5 10) = Returned (negb b)
      | Py.PFloat _ => True
      end).
Proof.
  unfold get_recommendation.
  split; [|split; [|split]].
  - intros ->. reflexivity.
  - intros ->. cbn [bind].
    repeat split; intros Hs;
      repeat match goal with
             | |- context [?x >=? ?c] =>
                 let E := fresh "E" in
                 destruct (x >=? c) eqn:E;
                 [apply Z.geb_le in E | rewrite Z.geb_leb in E; apply Z.leb_gt in E]
             end; first [reflexivity | lia].
  - intros e ->. reflexivity.
  - destruct confidence as [ | b | n | x | s | l | d | cls attrs | r ]; try reflexivity.
    + destruct b; reflexivity.
    + unfold value_lt_float, int_lt_float. f_equal.
      change (PyFloat.literal 5 10) with (S754_finite false 4503599627370496 (-53)).
      cbn [PyFloat.to_Q]. unfold Qle_bool. simpl Qnum. simpl Qden.
      destruct (n <=? 0) eqn:E.
      * apply Z.leb_le in E. apply negb_true_iff. apply Z.leb_gt. lia.
      * apply Z.leb_gt in E. apply negb_false_iff. apply Z.leb_le. lia.
    + destruct x; try exact I. reflexivity.
Qed.

Lemma recommendation_tiers_witness :
  get_recommendation 84 (Py.PFloat (PyFloat.literal 5 10)) = Returned good_trust
  /\ get_recommendation 84 (Py.PFloat (PyFloat.literal 4 10)) = Returned low_confidence.
Proof.
  split.
  - destruct (recommendation_tiers 84 (Py.PFloat (PyFloat.literal 5 10)))
      as (_ & Htier & _).
    destruct (Htier eq_refl) as (_ & Hgood & _). apply Hgood. lia.
  - destruct (recommendation_tiers 84 (Py.PFloat (PyFloat.literal 4 10)))
      as (Hlow & _).
    apply Hlow. reflexivity.
Defined.


Lemma pipeline_presentation (s : Z) :
  In s [20; 30; 50; 60; 70; 80; 90; 100] ->
  let overall := 6 * s / 10 + 30 in
  filled_length overall = Returned (overall / 5)
  /\ score_color overall
     = (if 90 <=? s then "🟢" else if 50 <=? s then "🟡" else "🟠")
  /\ get_recommendation overall (Py.PFloat (PyFloat.literal 5 10))
     = Returned (if 100 <=? s then high_trust
                 else if 70 <=? s then good_trust
                 else if 50 <=? s then moderate_trust
                 else low_trust).
Proof.
  simpl. intros H.
  repeat (destruct H as [<- | H]; [repeat split; vm_compute; reflexivity |]).
  contradiction.
Qed.

(** X16: for the score of any audit that returns, the score bar is
    built, has between 8 and 18 filled cells, and its colour is green for an
    on-chain score of 90 or more, yellow from 50, orange below: it is never
    red. *)
Theorem audit_presentation (parse_json : string -> option Py.json)
    (judge : Py.json -> outcome (option string)) (history : list HistoryEntry)
    (project_identifier project_type : string) (b : Boundary)
    (vs : VeritasScore) (h : list HistoryEntry) :
  audit_project parse_json judge history project_identifier project_type b
  = Returned (vs, h) ->
  (exists bar, get_score_bar (overall_score vs) = Returned bar)
  /\ filled_length (overall_score vs) = Returned (overall_score vs / 5)
  /\ 8 <= overall_score vs / 5 <= 18
  /\ score_color (overall_score vs)
     = (if 90 <=? on_chain_score vs then "🟢"
        else if 50 <=? on_chain_score vs then "🟡" else "🟠")
  /\ score_color (overall_score vs) <> "🔴".
Proof.
  intros Hrun. apply AuditOutcome.audit_inv in Hrun. destruct Hrun as (d & _ & _ & ->).
  cbn [overall_score on_chain_score].
  pose proof (Audit.on_chain_score_values
                (audit_project_data project_identifier project_type b)
                (facts_analyze b) (facts_score b)) as Hin.
  fold (audit_on_chain project_identifier project_type b) in Hin.
  generalize dependent (score (audit_on_chain project_identifier project_type b)).
  intros s Hin.
  destruct (pipeline_presentation s Hin) as (Hf & Hc & _).
  split; [unfold get_score_bar; rewrite Hf; eexists; reflexivity |].
  split; [exact Hf |]. split.
  - simpl in Hin.
    repeat (destruct Hin as [<- | Hin]; [vm_compute; split; discriminate |]).
    contradiction.
  - split; [exact Hc |]. rewrite Hc.
    destruct (90 <=? s); [discriminate |]. destruct (50 <=? s); discriminate.
Qed.

(** X18: for an audit that returns with a confidence not below 0.5, the
    recommendation follows the on-chain score: high trust only for 100,
    good trust from 70, moderate from 50, low trust below; it is never the
    "very low trust" text and never the low-confidence one. *)
Theorem audit_recommendation (parse_json : string -> option Py.json)
    (judge : Py.json -> outcome (option string)) (history : list HistoryEntry)
    (project_identifier project_type : string) (b : Boundary)
    (vs : VeritasScore) (h : list HistoryEntry) :
  audit_project parse_json judge history project_identifier project_type b
  = Returned (vs, h) ->
  value_lt_float (confidence_level vs) (PyFloat.literal 5 10) = Returned false ->
  get_recommendation (overall_score vs) (confidence_level vs)
  = Returned (if 100 <=? on_chain_score vs then high_trust
              else if 70 <=? on_chain_score vs then good_trust
              else if 50 <=? on_chain_score vs then moderate_trust
              else low_trust)
  /\ get_recommendation (overall_score vs) (confidence_level vs)
     <> Returned very_low_trust
  /\ get_recommendation (overall_score vs) (confidence_level vs)
     <> Returned low_confidence.
Proof.
  intros Hrun Hconf. apply AuditOutcome.audit_inv in Hrun.
  destruct Hrun as (d & _ & _ & Hvs).
  assert (Hin : In (on_chain_score vs) [20; 30; 50; 60; 70; 80; 90; 100]).
  { rewrite Hvs. cbn [on_chain_score]. apply Audit.on_chain_score_values. }
  assert (Ho : overall_score vs = 6 * on_chain_score vs / 10 + 30).
  { rewrite Hvs. reflexivity. }
  assert (Hrec : get_recommendation (overall_score vs) (confidence_level vs)
                 = Returned (if 100 <=? on_chain_score vs then high_trust
                             else if 70 <=? on_chain_score vs then good_trust
                             else if 50 <=? on_chain_score vs then moderate_trust
                             else low_trust)).
  { unfold get_recommendation. rewrite Hconf, Ho. cbn [bind].
    clear Ho Hconf Hvs. revert Hin. generalize (on_chain_score vs).
    intros s Hin. simpl in Hin.
    repeat (destruct Hin as [<- | Hin]; [vm_compute; reflexivity |]).
    contradiction. }
  split; [exact Hrec |]. rewrite Hrec.
  split; destruct (100 <=? on_chain_score vs), (70 <=? on_chain_score vs),
    (50 <=? on_chain_score vs); discriminate.
Qed.

(** X19: [quick_audit] raises only when the API key is missing or empty,
    since the agent is built before its [try]; with a key it always
    returns, either the nine-field success dict or the three-field failure
    dict with [success] false and the time of the failure; when the oracle
    fails it still succeeds, with confidence 0.5 and one risk more than the
    on-chain analysis reported. *)
Theorem quick_audit_outcomes (api_key : option string)
    (parse_json : string -> option Py.json)
    (judge : Py.json -> outcome (option string))
    (project_address : string) (b : Boundary) (now : datetime) :
  (Py.truthy_str api_key = false ->
   quick_audit api_key parse_json judge project_address b now
   = Raised "OPENAI_API_KEY environment variable is required")
  /\ (Py.truthy_str api_key = true ->
      exists result,
        quick_audit api_key parse_json judge project_address b now = Returned result
        /\ (Py.keys result
            = ["success"; "overall_score"; "confidence"; "on_chain_score";
               "off_chain_score"; "risk_count"; "positive_count"; "timestamp";
               "recommendation"]
            /\ Py.dict_get result "success" = Some (Py.PBool true)
            \/ Py.keys result = ["success"; "error"; "timestamp"]
               /\ Py.dict_get result "success" = Some (Py.PBool false)
               /\ Py.dict_get result "timestamp" = Some (Py.PStr now)))
  /\ (Py.truthy_str api_key = true ->
      (forall prompt,
         Py.json_dumps (audit_evidence project_address "contract" b) = Returned prompt ->
         oracle_failed parse_json (judge prompt) = true) ->
      exists result,
        quick_audit api_key parse_json judge project_address b now = Returned result
        /\ Py.dict_get result "success" = Some (Py.PBool true)
        /\ Py.dict_get result "confidence" = Some (Py.PFloat (PyFloat.literal 5 10))
        /\ Py.dict_get result "off_chain_score" = Some (Py.PInt 75)
        /\ Py.dict_get result "risk_count"
           = Some (Py.PInt (Z.of_nat (List.length
                      (risks (audit_on_chain project_address "contract" b))) + 1))
        /\ Py.dict_get result "timestamp" = Some (Py.PStr (clock_score b))).
Proof.
  unfold quick_audit. split; [|split].
  - destruct api_key as [[|c s] |]; try discriminate; reflexivity.
  - destruct api_key as [[|c s] |]; try discriminate. intros _.
    cbn [report._initialize_openai bind].
    destruct (audit_project parse_json judge [] project_address "contract" b)
      as [[vs h] | e]; cbn [bind fst].
    + destruct (get_recommendation (overall_score vs) (confidence_level vs)) as [r | e];
        cbn [bind]; eexists; (split; [reflexivity |]).
      * left. split; reflexivity.
      * right. repeat split.
    + eexists. split; [reflexivity |]. right. repeat split.
  - destruct api_key as [[|c s] |]; try discriminate. intros _ Hfail.
    cbn [report._initialize_openai bind].
    pose proof (Audit.judgment_degraded parse_json judge _ Hfail) as Hj.
    fold (audit_judgment parse_json judge project_address "contract" b) in Hj.
    destruct (Audit.audit_returns parse_json judge [] project_address "contract" b _ Hj)
      as (vs & Hrun & Hvs).
    rewrite Hrun. cbn [bind fst].
    assert (Hin : In (on_chain_score vs) [20; 30; 50; 60; 70; 80; 90; 100]).
    { rewrite Hvs. cbn [on_chain_score]. apply Audit.on_chain_score_values. }
    assert (Hrec : exists r, get_recommendation (overall_score vs) (confidence_level vs)
                             = Returned r).
    { rewrite Hvs. cbn [overall_score confidence_level].
      rewrite Hvs in Hin. cbn [on_chain_score] in Hin.
      destruct (pipeline_presentation _ Hin) as (_ & _ & Hr).
      eexists. exact Hr. }
    destruct Hrec as [r Hr]. rewrite Hr. cbn [bind].
    eexists. split; [reflexivity |].
    rewrite Hvs. cbn -[Z.of_nat]. rewrite length_app. cbn [List.length].
    repeat split. do 3 f_equal. lia.
Qed.

Lemma audit_presentation_witness :
  exists vs h bar,
    audit_project samples.no_json samples.oracle_down [] samples.demo_address
      "contract" samples.live_boundary = Returned (vs, h)
    /\ get_score_bar (overall_score vs) = Returned bar
    /\ score_color (overall_score vs) <> "🔴".
Proof.
  destruct (audit_project samples.no_json samples.oracle_down [] samples.demo_address
              "contract" samples.live_boundary) as [[vs h] | msg] eqn:E;
    [|vm_compute in E; discriminate E].
  destruct (audit_presentation _ _ _ _ _ _ _ _ E) as ((bar & Hbar) & _ & _ & _ & Hred).
  exists vs, h, bar. repeat split; assumption.
Defined.

Lemma audit_recommendation_witness :
  exists vs h,
    audit_project samples.no_json samples.oracle_down [] samples.demo_address
      "contract" samples.live_boundary = Returned (vs, h)
    /\ get_recommendation (overall_score vs) (confidence_level vs)
       <> Returned very_low_trust.
Proof.
  destruct (audit_project samples.no_json samples.oracle_down [] samples.demo_address
              "contract" samples.live_boundary) as [[vs h] | msg] eqn:E;
    [|vm_compute in E; discriminate E].
  assert (Hconf : value_lt_float (confidence_level vs) (PyFloat.literal 5 10)
                  = Returned false).
  { pose proof E as E'. vm_compute in E'. injection E' as <- _. reflexivity. }
  destruct (audit_recommendation _ _ _ _ _ _ _ _ E Hconf) as (_ & Hnot & _).
  exists vs, h. split; [reflexivity | exact Hnot].
Defined.

Lemma quick_audit_outcomes_witness :
  quick_audit None samples.no_json samples.oracle_down samples.demo_address
    samples.live_boundary "2024-01-01T00:00:02"
  = Raised "OPENAI_API_KEY environment variable is required"
  /\ exists result,
       quick_audit (Some "sk-test") samples.no_json samples.oracle_down
         samples.demo_address samples.live_boundary "2024-01-01T00:00:02"
       = Returned result
       /\ Py.dict_get result "success" = Some (Py.PBool true).
Proof.
  split.
  - apply (quick_audit_outcomes None samples.no_json samples.oracle_down
             samples.demo_address samples.live_boundary "2024-01-01T00:00:02").
    reflexivity.
  - destruct (quick_audit_outcomes (Some "sk-test") samples.no_json samples.oracle_down
                samples.demo_address samples.live_boundary "2024-01-01T00:00:02")
      as (_ & _ & Hfail).
    destruct Hfail as (result & Hrun & Hsuccess & _).
    + reflexivity.
    + intros prompt _. reflexivity.
    + exists result. split; assumption.
Defined.

End Presentation.

(** ** web_scraper.py *)

Module ScraperFacts.

Import web_scraper.

Lemma lower_char_facts (c : ascii) :
  lower_char (lower_char c) = lower_char c
  /\ (lower_char c = " "%char <-> c = " "%char)
  /\ (Nat.leb 65 (nat_of_ascii (lower_char c))
      && Nat.leb (nat_of_ascii (lower_char c)) 90 = false).
Proof.
  destruct c as [[] [] [] [] [] [] [] []]; vm_compute;
    repeat split; intros; try reflexivity; try discriminate.
Qed.

(** The slug of a term that is not empty is not empty. *)
Lemma slug_not_empty (c : ascii) (r : string) :
  lower (replace_space "-" (String c r)) <> "".
Proof.
  simpl. destruct (Ascii.eqb c " "); discriminate.
Qed.

Lemma replace_dash_no_space (s : string) :
  ~ In " "%char (list_ascii_of_string (replace_space "-" s)).
Proof.
  induction s as [|c r IH]; simpl; [tauto |].
  destruct (Ascii.eqb c " ") eqn:E; simpl.
  - intros [H | H]; [discriminate H | contradiction].
  - apply Ascii.eqb_neq in E. intros [H | H]; [now apply E | contradiction].
Qed.

Lemma lower_keeps_no_space (s : string) :
  ~ In " "%char (list_ascii_of_string s) ->
  ~ In " "%char (list_ascii_of_string (lower s)).
Proof.
  induction s as [|c r IH]; simpl; [tauto |].
  intros Hnot [H | H].
  - destruct (lower_char_facts c) as (_ & Hsp & _).
    apply Hsp in H. apply Hnot. left. exact H.
  - apply IH; [|exact H]. intros Hin. apply Hnot. now right.
Qed.

Lemma lower_no_capital (s : string) (c : ascii) :
  In c (list_ascii_of_string (lower s)) ->
  Nat.leb 65 (nat_of_ascii c) && Nat.leb (nat_of_ascii c) 90 = false.
Proof.
  induction s as [|a r IH]; simpl; [tauto |].
  intros [<- | H]; [apply lower_char_facts | now apply IH].
Qed.

Lemma lower_idempotent (s : string) : lower (lower s) = lower s.
Proof.
  induction s as [|c r IH]; simpl; [reflexivity |].
  rewrite IH. f_equal. apply lower_char_facts.
Qed.

Lemma replace_space_without (new s : string) :
  ~ In " "%char (list_ascii_of_string s) -> replace_space new s = s.
Proof.
  induction s as [|c r IH]; simpl; [reflexivity |].
  intros Hnot. destruct (Ascii.eqb c " ") eqn:E.
  - apply Ascii.eqb_eq in E. exfalso. apply Hnot. now left.
  - f_equal. apply IH. intros Hin. apply Hnot. now right.
Qed.

(** X20: the slug [safe_term] built for an article URL holds no space and
    no capital letter A-Z and is never empty (the empty term becomes
    "unknown"), and building the slug of a slug changes nothing. *)
Theorem safe_term_is_a_slug (term : string) :
  (forall c, In c (list_ascii_of_string (safe_term term)) ->
     c <> " "%char
     /\ Nat.leb 65 (nat_of_ascii c) && Nat.leb (nat_of_ascii c) 90 = false)
  /\ safe_term term <> ""
  /\ safe_term "" = "unknown"
  /\ safe_term (safe_term term) = safe_term term.
Proof.
  assert (Hslug : forall t c, In c (list_ascii_of_string (lower (replace_space "-" t))) ->
            c <> " "%char
            /\ Nat.leb 65 (nat_of_ascii c) && Nat.leb (nat_of_ascii c) 90 = false).
  { intros t c Hin. split.
    - intros ->. revert Hin. apply lower_keeps_no_space, replace_dash_no_space.
    - exact (lower_no_capital _ _ Hin). }
  assert (Hidem : forall t, lower (replace_space "-" (lower (replace_space "-" t)))
                            = lower (replace_space "-" t)).
  { intros t. rewrite (replace_space_without "-" (lower (replace_space "-" t))).
    - apply lower_idempotent.
    - apply lower_keeps_no_space, replace_dash_no_space. }
  split; [|split; [|split]].
  - destruct term as [|a r].
    + simpl. intros c H.
      repeat (destruct H as [<- | H]; [split; [discriminate | reflexivity] |]).
      contradiction.
    + apply Hslug.
  - destruct term as [|a r]; [discriminate | apply slug_not_empty].
  - reflexivity.
  - destruct term as [|a r]; [reflexivity |].
    unfold safe_term at 2 3.
    pose proof (slug_not_empty a r) as Hne.
    destruct (lower (replace_space "-" (String a r))) as [|a' r'] eqn:E;
      [contradiction |].
    unfold safe_term. rewrite <- E. apply Hidem.
Qed.

(** X21: [_search_news_sources] returns four articles per search term, in
    term order and within a term in source order: the article at position
    [4 * i + j] is the one of term [i] and source [j]; no term, no
    article. *)
Theorem news_articles_by_term_and_source (search_terms : list string) :
  List.length (_search_news_sources search_terms)
  = (4 * List.length search_terms)%nat
  /\ (forall i j term source,
        nth_error search_terms i = Some term ->
        nth_error news_sources j = Some source ->
        nth_error (_search_news_sources search_terms) (4 * i + j)
        = Some (article term source))
  /\ _search_news_sources [] = [].
Proof.
  split; [|split; [|reflexivity]].
  - induction search_terms as [|t r IH]; [reflexivity |].
    unfold _search_news_sources in *. cbn [flat_map].
    rewrite length_app, IH. simpl. lia.
  - induction search_terms as [|t r IH]; intros i j term source Hi Hj.
    + destruct i; discriminate Hi.
    + assert (Hj4 : (j < 4)%nat).
      { change 4%nat with (List.length news_sources).
        apply nth_error_Some. rewrite Hj. discriminate. }
      unfold _search_news_sources in *. cbn [flat_map].
      destruct i as [|i].
      * injection Hi as <-. rewrite Nat.mul_0_r, Nat.add_0_l.
        rewrite nth_error_app1 by (simpl; lia).
        rewrite nth_error_map, Hj. reflexivity.
      * rewrite nth_error_app2 by (simpl; lia).
        replace (4 * S i + j - List.length (map (article t) news_sources))%nat
          with (4 * i + j)%nat by (simpl; lia).
        now apply IH.
Qed.

(** X22: [_search_official_sources] builds one https URL from the project
    name and returns at most one entry: none when fetching that URL raises,
    and otherwise one entry marked verified whatever was fetched, its
    content being the empty string when nothing could be extracted. *)
Theorem official_source_entry (fetch : string -> outcome (option string))
    (project_name : string) :
  exists website_url,
    _find_official_website project_name = Some website_url
    /\ String.prefix "https://" website_url = true
    /\ (forall e, fetch website_url = Raised e ->
          _search_official_sources fetch project_name = [])
    /\ (forall text, fetch website_url = Returned text ->
          _search_official_sources fetch project_name
          = [ Py.PDict [ ("type", Py.PStr "official_website");
                         ("url", Py.PStr website_url);
                         ("content", Py.PStr match text with Some t => t | None => "" end);
                         ("verified", Py.PBool true) ] ])
    /\ (List.length (_search_official_sources fetch project_name) <= 1)%nat.
Proof.
  unfold _search_official_sources, _find_official_website.
  set (safe_name := match project_name with
                    | "" => "unknown"
                    | String _ _ => replace_space "" (lower project_name)
                    end).
  exists ("https://" ++ safe_name ++ ".com"). split; [reflexivity |].
  assert (Hpre : String.prefix "https://" ("https://" ++ safe_name ++ ".com") = true).
  { simpl. destruct (safe_name ++ ".com"); reflexivity. }
  split; [exact Hpre |].
  cbn [String.append]. unfold get_website_text_content.
  change (String "h" (String "t" (String "t" (String "p" (String "s" (String ":"
            (String "/" (String "/" (safe_name ++ ".com")))))))))
    with ("https://" ++ safe_name ++ ".com").
  repeat split.
  - intros e ->. reflexivity.
  - intros text ->. reflexivity.
  - destruct (fetch ("https://" ++ safe_name ++ ".com")); simpl; lia.
Qed.

(** X23: [scrape_project_mentions] always returns its seven sections in
    the same order; it holds 8 news articles when a non-empty address is
    given and 4 otherwise, exactly four partnership claims, each pending,
    and leaves the social-media, forum, sentiment and team sections
    empty. *)
Theorem scraped_mentions_shape (fetch : string -> outcome (option string))
    (project_name : string) (project_address : option string) :
  Py.keys (scrape_project_mentions fetch project_name project_address)
  = ["news_articles"; "social_media"; "forums"; "official_sources";
     "sentiment_indicators"; "partnership_claims"; "team_information"]
  /\ (exists articles,
        Py.dict_get (scrape_project_mentions fetch project_name project_address)
          "news_articles" = Some (Py.PList articles)
        /\ List.length articles
           = (if Py.truthy_str project_address then 8 else 4)%nat)
  /\ (exists claims,
        Py.dict_get (scrape_project_mentions fetch project_name project_address)
          "partnership_claims" = Some (Py.PList claims)
        /\ List.length claims = 4%nat
        /\ forall claim, In claim claims ->
             exists d, claim = Py.PDict d
                       /\ Py.dict_get d "verification_status" = Some (Py.PStr "pending"))
  /\ (forall key, In key ["social_media"; "forums"; "sentiment_indicators";
                          "team_information"] ->
        Py.dict_get (scrape_project_mentions fetch project_name project_address) key
        = Some (Py.PList [])).
Proof.
  unfold scrape_project_mentions. split; [reflexivity |]. split; [|split].
  - eexists. split; [reflexivity |].
    destruct project_address as [[|c s] |]; reflexivity.
  - eexists. split; [reflexivity |]. split; [reflexivity |].
    unfold _search_partnerships. intros claim Hin. simpl in Hin.
    repeat (destruct Hin as [<- | Hin]; [eexists; split; reflexivity |]).
    contradiction.
  - intros key Hin. simpl in Hin.
    repeat (destruct Hin as [<- | Hin]; [reflexivity |]).
    contradiction.
Qed.

Lemma safe_term_is_a_slug_witness :
  safe_term "Uniswap V2" = "uniswap-v2"
  /\ "-"%char <> " "%char
  /\ safe_term (safe_term "Uniswap V2") = safe_term "Uniswap V2".
Proof.
  destruct (safe_term_is_a_slug "Uniswap V2") as (Hchars & _ & _ & Hidem).
  split; [reflexivity |]. split; [| exact Hidem].
  apply (Hchars "-"%char). simpl. tauto.
Defined.

Lemma news_articles_by_term_and_source_witness :
  nth_error (_search_news_sources ["Uniswap"; "0x1234567890123456789012345678901234567890"])
    6
  = Some (article "0x1234567890123456789012345678901234567890" "https://decrypt.co").
Proof.
  destruct (news_articles_by_term_and_source
              ["Uniswap"; "0x1234567890123456789012345678901234567890"])
    as (_ & Hnth & _).
  apply (Hnth 1%nat 2%nat); reflexivity.
Defined.

Lemma official_source_entry_witness :
  _search_official_sources (fun _ => Raised "Read timed out") "Uniswap V2" = []
  /\ List.length (_search_official_sources (fun _ => Returned None) "Uniswap V2") = 1%nat.
Proof.
  split.
  - destruct (official_source_entry (fun _ => Raised "Read timed out") "Uniswap V2")
      as (url & _ & _ & Hraise & _).
    apply (Hraise "Read timed out"). reflexivity.
  - destruct (official_source_entry (fun _ => Returned None) "Uniswap V2")
      as (url & _ & _ & _ & Hret & _).
    rewrite (Hret None eq_refl). reflexivity.
Defined.

Lemma scraped_mentions_shape_witness :
  Py.dict_get
    (scrape_project_mentions (fun _ => Raised "Read timed out") "Uniswap"
       (Some "0x1234567890123456789012345678901234567890")) "forums"
  = Some (Py.PList []).
Proof.
  destruct (scraped_mentions_shape (fun _ => Raised "Read timed out") "Uniswap"
              (Some "0x1234567890123456789012345678901234567890"))
    as (_ & _ & _ & Hempty).
  apply Hempty. simpl. tauto.
Defined.

End ScraperFacts.
